(** * a_unet/blocks.py: a shallow embedding and its verified properties

    The Python module [a_unet/blocks.py] assembles U-Net style networks from
    templates ([T], [Ts]), block combinators ([Sequential], [Skip],
    [Repeat]), primitive blocks ([Downsample], [Upsample], [Attention]),
    conditioning plugins ([ClassifierFreeGuidancePlugin]) and the tabular
    embedding generator ([TabularDataEmbeddingGenerator]).

    Conventions of the embedding:
    - a Python [int] is a [Z]; [//] is [Z.div] (both round to the floor);
    - a Python exception is a value of [PyError]; code that can raise
      returns a [result];
    - a keyword dictionary is a [gmap string V];
    - a callable block with side effects (an [nn.Module]) is a function into
      the state-and-error monad [M S];
    - module objects that can be shared live in a heap [gmap loc obj];
    - tensors of the array engine are kept abstract wherever the code only
      passes them on; tabular weights are exact rationals;
    - a Python [float] that is only compared is a rational, an infinity or
      not-a-number. *)

From stdpp Require Import gmap strings list fin_maps pretty.
From Stdlib Require Import ZArith QArith Lia.

Set Default Proof Using "Type".
Local Open Scope Z_scope.

(** ** Python exceptions and the result type *)

Inductive PyError : Type :=
  | AssertionError (msg : string)
  | IndexError
  | NameError (name : string)
  | AttributeError
  | RuntimeError
  | ValueError
  | ZeroDivisionError.

Inductive result (A : Type) : Type :=
  | Ok (a : A)
  | Raise (e : PyError).
Arguments Ok {A} a.
Arguments Raise {A} e.

Definition result_bind {A B} (f : A → result B) (r : result A) : result B :=
  match r with
  | Ok a => f a
  | Raise e => Raise e
  end.

#[global] Instance result_mret : MRet result := λ A a, Ok a.
#[global] Instance result_mbind : MBind result := λ A B f r, result_bind f r.

Definition is_Ok {A} (r : result A) : Prop := ∃ a, r = Ok a.
Definition is_Raise {A} (r : result A) : Prop := ∃ e, r = Raise e.

(** [assert cond, msg] *)
Definition py_assert (cond : bool) (msg : string) : result unit :=
  if cond then Ok tt else Raise (AssertionError msg).

(** ** Helper functions: [exists] and [default] *)

Definition exists_ {V} (val : option V) : bool :=
  match val with Some _ => true | None => false end.

Definition default_ {V} (val : option V) (d : V) : V :=
  match val with Some v => v | None => d end.

(** ** The template engine: class [T] *)

Module Template.
Section WithTypes.
(** [V] is the type of argument values, [R] what the wrapped callable
    returns (for a constructor, the object it builds). *)
Context {V R : Type}.

Definition args : Type := list V.
Abbreviation kwargs := (gmap string V).

(** [d.update(other)]: the entries of [other] win on a key collision. *)
Definition dict_update (d other : kwargs) : kwargs := other ∪ d.

(** The dictionary display [{**d1, **d2}]: an empty dictionary updated
    with [d1], then with [d2]. *)
Definition dict_display2 (d1 d2 : kwargs) : kwargs :=
  dict_update (dict_update ∅ d1) d2.

(** [T.__init__(self, t, override=True)] *)
Record T : Type := mkT {
  t : args → kwargs → R;
  override : bool
}.

(** The local class [Inner]: its instance dictionary holds [args] and the
    captured keywords (a keyword named [args] replaces the tuple); its
    [__call__] closes over [t], [override], [a] and [ka]. *)
Record Inner : Type := mkInner {
  inner_dict : gmap string (args + V);
  inner_call : args → kwargs → R
}.

(** [T.__call__(self, *a, **ka)]: [a] and [ka] are the values bound to the
    two starred parameters, and [b] and [kb] those of [Inner.__call__]. *)
Definition T_call (self : T) (a : args) (ka : kwargs) : Inner :=
  let t := t self in
  let override := override self in
  {| inner_dict := (inr <$> ka) ∪ {[ "args"%string := inl a ]};
     inner_call := λ b kb,
       if override
       then t (a ++ b) (dict_display2 ka kb)
       else t (b ++ a) (dict_display2 kb ka) |}.
End WithTypes.
Arguments T : clear implicits.
Arguments Inner : clear implicits.
End Template.

(** ** The state-and-error monad of callable blocks

    Calling an [nn.Module] may read and change state (parameters, buffers,
    the random generator) and may raise. [M S A] is a computation over a
    state of type [S] that returns an [A] or raises. *)

Definition M (S A : Type) : Type := S → result (A * S).

Definition M_ret {S A} (a : A) : M S A := λ s, Ok (a, s).

Definition M_bind {S A B} (f : A → M S B) (m : M S A) : M S B :=
  λ s, match m s with
       | Ok (a, s') => f a s'
       | Raise e => Raise e
       end.

#[global] Instance M_mret S : MRet (M S) := λ A a, M_ret a.
#[global] Instance M_mbind S : MBind (M S) := λ A B f m, M_bind f m.

(** A computation that only may raise, run inside [M]. *)
Definition lift {S A} (r : result A) : M S A :=
  λ s, match r with
       | Ok a => Ok (a, s)
       | Raise e => Raise e
       end.

(** Two computations that behave alike from every state. *)
Definition M_equiv {S A} (m1 m2 : M S A) : Prop := ∀ s, m1 s = m2 s.
Infix "≃" := M_equiv (at level 70, no associativity).

(** ** Block combinators: [Sequential] and [Skip] *)

Module Combinators.
Section WithTypes.
(** [S]: the state blocks act on; [X]: the primary signal (a tensor);
    [A]: an auxiliary positional argument. *)
Context {S X A : Type}.

(** A block called as [block(x, *args)]. *)
Definition block : Type := X → list A → M S X.

(** [Sequential.__init__(self, *blocks)] *)
Record Sequential : Type := mkSequential {
  blocks : list block
}.

(** The loop of [Sequential.forward]: [for block in blocks: x = block(x, *args)] *)
Fixpoint forward_loop (blocks : list block) (x : X) (args : list A) : M S X :=
  match blocks with
  | [] => mret x
  | block :: rest => x' ← block x args; forward_loop rest x' args
  end.

(** [Sequential.forward(self, x, *args)] *)
Definition Sequential_forward (self : Sequential) (x : X) (args : list A) : M S X :=
  forward_loop (blocks self) x args.

(** [Skip(merge_fn)] returns a subclass of [Sequential]; this is the
    [forward] of that class:
    [return merge_fn(x, super().forward(x, *args))]. *)
Definition Skip_forward (merge_fn : X → X → M S X)
    (self : Sequential) (x : X) (args : list A) : M S X :=
  y ← Sequential_forward self x args; merge_fn x y.

(** The contract in the words of the specification:
    [childN(...(child1(x, *aux), *aux)..., *aux)], the nesting built from
    the inside out. *)
Definition nested_application (children : list block) (x : X) (aux : list A)
  : M S X :=
  fold_left (λ inner child, y ← inner; child y aux) children (mret x).
End WithTypes.
Arguments block : clear implicits.
Arguments Sequential : clear implicits.

Section Recording.
Context {S X A : Type}.

(** A child that records the auxiliary arguments it is called with, in
    call order, next to the state of the chain, and then behaves as
    [child]. *)
Definition recording (child : block S X A) : block (S * list (list A)) X A :=
  λ x args '(s, seen),
    match child x args s with
    | Ok (y, s') => Ok (y, (s', seen ++ [args]))
    | Raise e => Raise e
    end.
End Recording.
End Combinators.

(** ** Module objects on the heap: [Ts] and [Repeat] *)

Module Repetition.

Definition loc : Type := positive.

Section WithParams.
(** [P]: the parameters a leaf module holds. *)
Context {P : Type}.

(** A built module is an object on the heap: a leaf with its parameters,
    or a [Sequential] holding references to its blocks. *)
Inductive obj : Type :=
  | LeafModule (params : P)
  | SequentialModule (blocks : list loc).

Abbreviation heap := (gmap loc obj).

(** Anything that is called with no arguments and returns a module: a
    module class, a [T] instantiator, or a factory returned by [Ts]. *)
Definition template : Type := M heap loc.

(** The first argument of [Repeat]: a built instance, for which
    [isinstance(m, nn.Module)] holds, or a template, for which it does
    not. *)
Inductive module_or_type : Type :=
  | Instance (m : loc)
  | Template (m : template).

(** Allocation of a new object. *)
Definition alloc (o : obj) : M heap loc :=
  λ h, let l := fresh (dom h) in Ok (l, <[l := o]> h).

(** Calling a leaf module class: [cls()] builds a new instance. *)
Definition leaf_class (init : P) : template := alloc (LeafModule init).

(** The constructor of [Sequential], called with the blocks unpacked. *)
Definition Sequential (blocks : list loc) : M heap loc :=
  alloc (SequentialModule blocks).

(** The list comprehension [[tp() for tp in types]]. *)
Fixpoint instantiate_all (types : list template) : M heap (list loc) :=
  match types with
  | [] => mret []
  | tp :: rest => l ← tp; ls ← instantiate_all rest; mret (l :: ls)
  end.

(** [Ts(t)]: given [types], the factory that calls [t] on the unpacked
    list [[tp() for tp in types]]. *)
Definition Ts (t : list loc → M heap loc) (types : list template) : template :=
  ls ← instantiate_all types; t ls.

(** The tuple [(m,) * times]: empty when [times] is not positive. *)
Definition tuple_mul {T : Type} (m : T) (times : Z) : list T :=
  replicate (Z.to_nat times) m.

(** [Repeat(m, times)]: the conditional on [isinstance(m, nn.Module)] is
    the match on [m]; a built instance gives a built chain, a template
    gives the factory [Ts(Sequential)] of the tuple. *)
Definition Repeat (m : module_or_type) (times : Z) : M heap module_or_type :=
  match m with
  | Instance l =>
      let ms := tuple_mul l times in
      s ← Sequential ms; mret (Instance s)
  | Template tp =>
      let ms := tuple_mul tp times in
      mret (Template (Ts Sequential ms))
  end.


(** A mutation of the parameters of the leaf at [l] (what an optimiser
    step or an in-place update does). *)
Definition set_params (l : loc) (p : P) (h : heap) : heap :=
  match h !! l with
  | Some (LeafModule _) => <[l := LeafModule p]> h
  | _ => h
  end.

(** The blocks of the chain at [s]. *)
Definition chain_blocks (h : heap) (s : loc) : option (list loc) :=
  match h !! s with
  | Some (SequentialModule ls) => Some ls
  | _ => None
  end.

(** What it means for a template to construct: whenever it returns, the
    module it returns is a new object, and the objects that existed before
    are as they were. *)
Definition constructs (tp : template) : Prop :=
  ∀ h l h', tp h = Ok (l, h') →
    h !! l = None ∧ is_Some (h' !! l) ∧
    ∀ l', is_Some (h !! l') → h' !! l' = h !! l'.
End WithParams.
Arguments obj : clear implicits.
Arguments template : clear implicits.
Arguments module_or_type : clear implicits.
End Repetition.

(** ** Dimension-agnostic convolutions, [Downsample] and [Upsample] *)

(** Indexing a Python list: a negative index counts from the end, an
    index outside [-len, len) raises [IndexError]. *)
Definition py_getitem {A} (l : list A) (i : Z) : result A :=
  let n := Z.of_nat (length l) in
  let j := if i <? 0 then i + n else i in
  if (0 <=? j) && (j <? n)
  then match l !! Z.to_nat j with
       | Some x => Ok x
       | None => Raise IndexError
       end
  else Raise IndexError.

Module Convolution.

(** The classes of the array engine that [Conv] and [ConvTranspose]
    choose from. *)
Inductive conv_class : Type :=
  | Conv1d | Conv2d | Conv3d
  | ConvTranspose1d | ConvTranspose2d | ConvTranspose3d.

(** What the callers below hand to the chosen class: the keyword
    arguments they compute, and the keywords they pass through. *)
Record conv_module {K : Type} : Type := mkConv {
  conv_cls : conv_class;
  kernel_size : Z;
  stride : Z;
  padding : Z;
  conv_kwargs : K
}.
Arguments conv_module : clear implicits.
Arguments mkConv : clear implicits.

Section WithKwargs.
Context {K : Type}.

(** [Conv(dim, *args, **kwargs)] *)
Definition Conv (dim : Z) (kernel_size stride padding : Z) (kwargs : K)
  : result (conv_module K) :=
  cls ← py_getitem [Conv1d; Conv2d; Conv3d] (dim - 1);
  Ok (mkConv K cls kernel_size stride padding kwargs).

(** [ConvTranspose(dim, *args, **kwargs)] *)
Definition ConvTranspose (dim : Z) (kernel_size stride padding : Z)
  (kwargs : K) : result (conv_module K) :=
  cls ← py_getitem [ConvTranspose1d; ConvTranspose2d; ConvTranspose3d] (dim - 1);
  Ok (mkConv K cls kernel_size stride padding kwargs).

(** The type of the [conv_t] and [conv_tranpose_t] parameters. *)
Definition conv_ctor : Type := Z → Z → Z → Z → K → result (conv_module K).

(** [Downsample(dim, factor=2, width=1, conv_t=Conv, **kwargs)] *)
Definition Downsample (dim factor width : Z) (conv_t : conv_ctor)
  (kwargs : K) : result (conv_module K) :=
  let width := if 1 <? factor then width else 1 in
  conv_t dim (factor * width) factor ((factor * width - factor) / 2) kwargs.

(** [Upsample(dim, factor=2, width=1, conv_t=Conv,
    conv_tranpose_t=ConvTranspose, **kwargs)] *)
Definition Upsample (dim factor width : Z) (conv_t conv_tranpose_t : conv_ctor)
  (kwargs : K) : result (conv_module K) :=
  let width := if 1 <? factor then width else 1 in
  conv_tranpose_t dim (factor * width) factor
    ((factor * width - factor) / 2) kwargs.
End WithKwargs.

(** The specification's reading of the two functions: the width is forced
    to 1 when the factor is 1, and the rank selects the class. *)
Definition spec_width (factor width : Z) : Z :=
  if factor =? 1 then 1 else width.

Definition spec_class (transposed : bool) (dim : Z) : conv_class :=
  if dim =? 1 then (if transposed then ConvTranspose1d else Conv1d)
  else if dim =? 2 then (if transposed then ConvTranspose2d else Conv2d)
  else (if transposed then ConvTranspose3d else Conv3d).
End Convolution.

(** ** Attention *)

(** Truth value of an [Optional[int]]: [None] and [0] are false. *)
Definition py_truthy (val : option Z) : bool :=
  match val with
  | Some n => negb (n =? 0)
  | None => false
  end.

(** Unpacking a sequence into three names: any other length raises
    [ValueError]. *)
Definition unpack3 {A} (l : list A) : result (A * A * A) :=
  match l with
  | [a; b; c] => Ok (a, b, c)
  | _ => Raise ValueError
  end.

Module AttentionBlock.
Section WithEngine.
(** The array engine: tensors, their elementwise sum,
    [torch.chunk(t, chunks, dim=-1)], and the layer classes [LayerNorm] and
    [Linear] (without bias). Every operation of the engine may raise: a
    constructor on a size it refuses, a layer or a sum on shapes that do
    not fit. *)
Context {Tensor : Type}.

(** A built layer, called on a tensor. *)
Definition layer : Type := Tensor → result Tensor.

Variable tensor_add : Tensor → Tensor → result Tensor.
Variable torch_chunk : Tensor → Z → result (list Tensor).
Variable LayerNorm : Z → result layer.
Variable Linear : Z → Z → result layer.

(** The attributes [Attention.__init__] sets; [positional_embedding] is
    set only when a positional embedding class is given. *)
Record Attention : Type := mkAttention {
  context_features : option Z;
  use_positional_embedding : bool;
  use_context : bool;
  max_length : option Z;
  positional_embedding : option layer;
  norm : layer;
  norm_context : layer;
  to_q : layer;
  to_kv : layer;
  attention : Tensor → Tensor → Tensor → result Tensor
}.

(** [Attention.__init__(self, features, *, head_features, num_heads,
    context_features=None, max_length=None, attention_base_t,
    positional_embedding_t=None)]; [attention_base_t] is called as
    [attention_base_t(features, head_features, num_heads)], the last two by
    keyword. *)
Definition Attention_init (features head_features num_heads : Z)
    (context_features : option Z) (max_length : option Z)
    (attention_base_t :
       Z → Z → Z → result (Tensor → Tensor → Tensor → result Tensor))
    (positional_embedding_t : option (Z → Z → result layer))
  : result Attention :=
  let self_context_features := context_features in
  let use_positional_embedding := exists_ positional_embedding_t in
  let use_context := exists_ context_features in
  let mid_features := head_features * num_heads in
  let context_features := default_ context_features features in
  positional_embedding ←
    match positional_embedding_t with
    | Some pe_t =>
        match max_length with
        | Some n => pe ← pe_t n features; Ok (Some pe)
        | None => Raise (AssertionError "")
        end
    | None => Ok None
    end;
  norm ← LayerNorm features;
  norm_context ← LayerNorm context_features;
  to_q ← Linear features mid_features;
  to_kv ← Linear context_features (mid_features * 2);
  attention ← attention_base_t features head_features num_heads;
  Ok {| context_features := self_context_features;
        use_positional_embedding := use_positional_embedding;
        use_context := use_context;
        max_length := max_length;
        positional_embedding := positional_embedding;
        norm := norm;
        norm_context := norm_context;
        to_q := to_q;
        to_kv := to_kv;
        attention := attention |}.

(** [self.positional_embedding(x)]; reading the attribute when it was
    never set raises [AttributeError]. *)
Definition call_positional_embedding (self : Attention) (x : Tensor)
  : result Tensor :=
  match positional_embedding self with
  | Some pe => pe x
  | None => Raise AttributeError
  end.

(** [Attention.forward(self, x, context=None)] *)
Definition Attention_forward (self : Attention) (x : Tensor)
    (context : option Tensor) : result Tensor :=
  let assert_message := "You must provide a context when using context_features"%string in
  _ ← py_assert (negb (py_truthy (context_features self)) || exists_ context)
        assert_message;
  let skip := x in
  x ← (if use_positional_embedding self
       then e ← call_positional_embedding self x; tensor_add x e
       else Ok x);
  let context :=
    match context with
    | Some c => if use_context self then c else x
    | None => x
    end in
  x ← norm self x;
  context ← norm_context self context;
  q ← to_q self x;
  kv ← to_kv self context;
  chunks ← torch_chunk kv 2;
  '(q, k, v) ← unpack3 (q :: chunks);
  a ← attention self q k v;
  tensor_add skip a.

(** The query input after the optional positional embedding, when that
    embedding is [e]. *)
Definition embedded_input (self : Attention) (x e : Tensor) : result Tensor :=
  if use_positional_embedding self then tensor_add x e else Ok x.
End WithEngine.
Arguments Attention : clear implicits.
Arguments layer : clear implicits.
End AttentionBlock.

(** ** Classifier-free guidance *)

Module Guidance.

(** A Python [float]: the finite values as rationals, the infinities and
    not-a-number. Only comparisons with 0 and 1 are made on them here. *)
Inductive pyfloat : Type :=
  | Finite (q : Q)
  | PosInf
  | NegInf
  | NaN.

(** [a == b] *)
Definition float_eqb (a b : pyfloat) : bool :=
  match a, b with
  | Finite p, Finite q => Qeq_bool p q
  | PosInf, PosInf => true
  | NegInf, NegInf => true
  | _, _ => false
  end.

(** [a > b] *)
Definition float_gtb (a b : pyfloat) : bool :=
  match a, b with
  | Finite p, Finite q => negb (Qle_bool p q)
  | PosInf, Finite _ => true
  | PosInf, NegInf => true
  | Finite _, NegInf => true
  | _, _ => false
  end.

Definition float_zero : pyfloat := Finite 0.
Definition float_one : pyfloat := Finite 1.

Section WithEngine.
(** [S]: the state of the engine (random generator, buffers); [X]: the
    primary input; [Out]: the output of the base network; [Kw]: the
    keywords passed through to it; [CKw]: the keywords of its constructor;
    [Vec]: a feature vector. *)
Context {S X Out Kw CKw Vec : Type}.

(** An embedding tensor of shape [(b, n, d)]: [b] items of [n] feature
    vectors each; [shape1] is [n]. *)
Record tensor3 : Type := mkTensor3 {
  shape1 : nat;
  items : list (list Vec)
}.

(** The array engine: the weight table of a new [nn.Embedding], the
    Bernoulli sampler run on a tensor of [n] equal probabilities, and the
    arithmetic on outputs. *)
Variable nn_Embedding : Z → Z → nat → Vec.
Variable bernoulli : pyfloat → nat → M S (list bool).
Variable tensor_add tensor_sub : Out → Out → Out.
Variable tensor_mul_float : Out → pyfloat → Out.

(** [FixedEmbedding(max_length, features)]: the module and its table. *)
Record FixedEmbedding : Type := mkFixedEmbedding {
  fe_max_length : Z;
  fe_weight : nat → Vec
}.

Definition FixedEmbedding_new (max_length features : Z) : FixedEmbedding :=
  {| fe_max_length := max_length;
     fe_weight := nn_Embedding max_length features |}.

(** The [forward] of [FixedEmbedding]. *)
Definition FixedEmbedding_forward (self : FixedEmbedding) (x : tensor3)
  : result tensor3 :=
  let batch_size := length (items x) in
  let length := shape1 x in
  let assert_message := "Input sequence length must be <= max_length"%string in
  _ ← py_assert (Z.of_nat length <=? fe_max_length self) assert_message;
  let position := seq 0 length in
  let fixed_embedding := fe_weight self <$> position in
  Ok {| shape1 := length; items := replicate batch_size fixed_embedding |}.

(** [rand_bool(shape, proba, device)] for the shape [(n, 1, 1)]. *)
Definition rand_bool (n : nat) (proba : pyfloat) : M S (list bool) :=
  if float_eqb proba float_one then mret (replicate n true)
  else if float_eqb proba float_zero then mret (replicate n false)
  else bernoulli proba n.

(** [torch.where(batch_mask, a, b)] for a mask of shape [(b, 1, 1)]: the
    choice is made per batch item. *)
Definition torch_where (batch_mask : list bool) (a b : tensor3) : tensor3 :=
  {| shape1 := shape1 b;
     items := zip_with (λ (c : bool) (ab : list Vec * list Vec),
                          if c then ab.1 else ab.2)
                batch_mask (zip (items a) (items b)) |}.

(** A base network, called as [net(x, embedding=..., **kwargs)]. *)
Definition network : Type := X → tensor3 → Kw → M S Out.

(** What [Net] builds: the two children of the returned module. *)
Record cfg_module : Type := mkCfg {
  fixed_embedding : FixedEmbedding;
  net : network
}.

(** [ClassifierFreeGuidancePlugin(net_t, embedding_max_length)] returns
    [Net]; this is [Net(embedding_features, **kwargs)]. *)
Definition ClassifierFreeGuidancePlugin (net_t : Z → CKw → network)
    (embedding_max_length : Z) (embedding_features : Z) (kwargs : CKw)
  : cfg_module :=
  {| fixed_embedding := FixedEmbedding_new embedding_max_length embedding_features;
     net := net_t embedding_features kwargs |}.

(** The block [if embedding_mask_proba > 0.0: ...] of [forward]: the
    embedding, possibly masked. *)
Definition mask_embedding (embedding_mask_proba : pyfloat)
    (embedding_mask embedding : tensor3) : M S tensor3 :=
  if float_gtb embedding_mask_proba float_zero
  then
    let b := length (items embedding) in
    batch_mask ← rand_bool b embedding_mask_proba;
    mret (torch_where batch_mask embedding_mask embedding)
  else mret embedding.

(** The [forward] of the module that [Net] returns. *)
Definition forward (self : cfg_module) (x : X) (embedding : option tensor3)
    (embedding_scale embedding_mask_proba : pyfloat) (kwargs : Kw) : M S Out :=
  let msg := "ClassiferFreeGuidancePlugin requires embedding"%string in
  match embedding with
  | None => lift (Raise (AssertionError msg))
  | Some embedding =>
      embedding_mask ← lift (FixedEmbedding_forward (fixed_embedding self) embedding);
      embedding ← mask_embedding embedding_mask_proba embedding_mask embedding;
      if negb (float_eqb embedding_scale float_one)
      then
        out ← net self x embedding kwargs;
        out_masked ← net self x embedding_mask kwargs;
        mret (tensor_add out_masked
                (tensor_mul_float (tensor_sub out out_masked) embedding_scale))
      else net self x embedding kwargs
  end.
End WithEngine.
Arguments tensor3 : clear implicits.
Arguments FixedEmbedding : clear implicits.
Arguments network : clear implicits.
Arguments cfg_module : clear implicits.
End Guidance.

(** ** The tabular embedding generator *)

Module Tabular.

(** A Python index into a dimension of size [len]: a negative index counts
    from the end; outside [-len, len) it raises [IndexError]. *)
Definition norm_index (len : nat) (i : Z) : result nat :=
  let n := Z.of_nat len in
  let j := if i <? 0 then i + n else i in
  if (0 <=? j) && (j <? n) then Ok (Z.to_nat j) else Raise IndexError.

(** A bound of a Python slice over a dimension of size [len]: a negative
    bound counts from the end, and the bound is clipped to [0, len]. *)
Definition slice_bound (len : nat) (i : Z) : nat :=
  let n := Z.of_nat len in
  Z.to_nat (if i <? 0 then Z.max (i + n) 0 else Z.min i n).

(** A loop [for i in range(n)] over a state, stopping at the first
    exception; [i] starts at [start]. *)
Fixpoint for_range {St : Type} (body : Z → St → result St)
    (start : Z) (n : nat) (st : St) : result St :=
  match n with
  | O => Ok st
  | Datatypes.S n' => st' ← body start st; for_range body (start + 1) n' st'
  end.

(** A loop [for i, a in enumerate(l)] over a state; [i] starts at
    [start]. *)
Fixpoint for_enumerate {A St : Type} (body : Z → A → St → result St)
    (start : Z) (l : list A) (st : St) : result St :=
  match l with
  | [] => Ok st
  | a :: rest => st' ← body start a st; for_enumerate body (start + 1) rest st'
  end.

(** A 2-D tensor of shape [(length data, shape1)]; the weights and the
    features are exact rationals. *)
Record tensor2 : Type := mkTensor2 {
  shape1 : nat;
  data : list (list Q)
}.

(** [t[i, j]] *)
Definition tensor_get (t : tensor2) (i j : Z) : result Q :=
  r ← norm_index (length (data t)) i;
  c ← norm_index (shape1 t) j;
  match data t !! r ≫= (.!! c) with
  | Some v => Ok v
  | None => Raise IndexError
  end.

(** [t[i, j] = v] *)
Definition tensor_set (t : tensor2) (i j : Z) (v : Q) : result tensor2 :=
  r ← norm_index (length (data t)) i;
  c ← norm_index (shape1 t) j;
  Ok {| shape1 := shape1 t; data := alter (<[c := v]>) r (data t) |}.

(** [row[lo:hi] = v] for a scalar [v] *)
Definition fill_slice (width : nat) (lo hi : Z) (v : Q) (row : list Q) : list Q :=
  let a := slice_bound width lo in
  let b := slice_bound width hi in
  imap (λ k old, if bool_decide (a ≤ k < b)%nat then v else old) row.

(** [t[i, lo:hi] = v] for a scalar [v] *)
Definition tensor_set_slice (t : tensor2) (i lo hi : Z) (v : Q) : result tensor2 :=
  r ← norm_index (length (data t)) i;
  Ok {| shape1 := shape1 t;
        data := alter (fill_slice (shape1 t) lo hi v) r (data t) |}.

(** [x[:, j]] *)
Definition column (x : tensor2) (j : Z) : result (list Q) :=
  c ← norm_index (shape1 x) j;
  Ok ((λ row, default 0%Q (row !! c)) <$> data x).

(** [.long()]: truncation toward zero. *)
Definition long (q : Q) : Z := Z.quot (Qnum q) (Zpos (Qden q)).

(** [torch.cat(cols, dim=1)] for tensors with equally many rows. *)
Definition torch_cat1 (cols : list tensor2) : result tensor2 :=
  match cols with
  | [] => Raise RuntimeError
  | c0 :: _ =>
      Ok {| shape1 := foldr (λ c acc, (shape1 c + acc)%nat) 0%nat cols;
            data := foldr (λ c acc, zip_with app (data c) acc)
                      (replicate (length (data c0)) []) cols |}
  end.

(** An [nn.Embedding]: a table of [num_embeddings] rows. *)
Record Embedding : Type := mkEmbedding {
  num_embeddings : Z;
  embedding_dim : Z;
  weight : nat → list Q
}.

(** Calling an [nn.Embedding] on a vector of indices. *)
Definition Embedding_forward (self : Embedding) (indices : list Z)
  : result tensor2 :=
  rows ← mapM (M := result)
            (λ i, if (0 <=? i) && (i <? num_embeddings self)
                  then Ok (weight self (Z.to_nat i))
                  else Raise IndexError)
            indices;
  Ok {| shape1 := Z.to_nat (embedding_dim self); data := rows |}.

(** The module [numpy], as far as this file uses it. *)
Record numpy : Type := mkNumpy {
  np_sum : list Z → Z
}.

(** Modelled from the library's documentation: [numpy.sum] of a list of
    integers is their sum. *)
Definition numpy_module : numpy := {| np_sum := foldr Z.add 0 |}.

(** The global name [np] of [blocks.py]. The module imports [pi], names
    from [typing], [torch], [torch.nn.functional] as [F], names from
    [einops], [Tensor], [einsum] and [nn] from [torch], and [TypeGuard]; no
    statement of the module binds [np]. *)
Definition blocks_np : option numpy := None.

(** Reading a global name. *)
Definition global_lookup {A} (name : string) (binding : option A) : result A :=
  match binding with
  | Some a => Ok a
  | None => Raise (NameError name)
  end.

(** The attributes of a [TabularDataEmbeddingGenerator]. When the
    embedding is skipped, [embeddings] and [continuous_idx] are never set
    (and never read); they are empty here. *)
Record TabularDataEmbeddingGenerator : Type := mkGenerator {
  skip_embedding : bool;
  post_embed_dim : Z;
  embedding_group_matrix : tensor2;
  embeddings : list Embedding;
  continuous_idx : list bool
}.

(** The state of the loop over the features of one group. *)
Record loop_state : Type := mkLoop {
  matrix : tensor2;
  post_emb_idx : Z;
  cat_feat_counter : Z
}.

Section WithEngine.
(** The array engine: the contents of the memory [torch.empty] returns,
    and the initial weights of the [k]-th [nn.Embedding] built. *)
Variable uninitialised : nat → nat → Q.
Variable embedding_init : nat → Z → Z → nat → list Q.

(** [torch.ones(n, dtype=torch.bool)] *)
Definition torch_ones (n : Z) : result (list bool) :=
  if n <? 0 then Raise RuntimeError else Ok (replicate (Z.to_nat n) true).

(** [torch.empty((n, m))] *)
Definition torch_empty (n : nat) (m : Z) : result tensor2 :=
  if m <? 0 then Raise RuntimeError
  else Ok {| shape1 := Z.to_nat m;
             data := (λ i, uninitialised i <$> seq 0 (Z.to_nat m)) <$> seq 0 n |}.

(** [mask[idxs] = 0] *)
Definition index_put_false (mask : list bool) (idxs : list Z) : result (list bool) :=
  foldl (λ acc i, m ← acc; k ← norm_index (length mask) i; Ok (<[k := false]> m))
    (Ok mask) idxs.

(** The body of the loop [for init_feat_idx in range(input_dim)]. *)
Definition feature_step (group_matrix : tensor2) (continuous_idx : list bool)
    (cat_emb_dims : list Z) (group_idx init_feat_idx : Z) (st : loop_state)
  : result loop_state :=
  is_continuous ← py_getitem continuous_idx init_feat_idx;
  if is_continuous : bool
  then
    w ← tensor_get group_matrix group_idx init_feat_idx;
    m ← tensor_set (matrix st) group_idx (post_emb_idx st) w;
    Ok {| matrix := m;
          post_emb_idx := post_emb_idx st + 1;
          cat_feat_counter := cat_feat_counter st |}
  else
    n_embeddings ← py_getitem cat_emb_dims (cat_feat_counter st);
    w ← tensor_get group_matrix group_idx init_feat_idx;
    m ← tensor_set_slice (matrix st) group_idx (post_emb_idx st)
          (post_emb_idx st + n_embeddings) (w / inject_Z n_embeddings)%Q;
    Ok {| matrix := m;
          post_emb_idx := post_emb_idx st + n_embeddings;
          cat_feat_counter := cat_feat_counter st + 1 |}.

(** The body of the loop [for group_idx in range(n_groups)]. *)
Definition group_step (group_matrix : tensor2) (continuous_idx : list bool)
    (cat_emb_dims : list Z) (input_dim : Z) (group_idx : Z) (m : tensor2)
  : result tensor2 :=
  st ← for_range (feature_step group_matrix continuous_idx cat_emb_dims group_idx)
         0 (Z.to_nat input_dim)
         {| matrix := m; post_emb_idx := 0; cat_feat_counter := 0 |};
  Ok (matrix st).

(** [TabularDataEmbeddingGenerator.__init__(self, input_dim, cat_dims,
    cat_idxs, cat_emb_dims, group_matrix)], run in a module whose global
    [np] is bound as [np] says. *)
Definition init (np : option numpy) (input_dim : Z)
    (cat_dims cat_idxs cat_emb_dims : list Z) (group_matrix : tensor2)
  : result TabularDataEmbeddingGenerator :=
  if bool_decide (cat_dims = [] ∧ cat_idxs = [])
  then
    Ok {| skip_embedding := true;
          post_embed_dim := input_dim;
          embedding_group_matrix := group_matrix;
          embeddings := [];
          continuous_idx := [] |}
  else
    np ← global_lookup "np" np;
    let post_embed_dim :=
      input_dim + np_sum np cat_emb_dims - Z.of_nat (length cat_emb_dims) in
    let embeddings :=
      imap (λ k '(cat_dim, emb_dim),
              mkEmbedding cat_dim emb_dim (embedding_init k cat_dim emb_dim))
        (zip cat_dims cat_emb_dims) in
    ones ← torch_ones input_dim;
    continuous_idx ← index_put_false ones cat_idxs;
    let n_groups := length (data group_matrix) in
    empty ← torch_empty n_groups post_embed_dim;
    embedding_group_matrix ←
      for_range (group_step group_matrix continuous_idx cat_emb_dims input_dim)
        0 n_groups empty;
    Ok {| skip_embedding := false;
          post_embed_dim := post_embed_dim;
          embedding_group_matrix := embedding_group_matrix;
          embeddings := embeddings;
          continuous_idx := continuous_idx |}.
End WithEngine.

(** The body of the loop of [forward] over
    [enumerate(self.continuous_idx)]; the state is [cols] and
    [cat_feat_counter]. *)
Definition forward_step (self : TabularDataEmbeddingGenerator) (x : tensor2)
    (feat_init_idx : Z) (is_continuous : bool) (st : list tensor2 * Z)
  : result (list tensor2 * Z) :=
  let '(cols, cat_feat_counter) := st in
  if is_continuous
  then
    c ← column x feat_init_idx;
    Ok (cols ++ [ {| shape1 := 1; data := (λ v, [v]) <$> c |} ], cat_feat_counter)
  else
    emb ← py_getitem (embeddings self) cat_feat_counter;
    c ← column x feat_init_idx;
    out ← Embedding_forward emb (long <$> c);
    Ok (cols ++ [out], cat_feat_counter + 1).

(** [TabularDataEmbeddingGenerator.forward(self, x)] *)
Definition forward (self : TabularDataEmbeddingGenerator) (x : tensor2)
  : result tensor2 :=
  if skip_embedding self
  then Ok x
  else
    st ← for_enumerate (forward_step self x) 0 (continuous_idx self) ([], 0);
    torch_cat1 st.1.

(** The first [n] columns of a tensor. *)
Definition first_columns (n : nat) (x : tensor2) : tensor2 :=
  {| shape1 := n; data := take n <$> data x |}.

(** The row of the rebuilt grouping matrix in the words of the
    specification: a continuous column keeps its weight in one output
    column, a categorical column of embedding width [d] puts [w / d] in each
    of [d] output columns; the widths are taken in column order. *)
Fixpoint expanded_row (continuous_idx : list bool) (emb_widths : list Z)
    (row : list Q) : list Q :=
  match continuous_idx, row with
  | is_continuous :: mask, w :: ws =>
      if is_continuous
      then w :: expanded_row mask emb_widths ws
      else match emb_widths with
           | d :: ds =>
               replicate (Z.to_nat d) (w / inject_Z d)%Q ++ expanded_row mask ds ws
           | [] => []
           end
  | _, _ => []
  end.

(** The total weight of a row. *)
Definition row_total (row : list Q) : Q := foldr Qplus 0%Q row.

(** The number of categorical columns that a mask of continuous columns
    marks. *)
Fixpoint categorical_count (mask : list bool) : nat :=
  match mask with
  | [] => 0
  | b :: mask => (if b then 0 else 1) + categorical_count mask
  end%nat.

(** The mask with the positions [idxs] set to false, for indices that need
    no normalisation. *)
Definition put_false (mask : list bool) (idxs : list Z) : list bool :=
  foldl (λ m i, <[Z.to_nat i := false]> m) mask idxs.

(** The part of the expanded row that the first [i] raw columns produce. *)
Definition prefix_row (mask : list bool) (dims : list Z) (grow : list Q)
    (i : nat) : list Q :=
  expanded_row (take i mask) dims (take i grow).

(** What one raw column adds to the expanded row, when [c] categorical
    columns precede it. *)
Definition piece (dims : list Z) (b : bool) (w : Q) (c : nat) : list Q :=
  if b then [w]
  else match dims !! c with
       | Some d => replicate (Z.to_nat d) (w / inject_Z d)%Q
       | None => []
       end.

(** The invariant of the loop over the features of group [g], before
    feature [i]: the row of the group starts with the expansion of the
    first [i] raw columns, and the other rows are those of [m0]. *)
Definition row_invariant (gm : tensor2) (mask : list bool) (dims : list Z)
    (g : nat) (grow : list Q) (P : nat) (m0 : tensor2) (i : nat)
    (st : loop_state) : Prop :=
  post_emb_idx st = Z.of_nat (length (prefix_row mask dims grow i))
  ∧ cat_feat_counter st = Z.of_nat (categorical_count (take i mask))
  ∧ shape1 (matrix st) = P
  ∧ length (data (matrix st)) = length (data gm)
  ∧ (∀ r, r ≠ g → data (matrix st) !! r = data m0 !! r)
  ∧ ∃ row, data (matrix st) !! g = Some row ∧ length row = P
           ∧ take (length (prefix_row mask dims grow i)) row
               = prefix_row mask dims grow i.

(** The invariant of the loop over the groups, before group [g]: the rows
    of the groups before [g] are expanded. *)
Definition group_invariant (gm : tensor2) (mask : list bool) (dims : list Z)
    (P : nat) (g : nat) (m : tensor2) : Prop :=
  shape1 m = P
  ∧ length (data m) = length (data gm)
  ∧ Forall (λ row, length row = P) (data m)
  ∧ ∀ r, (r < g)%nat → data m !! r = expanded_row mask dims <$> data gm !! r.
End Tabular.

(** ** Concrete inputs used in the examples below *)

Module TabularExamples.
Import Tabular.

(** Memory that reads as zero, and embedding tables filled with ones. *)
Definition zero_memory : nat → nat → Q := λ _ _, 0%Q.
Definition ones_init : nat → Z → Z → nat → list Q :=
  λ _ _ emb_dim _, replicate (Z.to_nat emb_dim) 1%Q.

(** One group over three raw columns, with weights 1, 2 and 4. *)
Definition group_matrix : tensor2 := mkTensor2 3 [[1; 2; 4]]%Q.

(** Inputs of one row with two, three and four columns. *)
Definition input2 : tensor2 := mkTensor2 2 [[7; 1]]%Q.
Definition input3 : tensor2 := mkTensor2 3 [[7; 1; 9]]%Q.
Definition input4 : tensor2 := mkTensor2 4 [[7; 1; 9; 5]]%Q.

(** A generator over three raw columns whose second column is categorical
    with cardinality 5 and embedding width 3, as its attributes would be
    set. *)
Definition categorical_generator : TabularDataEmbeddingGenerator :=
  {| skip_embedding := false;
     post_embed_dim := 5;
     embedding_group_matrix := mkTensor2 5 [[1; 2 # 3; 2 # 3; 2 # 3; 4]]%Q;
     embeddings := [mkEmbedding 5 3 (ones_init 0 5 3)];
     continuous_idx := [true; false; true] |}.
End TabularExamples.

(** ** Further code of the module

    The definitions below embed the functions of [blocks.py] that the
    sections above leave out, or name what the properties further down
    need. *)

(** *** A [Sequential] as a child of another *)

Module Nesting.
Section WithTypes.
Context {S X A : Type}.

(** A [Sequential] is an [nn.Module]: called as a block, it runs its
    [forward]. *)
Definition as_block (inner : Combinators.Sequential S X A)
  : Combinators.block S X A :=
  Combinators.Sequential_forward inner.
End WithTypes.
End Nesting.

(** *** [Select] *)

Module Selection.
Section WithTypes.
(** [S]: the state modules act on; [V]: a positional argument; [Kw]: the
    keywords of a call; [R]: what a block returns; [C]: the arguments of a
    block constructor. *)
Context {S V Kw R C : Type}.

(** A built block, called with positional arguments and keywords. *)
Definition callable : Type := list V → Kw → M S R.

(** A block class: calling it with constructor arguments builds a block. *)
Definition block_class : Type := C → M S callable.

(** [Select(args_fn)(block_t)]: the class whose [__init__] builds
    [block_t] with the arguments it is given and whose [forward] calls the
    block on [args_fn] of the positional arguments, unpacked, with the
    keywords passed on. *)
Definition Select (args_fn : list V → result (list V)) (block_t : block_class)
  : block_class :=
  λ c,
    block ← block_t c;
    mret (λ args kwargs, selected ← lift (args_fn args); block selected kwargs).
End WithTypes.
Arguments callable : clear implicits.
Arguments block_class : clear implicits.
End Selection.

(** *** [UpsampleInterpolate] *)

Module Interpolation.

(** The [nn.Sequential] that [UpsampleInterpolate] returns: an
    [nn.Upsample] with its two keywords, then the convolution. *)
Record interpolate_module {R : Type} : Type := mkInterpolate {
  scale_factor : Z;
  mode : string;
  conv : R
}.
Arguments interpolate_module : clear implicits.
Arguments mkInterpolate {R} scale_factor mode conv.

Section WithTypes.
Context {K R : Type}.

(** [UpsampleInterpolate(dim, factor=2, kernel_size=3, mode="nearest",
    conv_t=Conv, **kwargs)]; [conv_t] is called with the keywords [dim],
    [kernel_size] and [padding] and with [kwargs]. *)
Definition UpsampleInterpolate (dim factor kernel_size : Z) (mode : string)
    (conv_t : Z → Z → Z → K → result R) (kwargs : K)
  : result (interpolate_module R) :=
  _ ← py_assert (kernel_size `mod` 2 =? 1) "upsample kernel size must be odd";
  conv ← conv_t dim kernel_size ((kernel_size - 1) / 2) kwargs;
  Ok (mkInterpolate factor mode conv).
End WithTypes.
End Interpolation.

(** *** [GRN] and [NumberEmbedder]: the shapes their constructors fix *)

Module Shapes.

(** [range(n)] *)
Definition py_range (n : Z) : list Z := Z.of_nat <$> seq 0 (Z.to_nat n).

(** The attributes of a [GRN]: the shapes of the two parameters (both
    filled with zeros) and the axes of the norm. *)
Record GRN : Type := mkGRN {
  gamma_shape : list Z;
  beta_shape : list Z;
  norm_dims : list Z
}.

(** [torch.zeros] of a shape: a negative size raises. *)
Definition torch_zeros_shape (shape : list Z) : result (list Z) :=
  if forallb (λ n, 0 <=? n) shape then Ok shape else Raise RuntimeError.

(** [GRN.__init__(self, dim, channels)]; the tuple [(1,) * dim] is empty
    when [dim] is not positive. *)
Definition GRN_init (dim channels : Z) : result GRN :=
  let ones := replicate (Z.to_nat dim) 1 in
  gamma ← torch_zeros_shape (1 :: channels :: ones);
  beta ← torch_zeros_shape (1 :: channels :: ones);
  Ok {| gamma_shape := gamma;
        beta_shape := beta;
        norm_dims := (λ d, d + 2) <$> py_range dim |}.

(** The attributes of a [NumberEmbedder], as far as shapes go: [features],
    the length of [weights], and the two widths of the linear layer
    [to_out]. *)
Record NumberEmbedder : Type := mkNumberEmbedder {
  features : Z;
  weights_len : Z;
  to_out_in_features : Z;
  to_out_out_features : Z
}.

(** The message of the assertion of [NumberEmbedder.__init__], an
    f-string that ends with [dim] in decimal. *)
Definition dim_message (dim : Z) : string :=
  "dim must be divisible by 2, found " +:+ pretty dim.

(** [NumberEmbedder.__init__(self, features, dim=256)]; [torch.randn] and
    [nn.Linear] raise on a negative size. *)
Definition NumberEmbedder_init (features dim : Z) : result NumberEmbedder :=
  _ ← py_assert (dim `mod` 2 =? 0) (dim_message dim);
  _ ← (if dim / 2 <? 0 then Raise RuntimeError else Ok tt);
  _ ← (if (dim + 1 <? 0) || (features <? 0) then Raise RuntimeError else Ok tt);
  Ok {| features := features;
        weights_len := dim / 2;
        to_out_in_features := dim + 1;
        to_out_out_features := features |}.

(** The shape of what [to_embedding] returns for [b] numbers: the
    frequencies have shape [(b, len(weights))], their sines and cosines are
    concatenated, then [x] is put in front, and [to_out] is applied; a
    linear layer raises when the last axis is not its [in_features]. *)
Definition to_embedding_shape (self : NumberEmbedder) (b : Z) : result (Z * Z) :=
  let freqs := weights_len self in
  let fouriered := freqs + freqs in
  let fouriered := 1 + fouriered in
  if fouriered =? to_out_in_features self
  then Ok (b, to_out_out_features self)
  else Raise RuntimeError.
End Shapes.

(** *** [CrossAttention] *)

Module CrossAttentionBlock.
Section WithEngine.
Context {Tensor : Type}.
Variable LayerNorm : Z → result (AttentionBlock.layer Tensor).
Variable Linear : Z → Z → result (AttentionBlock.layer Tensor).

(** [CrossAttention(context_features, **kwargs)]: [Attention] built with
    the keywords and with [context_features]. *)
Definition CrossAttention (context_features : Z)
    (features head_features num_heads : Z) (max_length : option Z)
    (attention_base_t :
       Z → Z → Z → result (Tensor → Tensor → Tensor → result Tensor))
    (positional_embedding_t :
       option (Z → Z → result (AttentionBlock.layer Tensor)))
  : result (AttentionBlock.Attention Tensor) :=
  AttentionBlock.Attention_init LayerNorm Linear features head_features
    num_heads (Some context_features) max_length attention_base_t
    positional_embedding_t.
End WithEngine.
End CrossAttentionBlock.

(** *** [TabularDataClassifierFreeGuidancePlugin] *)

Module TabularGuidance.
Section WithEngine.
Context {S X Out Kw CKw Vec : Type}.
Variable nn_Embedding : Z → Z → nat → Vec.
Variable bernoulli : Guidance.pyfloat → nat → M S (list bool).
Variable tensor_add tensor_sub : Out → Out → Out.
Variable tensor_mul_float : Out → Guidance.pyfloat → Out.

(** [TabularDataClassifierFreeGuidancePlugin(net_t, embedding_max_length)]
    returns [Net]; this is [Net(embedding_features, **kwargs)]. *)
Definition TabularDataClassifierFreeGuidancePlugin
    (net_t : Z → CKw → Guidance.network S X Out Kw Vec)
    (embedding_max_length : Z) (embedding_features : Z) (kwargs : CKw)
  : Guidance.cfg_module S X Out Kw Vec :=
  let fixed_embedding :=
    Guidance.FixedEmbedding_new nn_Embedding embedding_max_length
      embedding_features in
  let net := net_t embedding_features kwargs in
  Guidance.mkCfg fixed_embedding net.

(** The [forward] of the module that this [Net] returns. *)
Definition forward (self : Guidance.cfg_module S X Out Kw Vec) (x : X)
    (embedding : option (Guidance.tensor3 Vec))
    (embedding_scale embedding_mask_proba : Guidance.pyfloat) (kwargs : Kw)
  : M S Out :=
  let msg := "ClassiferFreeGuidancePlugin requires embedding"%string in
  match embedding with
  | None => lift (Raise (AssertionError msg))
  | Some embedding =>
      let b := length (Guidance.items embedding) in
      embedding_mask ←
        lift (Guidance.FixedEmbedding_forward
                (Guidance.fixed_embedding self) embedding);
      embedding ←
        (if Guidance.float_gtb embedding_mask_proba Guidance.float_zero
         then
           batch_mask ← Guidance.rand_bool bernoulli b embedding_mask_proba;
           mret (Guidance.torch_where batch_mask embedding_mask embedding)
         else mret embedding);
      if negb (Guidance.float_eqb embedding_scale Guidance.float_one)
      then
        out ← Guidance.net self x embedding kwargs;
        out_masked ← Guidance.net self x embedding_mask kwargs;
        mret (tensor_add out_masked
                (tensor_mul_float (tensor_sub out out_masked) embedding_scale))
      else Guidance.net self x embedding kwargs
  end.
End WithEngine.
End TabularGuidance.

(** *** The width of what the tabular generator returns *)

Module TabularShape.
Import Tabular.

(** The number of output columns of [forward]: one per continuous column
    and [embedding_dim] per categorical column, the tables taken in
    order. *)
Fixpoint output_width (mask : list bool) (embs : list Embedding) : nat :=
  match mask with
  | [] => 0
  | true :: mask => Datatypes.S (output_width mask embs)
  | false :: mask =>
      match embs with
      | emb :: embs => Z.to_nat (embedding_dim emb) + output_width mask embs
      | [] => 0
      end
  end%nat.

(** The sum of the widths of a list of columns, as [torch.cat] computes
    it. *)
Definition total_width (cols : list tensor2) : nat :=
  foldr (λ c acc, (shape1 c + acc)%nat) 0%nat cols.
End TabularShape.

(** *** [TabularDataConditioningPlugin] *)

Module TabularConditioning.
Section WithNet.
(** [S]: the state of the engine; [X]: the primary input; [Out]: the
    output of the base network; [Kw]: the keywords passed through to it;
    [CKw]: the keywords of its constructor. *)
Context {S X Out Kw CKw : Type}.
Variable uninitialised : nat → nat → Q.
Variable embedding_init : nat → Z → Z → nat → list Q.

(** A base network, called as [net(x, embedding=..., **kwargs)]. *)
Definition network : Type := X → Tabular.tensor2 → Kw → M S Out.

(** What the body of the plugin binds before it defines [Net]. *)
Record plugin : Type := mkPlugin {
  embedder : Tabular.TabularDataEmbeddingGenerator;
  features : Z
}.

(** [TabularDataConditioningPlugin(net_t, cc_embedding_features, cat_dims,
    cat_idxs, cat_emb_dims, group_matrix)] up to [return Net]: the embedder
    is built when the plugin is called, in a module whose global [np] is
    bound as [np] says. *)
Definition TabularDataConditioningPlugin (np : option Tabular.numpy)
    (cc_embedding_features : Z) (cat_dims cat_idxs cat_emb_dims : list Z)
    (group_matrix : Tabular.tensor2) : result plugin :=
  embedder ← Tabular.init uninitialised embedding_init np cc_embedding_features
                cat_dims cat_idxs cat_emb_dims group_matrix;
  Ok {| embedder := embedder; features := cc_embedding_features |}.

(** The message of the assertion of [Net], an f-string that ends with
    [features] in decimal. *)
Definition features_message (features : Z) : string :=
  "TextConditioningPlugin requires embedding_features=" +:+ pretty features.

(** What [Net] builds: the two children of the returned module. *)
Record conditioned_module : Type := mkConditioned {
  cm_embedder : Tabular.TabularDataEmbeddingGenerator;
  cm_net : network
}.

(** [Net(embedding_features=features, **kwargs)]; an omitted
    [embedding_features] is [None] here. *)
Definition Net (self : plugin) (net_t : Z → CKw → M S network)
    (embedding_features : option Z) (kwargs : CKw) : M S conditioned_module :=
  let embedding_features := default_ embedding_features (features self) in
  _ ← lift (py_assert (embedding_features =? features self)
              (features_message (features self)));
  net ← net_t embedding_features kwargs;
  mret {| cm_embedder := embedder self; cm_net := net |}.

(** [torch.cat([a, b], dim=1)] of two 2-D tensors: the numbers of rows
    must agree. *)
Definition torch_cat_pair (a b : Tabular.tensor2) : result Tabular.tensor2 :=
  if bool_decide (length (Tabular.data a) = length (Tabular.data b))
  then Tabular.torch_cat1 [a; b]
  else Raise RuntimeError.

(** The [forward] of the module that [Net] returns; the optional
    [embedding] is a 2-D tensor. *)
Definition forward (self : conditioned_module) (x : X)
    (ccData : Tabular.tensor2) (embedding : option Tabular.tensor2)
    (kwargs : Kw) : M S Out :=
  cc_embedding ← lift (Tabular.forward (cm_embedder self) ccData);
  cc_embedding ←
    match embedding with
    | Some embedding => lift (torch_cat_pair cc_embedding embedding)
    | None => mret cc_embedding
    end;
  cm_net self x cc_embedding kwargs.
End WithNet.
Arguments network : clear implicits.
Arguments conditioned_module : clear implicits.
End TabularConditioning.

(** *** [TimeConditioningPlugin]: what [Net] builds *)

Module TimeConditioning.
Import Repetition.
Section WithNet.
(** [P]: the parameters a leaf module holds; [CKw]: the keywords passed
    on to [net_t]. *)
Context {P CKw : Type}.

(** The parameters of a new [nn.Linear(in_features, out_features)] and of
    a new [nn.GELU()]. *)
Variable Linear_params : Z → Z → P.
Variable GELU_params : P.

(** [nn.Linear(in_features, out_features)]: a negative size raises. *)
Definition nn_Linear (in_features out_features : Z) : M (gmap loc (obj P)) loc :=
  if (in_features <? 0) || (out_features <? 0)
  then lift (Raise RuntimeError)
  else leaf_class (Linear_params in_features out_features).

(** [nn.Sequential(a, b)] of the array engine: an object that holds
    references to its blocks. *)
Definition nn_Sequential (blocks : list loc) : M (gmap loc (obj P)) loc :=
  alloc (SequentialModule blocks).

(** The three children of the module that [Net] returns. *)
Record time_module : Type := mkTimeModule {
  embedder : Shapes.NumberEmbedder;
  mlp : module_or_type P;
  net : loc
}.

(** [TimeConditioningPlugin(net_t, num_layers)] returns [Net]; this is
    [Net(modulation_features, **kwargs)] up to the definition of
    [forward]. *)
Definition Net (net_t : Z → CKw → template P) (num_layers : Z)
    (modulation_features : option Z) (kwargs : CKw)
  : M (gmap loc (obj P)) time_module :=
  let msg := "TimeConditioningPlugin requires modulation_features"%string in
  match modulation_features with
  | None => lift (Raise (AssertionError msg))
  | Some modulation_features =>
      embedder ← lift (Shapes.NumberEmbedder_init modulation_features 256);
      linear ← nn_Linear modulation_features modulation_features;
      gelu ← leaf_class GELU_params;
      layer ← nn_Sequential [linear; gelu];
      mlp ← Repeat (Instance layer) num_layers;
      net ← net_t modulation_features kwargs;
      mret {| embedder := embedder; mlp := mlp; net := net |}
  end.
End WithNet.
Arguments time_module : clear implicits.
End TimeConditioning.

(** ** Verified properties *)

(** *** Keyword dictionaries *)

Section DictFacts.
Context {V : Type}.

(** Lookup in [{**d1, **d2}]: [d2] wins where both bind the key. *)
Lemma dict_display2_lookup (d1 d2 : gmap string V) (k : string) :
  Template.dict_display2 d1 d2 !! k =
    match d2 !! k with
    | Some v => Some v
    | None => d1 !! k
    end.
Proof.
  unfold Template.dict_display2, Template.dict_update.
  rewrite lookup_union, lookup_union, lookup_empty.
  destruct (d2 !! k), (d1 !! k); reflexivity.
Qed.

Lemma dict_display2_dom (d1 d2 : gmap string V) :
  dom (Template.dict_display2 d1 d2) = dom d1 ∪ dom d2.
Proof.
  unfold Template.dict_display2, Template.dict_update.
  rewrite !dom_union_L, dom_empty_L, (right_id_L ∅ (∪)).
  apply (comm_L (∪)).
Qed.
End DictFacts.


(** *** The template engine *)

(** C1. A template built in override mode calls the wrapped callable with the
    captured positional arguments followed by the extra ones and with the
    keywords merged so that the extra keywords win on a key collision; a
    template built in non-override mode calls it with the extra positional
    arguments first and with the captured keywords winning. *)
Theorem T_call_precedence {V R : Type}
    (f : list V → gmap string V → R) (a b : list V) (ka kb : gmap string V) :
  (∃ kw : gmap string V,
      Template.inner_call (Template.T_call (Template.mkT f true) a ka) b kb
        = f (a ++ b) kw
      ∧ dom kw = dom ka ∪ dom kb
      ∧ ∀ k, kw !! k = match kb !! k with Some v => Some v | None => ka !! k end)
  ∧
  (∃ kw : gmap string V,
      Template.inner_call (Template.T_call (Template.mkT f false) a ka) b kb
        = f (b ++ a) kw
      ∧ dom kw = dom kb ∪ dom ka
      ∧ ∀ k, kw !! k = match ka !! k with Some v => Some v | None => kb !! k end).
Proof.
  split.
  - exists (Template.dict_display2 ka kb). split; [reflexivity|].
    split; [apply dict_display2_dom|].
    intros k. apply dict_display2_lookup.
  - exists (Template.dict_display2 kb ka). split; [reflexivity|].
    split; [apply dict_display2_dom|].
    intros k. apply dict_display2_lookup.
Qed.

(** *** Downsample and Upsample *)

(** C9. For a rank in 1..3 and a positive factor and width, [Downsample]
    builds the convolution of that rank and [Upsample] the transposed one,
    both with kernel size [factor * w], stride [factor] and padding
    [(factor * w - factor) / 2], where [w] is the width, forced to 1 when the
    factor is 1; factor 2 with width 1 gives kernel 2 and padding 0, and
    factor 2 with width 2 gives kernel 4 and padding 1. *)
Theorem Downsample_Upsample_kernel_padding {K : Type}
    (dim factor width : Z) (kwargs : K) :
  1 <= dim <= 3 → 0 < factor → 0 < width →
  let w := Convolution.spec_width factor width in
  Convolution.Downsample dim factor width Convolution.Conv kwargs
    = Ok (Convolution.mkConv K (Convolution.spec_class false dim)
            (factor * w) factor ((factor * w - factor) / 2) kwargs)
  ∧ Convolution.Upsample dim factor width Convolution.Conv
      Convolution.ConvTranspose kwargs
    = Ok (Convolution.mkConv K (Convolution.spec_class true dim)
            (factor * w) factor ((factor * w - factor) / 2) kwargs)
  ∧ (factor = 1 → w = 1)
  ∧ (factor = 2 → width = 1 →
       factor * w = 2 ∧ (factor * w - factor) / 2 = 0)
  ∧ (factor = 2 → width = 2 →
       factor * w = 4 ∧ (factor * w - factor) / 2 = 1).
Proof.
  intros Hdim Hf Hw w.
  assert (Hwidth : (if 1 <? factor then width else 1) = w).
  { unfold w, Convolution.spec_width.
    destruct (Z.ltb_spec 1 factor), (Z.eqb_spec factor 1); lia. }
  assert (Hcases : dim = 1 ∨ dim = 2 ∨ dim = 3) by lia.
  unfold Convolution.Downsample, Convolution.Upsample.
  rewrite Hwidth.
  split; [|split; [|split; [|split]]].
  - destruct Hcases as [-> | [-> | ->]]; reflexivity.
  - destruct Hcases as [-> | [-> | ->]]; reflexivity.
  - intros ->. reflexivity.
  - subst w. intros -> ->. split; reflexivity.
  - subst w. intros -> ->. split; reflexivity.
Qed.

Lemma Downsample_Upsample_kernel_padding_witness :
  Convolution.Downsample 2 2 2 Convolution.Conv tt
    = Ok (Convolution.mkConv unit Convolution.Conv2d 4 2 1 tt)
  ∧ Convolution.Upsample 2 2 2 Convolution.Conv Convolution.ConvTranspose tt
    = Ok (Convolution.mkConv unit Convolution.ConvTranspose2d 4 2 1 tt).
Proof.
  destruct (Downsample_Upsample_kernel_padding 2 2 2 tt) as (Hd & Hu & _);
    [lia | lia | lia |].
  split; [exact Hd | exact Hu].
Defined.

(** *** The monad of blocks *)

Section MonadFacts.
Context {S : Type}.

Lemma M_equiv_refl {A} (m : M S A) : m ≃ m.
Proof. intros s. reflexivity. Qed.

Lemma M_equiv_trans {A} (m1 m2 m3 : M S A) : m1 ≃ m2 → m2 ≃ m3 → m1 ≃ m3.
Proof. intros H12 H23 s. rewrite H12. apply H23. Qed.

Lemma M_bind_equiv {A B} (m1 m2 : M S A) (f1 f2 : A → M S B) :
  m1 ≃ m2 → (∀ a, f1 a ≃ f2 a) → (m1 ≫= f1) ≃ (m2 ≫= f2).
Proof.
  intros Hm Hf s. unfold mbind, M_mbind, M_bind. rewrite Hm.
  destruct (m2 s) as [[a s']|e]; [apply Hf | reflexivity].
Qed.

Lemma M_ret_bind {A B} (a : A) (f : A → M S B) : (mret a ≫= f) ≃ f a.
Proof. intros s. reflexivity. Qed.

Lemma M_bind_assoc {A B C} (m : M S A) (f : A → M S B) (g : B → M S C) :
  ((m ≫= f) ≫= g) ≃ (m ≫= λ a, f a ≫= g).
Proof.
  intros s. unfold mbind, M_mbind, M_bind.
  destruct (m s) as [[a s']|e]; reflexivity.
Qed.
End MonadFacts.

(** *** Sequential and Skip *)

Section CombinatorFacts.
Import Combinators.
Context {S X A : Type}.
Implicit Types (children : list (block S X A)) (x : X) (aux : list A).

Lemma nested_application_snoc children (c : block S X A) x aux :
  nested_application (children ++ [c]) x aux
    = (nested_application children x aux ≫= λ y, c y aux).
Proof. unfold nested_application. rewrite fold_left_app. reflexivity. Qed.

Lemma forward_loop_snoc children (c : block S X A) x aux :
  forward_loop (children ++ [c]) x aux
    ≃ (forward_loop children x aux ≫= λ y, c y aux).
Proof.
  revert x. induction children as [|c0 rest IH]; intros x s.
  - simpl. unfold mbind, M_mbind, M_bind, mret, M_mret, M_ret.
    destruct (c x aux s) as [[y s']|e]; reflexivity.
  - simpl. unfold mbind, M_mbind, M_bind.
    destruct (c0 x aux s) as [[x' s']|e]; [|reflexivity].
    apply IH.
Qed.

(** The loop computes the nesting of the specification. *)
Lemma forward_loop_nested children x aux :
  forward_loop children x aux ≃ nested_application children x aux.
Proof.
  induction children as [|c rest IH] using rev_ind.
  - apply M_equiv_refl.
  - rewrite nested_application_snoc.
    eapply M_equiv_trans; [apply forward_loop_snoc|].
    apply M_bind_equiv; [exact IH | intros y; apply M_equiv_refl].
Qed.

(** Every child of a chain run with [aux] sees [aux]. *)
Lemma forward_loop_recording children x aux (s : S) (seen : list (list A)) :
  forward_loop (recording <$> children) x aux (s, seen)
    = match forward_loop children x aux s with
      | Ok (y, s') => Ok (y, (s', seen ++ replicate (length children) aux))
      | Raise e => Raise e
      end.
Proof.
  revert x s seen. induction children as [|c rest IH]; intros x s seen.
  - simpl. unfold mret, M_mret, M_ret. rewrite app_nil_r. reflexivity.
  - simpl. unfold mbind, M_mbind, M_bind. unfold recording at 1.
    destruct (c x aux s) as [[y s']|e]; [|reflexivity].
    rewrite IH. rewrite <- app_assoc. reflexivity.
Qed.
End CombinatorFacts.

(** C4. The forward pass of a [Sequential] with children [c1..cN], run on
    [x] with auxiliary arguments [aux], is [cN(...(c1(x, aux), aux)...,
    aux)]; for three children it is [c3(c2(c1(x, aux), aux), aux)]; and
    children that record what they are called with all record the same,
    unmodified tuple [aux], once each, in order. *)
Theorem Sequential_forward_contract {S X A : Type}
    (self : Combinators.Sequential S X A) (x : X) (aux : list A) :
  Combinators.Sequential_forward self x aux
    ≃ Combinators.nested_application (Combinators.blocks self) x aux
  ∧ (∀ c1 c2 c3 : Combinators.block S X A,
       Combinators.Sequential_forward (Combinators.mkSequential [c1; c2; c3]) x aux
         ≃ (y1 ← c1 x aux; y2 ← c2 y1 aux; c3 y2 aux))
  ∧ (∀ (s : S) (seen : list (list A)),
       Combinators.Sequential_forward
         (Combinators.mkSequential (Combinators.recording <$> Combinators.blocks self))
         x aux (s, seen)
       = match Combinators.Sequential_forward self x aux s with
         | Ok (y, s') =>
             Ok (y, (s', seen ++ replicate (length (Combinators.blocks self)) aux))
         | Raise e => Raise e
         end).
Proof.
  split; [|split].
  - apply forward_loop_nested.
  - intros c1 c2 c3 s. cbn.
    unfold mbind, M_mbind, M_bind, mret, M_mret, M_ret.
    destruct (c1 x aux s) as [[y1 s1]|e1]; [|reflexivity].
    destruct (c2 y1 aux s1) as [[y2 s2]|e2]; [|reflexivity].
    destruct (c3 y2 aux s2) as [[y3 s3]|e3]; reflexivity.
  - intros s seen. apply forward_loop_recording.
Qed.

(** C5. The forward pass of a [Skip(merge_fn)] chain is
    [merge_fn(x, chain(x, aux))], where [chain] is the sequential
    application of the wrapped children; with addition as the merge
    function and a chain whose output is zero, the output is [x]. *)
Theorem Skip_forward_contract {S X A : Type}
    (merge_fn : X → X → M S X)
    (self : Combinators.Sequential S X A) (x : X) (aux : list A) :
  Combinators.Skip_forward merge_fn self x aux
    ≃ (y ← Combinators.nested_application (Combinators.blocks self) x aux;
       merge_fn x y)
  ∧ (∀ (add : X → X → X) (zero : X) (s s' : S),
       (∀ a, add a zero = a) →
       Combinators.Sequential_forward self x aux s = Ok (zero, s') →
       Combinators.Skip_forward (λ a b, mret (add a b)) self x aux s
         = Ok (x, s')).
Proof.
  split.
  - unfold Combinators.Skip_forward.
    apply M_bind_equiv; [apply forward_loop_nested|].
    intros y. apply M_equiv_refl.
  - intros add zero s s' Hzero Hchain.
    unfold Combinators.Skip_forward, mbind, M_mbind, M_bind.
    rewrite Hchain. unfold mret, M_mret, M_ret. rewrite Hzero. reflexivity.
Qed.

Lemma Skip_forward_contract_witness :
  Combinators.Skip_forward (S := unit) (A := unit)
    (λ a b : Z, mret (a + b))
    (Combinators.mkSequential [λ x _, mret (x * 0)]) 5 [] tt
  = Ok (5, tt).
Proof.
  apply (proj2 (Skip_forward_contract (S := unit) (A := unit) (X := Z)
                  (λ a b : Z, mret (a + b))
                  (Combinators.mkSequential [λ x _, mret (x * 0)]) 5 []))
    with (add := Z.add) (zero := 0).
  - intros a. lia.
  - reflexivity.
Defined.

(** *** Repeat: independent instances from a template, one shared instance
    from a built module *)

Section RepeatFacts.
Import Repetition.
Context {P : Type}.
Implicit Types (h : gmap loc (obj P)) (tp : template P).

Lemma alloc_constructs (o : obj P) : constructs (alloc o).
Proof.
  intros h l h' Halloc. unfold alloc in Halloc. injection Halloc as <- <-.
  assert (Hfresh : h !! fresh (dom h) = None).
  { apply not_elem_of_dom. apply is_fresh. }
  split; [exact Hfresh|]. split.
  - rewrite lookup_insert_eq. eauto.
  - intros l' [o' Ho']. apply lookup_insert_ne. congruence.
Qed.

Lemma leaf_class_constructs (init : P) : constructs (leaf_class init).
Proof. apply alloc_constructs. Qed.



(** Writing the parameters of one module leaves every other module as it
    was. *)
Lemma set_params_other (l l' : loc) (p : P) h :
  l ≠ l' → set_params l p h !! l' = h !! l'.
Proof.
  intros Hne. unfold set_params.
  destruct (h !! l) as [[p0|ls]|]; [|reflexivity..].
  apply lookup_insert_ne. exact Hne.
Qed.


End RepeatFacts.



(** *** Attention *)

(** What [Attention.__init__] has done when it returns: the attributes
    it set and the constructor calls that returned them. *)
Lemma Attention_init_Ok {Tensor : Type}
    (LayerNorm : Z → result (AttentionBlock.layer Tensor))
    (Linear : Z → Z → result (AttentionBlock.layer Tensor))
    (features head_features num_heads : Z)
    (context_features max_length : option Z)
    (attention_base_t :
       Z → Z → Z → result (Tensor → Tensor → Tensor → result Tensor))
    (positional_embedding_t :
       option (Z → Z → result (AttentionBlock.layer Tensor)))
    (self : AttentionBlock.Attention Tensor) :
  AttentionBlock.Attention_init LayerNorm Linear features head_features
    num_heads context_features max_length attention_base_t
    positional_embedding_t = Ok self →
  AttentionBlock.context_features self = context_features
  ∧ AttentionBlock.use_context self = exists_ context_features
  ∧ AttentionBlock.use_positional_embedding self
      = exists_ positional_embedding_t
  ∧ AttentionBlock.max_length self = max_length
  ∧ match positional_embedding_t with
    | Some pe_t =>
        ∃ n pe, max_length = Some n ∧ pe_t n features = Ok pe
                ∧ AttentionBlock.positional_embedding self = Some pe
    | None => AttentionBlock.positional_embedding self = None
    end
  ∧ LayerNorm features = Ok (AttentionBlock.norm self)
  ∧ LayerNorm (default_ context_features features)
      = Ok (AttentionBlock.norm_context self)
  ∧ Linear features (head_features * num_heads) = Ok (AttentionBlock.to_q self)
  ∧ Linear (default_ context_features features) (head_features * num_heads * 2)
      = Ok (AttentionBlock.to_kv self)
  ∧ attention_base_t features head_features num_heads
      = Ok (AttentionBlock.attention self).
Proof.
  unfold AttentionBlock.Attention_init. intros Hinit.
  assert (Hpe : ∃ pe,
    match positional_embedding_t with
    | Some pe_t =>
        match max_length with
        | Some n => pe ← pe_t n features; Ok (Some pe)
        | None => Raise (AssertionError "")
        end
    | None => Ok None
    end = Ok pe
    ∧ match positional_embedding_t with
      | Some pe_t =>
          ∃ n pe0, max_length = Some n ∧ pe_t n features = Ok pe0
                   ∧ pe = Some pe0
      | None => pe = None
      end).
  { destruct positional_embedding_t as [pe_t|].
    - destruct max_length as [n|]; [|discriminate Hinit].
      destruct (pe_t n features) as [pe0|e] eqn:Hpe0; [|discriminate Hinit].
      exists (Some pe0). split; [reflexivity|].
      exists n, pe0. repeat split. exact Hpe0.
    - exists None. split; reflexivity. }
  destruct Hpe as (pe & Hbuilt & Hpe). rewrite Hbuilt in Hinit. cbn in Hinit.
  destruct (LayerNorm features) as [n1|e]; [|discriminate Hinit].
  cbn in Hinit.
  destruct (LayerNorm (default_ context_features features)) as [n2|e];
    [|discriminate Hinit].
  cbn in Hinit.
  destruct (Linear features (head_features * num_heads)) as [l1|e];
    [|discriminate Hinit].
  cbn in Hinit.
  destruct (Linear (default_ context_features features)
              (head_features * num_heads * 2)) as [l2|e];
    [|discriminate Hinit].
  cbn in Hinit.
  destruct (attention_base_t features head_features num_heads) as [att|e];
    [|discriminate Hinit].
  cbn in Hinit. injection Hinit as <-. cbn.
  repeat (split; [reflexivity|]).
  split; [|repeat split].
  destruct positional_embedding_t as [pe_t|]; exact Hpe.
Qed.

(** C10. Every output of [Attention.forward], with a context or without,
    is the input [x] plus the attention computed on the query of the
    normalised [x + e] (or of the normalised [x], when the block has no
    positional embedding [e]) and on the key and value of the normalised
    context: the skip connection takes [x] itself, as it was before the
    positional embedding and the normalisation. The forward pass returns
    that output whenever the context assertion of the block holds and the
    positional embedding, the layers, the attention and the two sums
    return. *)
Theorem Attention_forward_residual {Tensor : Type}
    (tensor_add : Tensor → Tensor → result Tensor)
    (torch_chunk : Tensor → Z → result (list Tensor))
    (self : AttentionBlock.Attention Tensor) (x : Tensor) (context : option Tensor) :
  let attended (x1 : Tensor) : result Tensor :=
    let c1 := match context with
              | Some c => if AttentionBlock.use_context self then c else x1
              | None => x1
              end in
    xn ← AttentionBlock.norm self x1;
    cn ← AttentionBlock.norm_context self c1;
    q ← AttentionBlock.to_q self xn;
    kv ← AttentionBlock.to_kv self cn;
    chunks ← torch_chunk kv 2;
    match chunks with
    | [k; v] => AttentionBlock.attention self q k v
    | _ => Raise ValueError
    end in
  (∀ out,
     AttentionBlock.Attention_forward tensor_add torch_chunk self x context
       = Ok out →
     ∃ e x1 a,
       (AttentionBlock.use_positional_embedding self = true →
          AttentionBlock.call_positional_embedding self x = Ok e)
       ∧ AttentionBlock.embedded_input tensor_add self x e = Ok x1
       ∧ attended x1 = Ok a
       ∧ tensor_add x a = Ok out)
  ∧ ((py_truthy (AttentionBlock.context_features self) = true → is_Some context) →
     ∀ e x1 a out,
       (AttentionBlock.use_positional_embedding self = true →
          AttentionBlock.call_positional_embedding self x = Ok e) →
       AttentionBlock.embedded_input tensor_add self x e = Ok x1 →
       attended x1 = Ok a →
       tensor_add x a = Ok out →
       AttentionBlock.Attention_forward tensor_add torch_chunk self x context
         = Ok out).
Proof.
  intros attended.
  assert (Hforward :
    AttentionBlock.Attention_forward tensor_add torch_chunk self x context
    = (_ ← py_assert
             (negb (py_truthy (AttentionBlock.context_features self))
              || exists_ context)
             "You must provide a context when using context_features";
       x1 ← (if AttentionBlock.use_positional_embedding self
             then e ← AttentionBlock.call_positional_embedding self x;
                  tensor_add x e
             else Ok x);
       a ← attended x1;
       tensor_add x a)).
  { subst attended. unfold AttentionBlock.Attention_forward. cbv beta zeta.
    destruct (py_assert _ _) as [[]|err]; [|reflexivity].
    assert (Htail : ∀ x1 : Tensor,
      (AttentionBlock.norm self x1 ≫= λ xn,
       AttentionBlock.norm_context self
         match context with
         | Some c => if AttentionBlock.use_context self then c else x1
         | None => x1
         end ≫= λ cn,
       AttentionBlock.to_q self xn ≫= λ q,
       AttentionBlock.to_kv self cn ≫= λ kv,
       torch_chunk kv 2 ≫= λ chunks,
       unpack3 (q :: chunks) ≫= λ '(q0, k, v),
       AttentionBlock.attention self q0 k v ≫= λ a, tensor_add x a)
      = ((AttentionBlock.norm self x1 ≫= λ xn,
          AttentionBlock.norm_context self
            match context with
            | Some c => if AttentionBlock.use_context self then c else x1
            | None => x1
            end ≫= λ cn,
          AttentionBlock.to_q self xn ≫= λ q,
          AttentionBlock.to_kv self cn ≫= λ kv,
          torch_chunk kv 2 ≫= λ chunks,
          match chunks with
          | [k; v] => AttentionBlock.attention self q k v
          | _ => Raise ValueError
          end) ≫= λ a, tensor_add x a)).
    { intros x1.
      destruct (AttentionBlock.norm self x1) as [xn|err]; [|reflexivity]. cbn.
      destruct (AttentionBlock.norm_context self _) as [cn|err]; [|reflexivity].
      cbn. destruct (AttentionBlock.to_q self xn) as [q|err]; [|reflexivity].
      cbn. destruct (AttentionBlock.to_kv self cn) as [kv|err]; [|reflexivity].
      cbn. destruct (torch_chunk kv 2) as [chunks|err]; [|reflexivity].
      cbn. destruct chunks as [|k [|v [|w chunks]]]; reflexivity. }
    destruct (AttentionBlock.use_positional_embedding self).
    - destruct (AttentionBlock.call_positional_embedding self x) as [e|err];
        [|reflexivity].
      change (Ok e ≫= λ e0, tensor_add x e0) with (tensor_add x e).
      destruct (tensor_add x e) as [x1|err]; [|reflexivity].
      exact (Htail x1).
    - exact (Htail x). }
  rewrite Hforward. clear Hforward. clearbody attended.
  unfold AttentionBlock.embedded_input. split.
  - intros out Hout.
    destruct (py_assert _ _) as [[]|err]; [|discriminate Hout].
    cbn in Hout.
    destruct (AttentionBlock.use_positional_embedding self).
    + destruct (AttentionBlock.call_positional_embedding self x) as [e|err];
        [|discriminate Hout].
      cbn in Hout.
      destruct (tensor_add x e) as [x1|err] eqn:Hx1; [|discriminate Hout].
      cbn in Hout.
      destruct (attended x1) as [a|err] eqn:Ha; [|discriminate Hout].
      exists e, x1, a. repeat split; [exact Hx1 | exact Ha | exact Hout].
    + cbn in Hout.
      destruct (attended x) as [a|err] eqn:Ha; [|discriminate Hout].
      exists x, x, a. split; [discriminate|]. repeat split; [exact Ha | exact Hout].
  - intros Hctx e x1 a out Hpe Hx1 Ha Hout.
    assert (Hassert :
      negb (py_truthy (AttentionBlock.context_features self)) || exists_ context
        = true).
    { destruct (py_truthy (AttentionBlock.context_features self)); [|reflexivity].
      destruct (Hctx eq_refl) as [c ->]. reflexivity. }
    rewrite Hassert. cbn.
    destruct (AttentionBlock.use_positional_embedding self).
    + rewrite (Hpe eq_refl). cbn. rewrite Hx1. cbn. rewrite Ha. exact Hout.
    + injection Hx1 as <-. cbn. rewrite Ha. exact Hout.
Qed.

Lemma Attention_forward_residual_witness :
  let self :=
    AttentionBlock.mkAttention (Tensor := Z) (Some 4) true true (Some 8)
      (Some (λ t, Ok (t * 10))) (λ t, Ok (t + 1)) (λ t, Ok (t + 2))
      (λ t, Ok (t * 2)) (λ t, Ok (t * 3)) (λ q k v, Ok (q + k + v)) in
  AttentionBlock.Attention_forward (λ a b, Ok (a + b)) (λ t _, Ok [t; t]) self 5
    (Some 7) = Ok 171.
Proof.
  intros self.
  apply (proj2 (Attention_forward_residual (λ a b, Ok (a + b))
                  (λ t _, Ok [t; t]) self 5 (Some 7))
           (λ _, ex_intro _ 7 eq_refl) 50 55 166 171 (λ _, eq_refl)
           eq_refl eq_refl eq_refl).
Defined.

(** *** Classifier-free guidance *)

Section GuidanceFacts.
Import Guidance.

(** A probability equal to 1 is greater than 0. *)
Lemma float_one_gt_zero (p : pyfloat) :
  float_eqb p float_one = true → float_gtb p float_zero = true.
Proof.
  destruct p as [q| | |]; simpl; try discriminate.
  intros Heq. apply Qeq_bool_iff in Heq.
  destruct (Qle_bool q 0) eqn:Hle; [|reflexivity].
  apply Qle_bool_iff in Hle. rewrite Heq in Hle.
  exfalso. apply (Qlt_not_le 0 1); [reflexivity | exact Hle].
Qed.

(** A probability equal to 1 is not equal to 0. *)
Lemma float_one_not_zero (p : pyfloat) :
  float_eqb p float_one = true → float_eqb p float_zero = false.
Proof.
  destruct p as [q| | |]; simpl; try discriminate.
  intros Heq. apply Qeq_bool_iff in Heq.
  destruct (Qeq_bool q 0) eqn:Hz; [|reflexivity].
  apply Qeq_bool_iff in Hz. rewrite Heq in Hz. discriminate.
Qed.

Context {Vec : Type}.

(** With a mask that is true everywhere, [torch.where] returns its first
    tensor. *)
Lemma where_all_true (row : list Vec) (rows : list (list Vec)) :
  zip_with (λ (c : bool) (ab : list Vec * list Vec), if c then ab.1 else ab.2)
    (replicate (length rows) true)
    (zip (replicate (length rows) row) rows)
  = replicate (length rows) row.
Proof.
  induction rows as [|r rows IH]; [reflexivity|].
  simpl. f_equal. exact IH.
Qed.
End GuidanceFacts.

(** The forward pass of the guidance module once the fixed embedding is
    computed. *)
Lemma cfg_forward_unfold {S X Out Kw Vec : Type}
    (bernoulli : Guidance.pyfloat → nat → M S (list bool))
    (tensor_add tensor_sub : Out → Out → Out)
    (tensor_mul_float : Out → Guidance.pyfloat → Out)
    (self : Guidance.cfg_module S X Out Kw Vec)
    (x : X) (e fixed : Guidance.tensor3 Vec)
    (scale proba : Guidance.pyfloat) (kw : Kw) :
  Guidance.FixedEmbedding_forward (Guidance.fixed_embedding self) e = Ok fixed →
  Guidance.forward bernoulli tensor_add tensor_sub tensor_mul_float
    self x (Some e) scale proba kw
  ≃ (e' ← Guidance.mask_embedding bernoulli proba fixed e;
     if negb (Guidance.float_eqb scale Guidance.float_one)
     then out ← Guidance.net self x e' kw;
          out_masked ← Guidance.net self x fixed kw;
          mret (tensor_add out_masked
                  (tensor_mul_float (tensor_sub out out_masked) scale))
     else Guidance.net self x e' kw).
Proof.
  intros Hfixed s. unfold Guidance.forward.
  unfold mbind at 1, M_mbind at 1, M_bind at 1.
  rewrite Hfixed. reflexivity.
Qed.

(** The fixed embedding of an input within the maximal length. *)
Lemma FixedEmbedding_forward_returns {Vec : Type}
    (self : Guidance.FixedEmbedding Vec) (e : Guidance.tensor3 Vec) :
  Z.of_nat (Guidance.shape1 e) ≤ Guidance.fe_max_length self →
  Guidance.FixedEmbedding_forward self e
    = Ok (Guidance.mkTensor3 (Guidance.shape1 e)
            (replicate (length (Guidance.items e))
               (Guidance.fe_weight self <$> seq 0 (Guidance.shape1 e)))).
Proof.
  intros Hlen. unfold Guidance.FixedEmbedding_forward.
  destruct (Z.leb_spec (Z.of_nat (Guidance.shape1 e)) (Guidance.fe_max_length self));
    [reflexivity | lia].
Qed.

(** With a probability equal to 1 the masked embedding is the fixed
    embedding of the input. *)
Lemma mask_embedding_one {S Vec : Type}
    (bernoulli : Guidance.pyfloat → nat → M S (list bool))
    (self : Guidance.FixedEmbedding Vec) (e fixed : Guidance.tensor3 Vec)
    (proba : Guidance.pyfloat) :
  Guidance.FixedEmbedding_forward self e = Ok fixed →
  Guidance.float_eqb proba Guidance.float_one = true →
  Guidance.mask_embedding bernoulli proba fixed e ≃ mret fixed.
Proof.
  intros Hfixed Hone s. unfold Guidance.FixedEmbedding_forward in Hfixed.
  destruct (py_assert _ _) as [[]|err]; [|discriminate Hfixed].
  cbn in Hfixed. injection Hfixed as <-.
  unfold Guidance.mask_embedding, Guidance.rand_bool.
  rewrite (float_one_gt_zero _ Hone), Hone.
  unfold mbind, M_mbind, M_bind, mret, M_mret, M_ret.
  unfold Guidance.torch_where. cbn.
  rewrite where_all_true. reflexivity.
Qed.

(** C2. For a network wrapped by [ClassifierFreeGuidancePlugin] and an
    input with an embedding. Every output of the forward pass is computed
    on the embedding [e'], the given embedding possibly masked, which is the
    given embedding when the mask probability is not positive and the fixed
    embedding when the mask probability equals 1.0: with a scale equal to
    1.0 the output is that of one evaluation of the base network on [e'];
    with a scale different from 1.0 it is
    [out_masked + (out - out_masked) * embedding_scale], where [out] is the
    base network on [e'] and [out_masked] the base network on the fixed
    embedding. For an embedding no longer than [embedding_max_length], the
    forward pass is those computations: it returns whenever the sampling of
    the mask and the base network return. *)
Theorem cfg_forward_guidance {S X Out Kw CKw Vec : Type}
    (nn_Embedding : Z → Z → nat → Vec)
    (bernoulli : Guidance.pyfloat → nat → M S (list bool))
    (tensor_add tensor_sub : Out → Out → Out)
    (tensor_mul_float : Out → Guidance.pyfloat → Out)
    (net_t : Z → CKw → Guidance.network S X Out Kw Vec)
    (embedding_max_length embedding_features : Z) (ckw : CKw)
    (x : X) (e : Guidance.tensor3 Vec)
    (scale proba : Guidance.pyfloat) (kw : Kw) :
  let self := Guidance.ClassifierFreeGuidancePlugin nn_Embedding net_t
                embedding_max_length embedding_features ckw in
  let fwd := Guidance.forward bernoulli tensor_add tensor_sub tensor_mul_float
               self x (Some e) scale proba kw in
  let guided (out out_masked : Out) : Out :=
    tensor_add out_masked (tensor_mul_float (tensor_sub out out_masked) scale) in
  (∀ s out s', fwd s = Ok (out, s') →
     ∃ fixed e' s1,
       Guidance.FixedEmbedding_forward (Guidance.fixed_embedding self) e = Ok fixed
       ∧ Guidance.mask_embedding bernoulli proba fixed e s = Ok (e', s1)
       ∧ (Guidance.float_gtb proba Guidance.float_zero = false → e' = e)
       ∧ (Guidance.float_eqb proba Guidance.float_one = true → e' = fixed)
       ∧ (Guidance.float_eqb scale Guidance.float_one = true →
            Guidance.net self x e' kw s1 = Ok (out, s'))
       ∧ (Guidance.float_eqb scale Guidance.float_one = false →
            ∃ o s2 o_masked,
              Guidance.net self x e' kw s1 = Ok (o, s2)
              ∧ Guidance.net self x fixed kw s2 = Ok (o_masked, s')
              ∧ out = guided o o_masked))
  ∧
  (Z.of_nat (Guidance.shape1 e) ≤ embedding_max_length →
   ∃ fixed,
    Guidance.FixedEmbedding_forward (Guidance.fixed_embedding self) e = Ok fixed
    ∧ (Guidance.float_eqb scale Guidance.float_one = true →
         fwd ≃ (e' ← Guidance.mask_embedding bernoulli proba fixed e;
                Guidance.net self x e' kw)
         ∧ (Guidance.float_gtb proba Guidance.float_zero = false →
              fwd ≃ Guidance.net self x e kw))
    ∧ (Guidance.float_eqb proba Guidance.float_one = true →
         Guidance.mask_embedding bernoulli proba fixed e ≃ mret fixed
         ∧ (Guidance.float_eqb scale Guidance.float_one = true →
              fwd ≃ Guidance.net self x fixed kw)
         ∧ (Guidance.float_eqb scale Guidance.float_one = false →
              fwd ≃ (out ← Guidance.net self x fixed kw;
                     out_masked ← Guidance.net self x fixed kw;
                     mret (guided out out_masked))))
    ∧ (Guidance.float_eqb scale Guidance.float_one = false →
         fwd ≃ (e' ← Guidance.mask_embedding bernoulli proba fixed e;
                out ← Guidance.net self x e' kw;
                out_masked ← Guidance.net self x fixed kw;
                mret (guided out out_masked)))).
Proof.
  intros self fwd guided. split.
  - intros s out s' Hrun.
    destruct (Guidance.FixedEmbedding_forward (Guidance.fixed_embedding self) e)
      as [fixed|err] eqn:Hfixed.
    2:{ unfold fwd, Guidance.forward in Hrun.
        unfold mbind at 1, M_mbind at 1, M_bind at 1 in Hrun.
        rewrite Hfixed in Hrun. discriminate Hrun. }
    unfold fwd in Hrun.
    rewrite (cfg_forward_unfold _ _ _ _ _ _ _ _ _ _ _ Hfixed s) in Hrun.
    unfold mbind at 1, M_mbind at 1, M_bind at 1 in Hrun.
    destruct (Guidance.mask_embedding bernoulli proba fixed e s)
      as [[e' s1]|err] eqn:Hmask; [|discriminate Hrun].
    exists fixed, e', s1. split; [reflexivity|]. split; [exact Hmask|].
    split; [|split; [|split]].
    + intros Hproba. unfold Guidance.mask_embedding in Hmask.
      rewrite Hproba in Hmask. injection Hmask as <- _. reflexivity.
    + intros Hone. rewrite (mask_embedding_one _ _ _ _ _ Hfixed Hone s) in Hmask.
      injection Hmask as <- _. reflexivity.
    + intros Hscale. rewrite Hscale in Hrun. exact Hrun.
    + intros Hscale. rewrite Hscale in Hrun. cbn [negb] in Hrun.
      unfold mbind, M_mbind, M_bind in Hrun.
      destruct (Guidance.net self x e' kw s1) as [[o s2]|err] eqn:Hout;
        [|discriminate Hrun].
      destruct (Guidance.net self x fixed kw s2) as [[om s3]|err] eqn:Hmasked;
        [|discriminate Hrun].
      injection Hrun as <- <-. exists o, s2, om.
      split; [reflexivity|]. split; [exact Hmasked | reflexivity].
  - intros Hlen.
    pose proof (FixedEmbedding_forward_returns (Guidance.fixed_embedding self) e Hlen)
      as Hfixed.
    set (fixed := Guidance.mkTensor3 _ _) in Hfixed.
    pose proof (cfg_forward_unfold bernoulli tensor_add tensor_sub tensor_mul_float
                  self x e fixed scale proba kw Hfixed) as Hfwd.
    fold fwd in Hfwd.
    exists fixed. split; [exact Hfixed|]. split; [|split].
    + intros Hscale. split.
      * intros s. rewrite Hfwd, Hscale. reflexivity.
      * intros Hproba s. rewrite Hfwd, Hscale.
        unfold Guidance.mask_embedding. rewrite Hproba. reflexivity.
    + intros Hone.
      pose proof (mask_embedding_one bernoulli _ _ _ _ Hfixed Hone) as Hmask1.
      split; [exact Hmask1|]. split.
      * intros Hscale s. rewrite Hfwd, Hscale.
        unfold mbind, M_mbind, M_bind. rewrite Hmask1. reflexivity.
      * intros Hscale s. rewrite Hfwd, Hscale.
        unfold mbind at 1, M_mbind at 1, M_bind at 1.
        rewrite Hmask1. reflexivity.
    + intros Hscale s. rewrite Hfwd, Hscale. reflexivity.
Qed.

Lemma cfg_forward_guidance_witness :
  let net_t : Z → unit → Guidance.network unit Z Z unit Z :=
    λ _ _ x emb _, mret (x + Z.of_nat (Guidance.shape1 emb)) in
  let e := Guidance.mkTensor3 2 [[10; 11]; [20; 21]] in
  Guidance.forward (λ _ n, mret (replicate n false)) Z.add Z.sub (λ o _, o)
    (Guidance.ClassifierFreeGuidancePlugin (λ _ _ n, Z.of_nat n) net_t 4 1 tt)
    5 (Some e) Guidance.float_one Guidance.float_zero tt tt
  = Ok (7, tt).
Proof.
  intros net_t e.
  destruct (proj2 (cfg_forward_guidance (λ _ _ n, Z.of_nat n)
                     (λ _ n, mret (replicate n false)) Z.add Z.sub (λ o _, o)
                     net_t 4 1 tt 5 e Guidance.float_one Guidance.float_zero tt))
    as (fixed & _ & Hscale & _); [simpl; lia|].
  destruct (Hscale eq_refl) as [_ Hplain].
  rewrite (Hplain eq_refl tt). reflexivity.
Defined.

(** *** The tabular embedding generator *)

Section TabularFacts.
Import Tabular.
Implicit Types (self : TabularDataEmbeddingGenerator) (x : tensor2).

(** Reading a column at or past the number of columns raises. *)
Lemma column_out_of_range x (j : Z) :
  Z.of_nat (shape1 x) ≤ j → column x j = Raise IndexError.
Proof.
  intros Hj. unfold column, norm_index.
  destruct (Z.ltb_spec j 0); [lia|].
  destruct (Z.leb_spec 0 j); [|lia].
  destruct (Z.ltb_spec j (Z.of_nat (shape1 x))); [lia|]. reflexivity.
Qed.

(** A column among the first [n] is the same in the tensor cut to its
    first [n] columns. *)
Lemma column_first_columns x (n : nat) (j : Z) :
  0 ≤ j < Z.of_nat n → (n ≤ shape1 x)%nat →
  column (first_columns n x) j = column x j.
Proof.
  intros Hj Hn. unfold column, norm_index, first_columns. cbn.
  destruct (Z.ltb_spec j 0); [lia|].
  destruct (Z.leb_spec 0 j); [|lia].
  destruct (Z.ltb_spec j (Z.of_nat n)); [|lia].
  destruct (Z.ltb_spec j (Z.of_nat (shape1 x))); [|lia].
  cbn. f_equal. rewrite <- list_fmap_compose. apply list_fmap_ext.
  intros i row _. cbn. rewrite lookup_take_lt; [reflexivity | lia].
Qed.

Lemma forward_step_out_of_range self x (j : Z) (is_continuous : bool)
    (st : list tensor2 * Z) :
  Z.of_nat (shape1 x) ≤ j → is_Raise (forward_step self x j is_continuous st).
Proof.
  intros Hj. destruct st as [cols counter]. unfold forward_step.
  rewrite (column_out_of_range x j Hj).
  destruct is_continuous; [eexists; reflexivity|].
  destruct (py_getitem (embeddings self) counter) as [emb|e];
    eexists; reflexivity.
Qed.

Lemma forward_step_first_columns self x (n : nat) (j : Z)
    (is_continuous : bool) (st : list tensor2 * Z) :
  0 ≤ j < Z.of_nat n → (n ≤ shape1 x)%nat →
  forward_step self (first_columns n x) j is_continuous st
    = forward_step self x j is_continuous st.
Proof.
  intros Hj Hn. destruct st as [cols counter]. unfold forward_step.
  rewrite (column_first_columns x n j Hj Hn). reflexivity.
Qed.

(** The loop of [forward] raises when it meets a column index past the
    input. *)
Lemma for_enumerate_too_few_columns self x (mask : list bool) (start : Z)
    (st : list tensor2 * Z) :
  start ≤ Z.of_nat (shape1 x) →
  Z.of_nat (shape1 x) < start + Z.of_nat (length mask) →
  is_Raise (for_enumerate (forward_step self x) start mask st).
Proof.
  revert start st. induction mask as [|b mask IH]; intros start st Hstart Hlen.
  - simpl in Hlen. lia.
  - simpl.
    destruct (Z.le_gt_cases (Z.of_nat (shape1 x)) start) as [Hge|Hlt].
    + destruct (forward_step_out_of_range self x start b st Hge) as [e ->].
      eexists. reflexivity.
    + destruct (forward_step self x start b st) as [st'|e];
        [|eexists; reflexivity].
      cbn. apply IH; [lia|]. simpl in Hlen. lia.
Qed.

(** The loop of [forward] reads only the columns it enumerates. *)
Lemma for_enumerate_first_columns self x (n : nat) (mask : list bool)
    (start : Z) (st : list tensor2 * Z) :
  0 ≤ start → start + Z.of_nat (length mask) ≤ Z.of_nat n → (n ≤ shape1 x)%nat →
  for_enumerate (forward_step self (first_columns n x)) start mask st
    = for_enumerate (forward_step self x) start mask st.
Proof.
  revert start st. induction mask as [|b mask IH]; intros start st Hstart Hlen Hn.
  - reflexivity.
  - simpl in *. rewrite forward_step_first_columns; [|lia|exact Hn].
    destruct (forward_step self x start b st) as [st'|e]; [|reflexivity].
    cbn. apply IH; [lia | lia | exact Hn].
Qed.
End TabularFacts.

(** [mask[idxs] = 0] keeps the length of the mask. *)
Lemma index_put_false_length (mask : list bool) (idxs : list Z) (m : list bool) :
  Tabular.index_put_false mask idxs = Ok m → length m = length mask.
Proof.
  unfold Tabular.index_put_false.
  generalize (length mask) at 1 as len. intros len.
  assert (Hgen : ∀ (acc : result (list bool)),
    foldl (λ acc i, m ← acc; k ← Tabular.norm_index len i; Ok (<[k := false]> m))
      acc idxs = Ok m →
    ∃ m0, acc = Ok m0 ∧ length m = length m0).
  { induction idxs as [|i idxs IH]; intros acc Hfold.
    - exists m. split; [exact Hfold | reflexivity].
    - simpl in Hfold. destruct (IH _ Hfold) as (m1 & Hstep & Hlen).
      destruct acc as [m0|e]; [|discriminate Hstep].
      cbn in Hstep. destruct (Tabular.norm_index len i) as [k|e];
        [|discriminate Hstep].
      cbn in Hstep. injection Hstep as <-.
      exists m0. split; [reflexivity|]. rewrite Hlen. apply length_insert. }
  intros Hfold. destruct (Hgen _ Hfold) as (m0 & Heq & Hlen).
  injection Heq as <-. exact Hlen.
Qed.

(** A generator that the constructor builds in embedding mode has one mask
    entry per raw column. *)
Lemma init_continuous_idx_length
    (uninitialised : nat → nat → Q) (embedding_init : nat → Z → Z → nat → list Q)
    (np : option Tabular.numpy) (input_dim : Z)
    (cat_dims cat_idxs cat_emb_dims : list Z) (group_matrix : Tabular.tensor2)
    (self : Tabular.TabularDataEmbeddingGenerator) :
  Tabular.init uninitialised embedding_init np input_dim cat_dims cat_idxs
    cat_emb_dims group_matrix = Ok self →
  Tabular.skip_embedding self = false →
  0 ≤ input_dim ∧ length (Tabular.continuous_idx self) = Z.to_nat input_dim.
Proof.
  unfold Tabular.init. intros Hinit Hskip.
  destruct (bool_decide _).
  { injection Hinit as <-. discriminate Hskip. }
  destruct np as [numpy|]; [|discriminate Hinit]. cbn in Hinit.
  unfold Tabular.torch_ones in Hinit.
  destruct (Z.ltb_spec input_dim 0) as [|Hdim]; [discriminate Hinit|].
  cbn in Hinit.
  destruct (Tabular.index_put_false _ cat_idxs) as [mask|e] eqn:Hmask;
    [|discriminate Hinit].
  cbn in Hinit.
  destruct (Tabular.torch_empty _ _ _) as [empty|e]; [|discriminate Hinit].
  cbn in Hinit.
  destruct (Tabular.for_range _ _ _ _) as [m|e]; [|discriminate Hinit].
  cbn in Hinit. injection Hinit as <-. cbn.
  split; [exact Hdim|].
  rewrite (index_put_false_length _ _ _ Hmask). apply length_replicate.
Qed.

(** In the module as it is, every construction with categorical metadata
    stops at the unbound name [np]. *)
Lemma init_with_categories_raises_NameError
    (uninitialised : nat → nat → Q) (embedding_init : nat → Z → Z → nat → list Q)
    (input_dim : Z) (cat_dims cat_idxs cat_emb_dims : list Z)
    (group_matrix : Tabular.tensor2) :
  ¬ (cat_dims = [] ∧ cat_idxs = []) →
  Tabular.init uninitialised embedding_init Tabular.blocks_np input_dim
    cat_dims cat_idxs cat_emb_dims group_matrix
  = Raise (NameError "np").
Proof.
  intros Hcat. unfold Tabular.init.
  rewrite bool_decide_eq_false_2 by exact Hcat. reflexivity.
Qed.

(** *** The rebuilt grouping matrix, were [np] bound *)

Section RebuildFacts.
Import Tabular.

Lemma norm_index_in_range (len : nat) (i : Z) :
  0 ≤ i < Z.of_nat len → norm_index len i = Ok (Z.to_nat i).
Proof.
  intros Hi. unfold norm_index.
  destruct (Z.ltb_spec i 0); [lia|].
  destruct (Z.leb_spec 0 i); [|lia].
  destruct (Z.ltb_spec i (Z.of_nat len)); [reflexivity | lia].
Qed.

Lemma py_getitem_lookup {A} (l : list A) (k : nat) (a : A) :
  l !! k = Some a → py_getitem l (Z.of_nat k) = Ok a.
Proof.
  intros Hk. pose proof (lookup_lt_Some _ _ _ Hk) as Hlt.
  unfold py_getitem.
  destruct (Z.ltb_spec (Z.of_nat k) 0); [lia|].
  destruct (Z.leb_spec 0 (Z.of_nat k)); [|lia].
  destruct (Z.ltb_spec (Z.of_nat k) (Z.of_nat (length l))); [|lia].
  cbn. rewrite Nat2Z.id, Hk. reflexivity.
Qed.

Lemma categorical_count_app (m1 m2 : list bool) :
  categorical_count (m1 ++ m2) = (categorical_count m1 + categorical_count m2)%nat.
Proof. induction m1 as [|b m1 IH]; simpl; [reflexivity|]. rewrite IH. lia. Qed.

Lemma expanded_row_app (m1 m2 : list bool) (dims : list Z) (r1 r2 : list Q) :
  length m1 = length r1 →
  (categorical_count m1 ≤ length dims)%nat →
  expanded_row (m1 ++ m2) dims (r1 ++ r2)
    = expanded_row m1 dims r1
        ++ expanded_row m2 (drop (categorical_count m1) dims) r2.
Proof.
  revert dims r1. induction m1 as [|b m1 IH]; intros dims r1 Hlen Hcount.
  - destruct r1; [|discriminate]. simpl. rewrite drop_0. reflexivity.
  - destruct r1 as [|w r1]; [discriminate|]. simpl in Hlen, Hcount.
    injection Hlen as Hlen. simpl. destruct b.
    + simpl. f_equal. apply IH; [exact Hlen | simpl in Hcount; lia].
    + destruct dims as [|d dims]; [simpl in Hcount; lia|].
      simpl. rewrite <- app_assoc. f_equal.
      apply IH; [exact Hlen | simpl in Hcount; lia].
Qed.

Lemma expanded_row_length (mask : list bool) (dims : list Z) (row : list Q) :
  length mask = length row →
  (categorical_count mask ≤ length dims)%nat →
  Forall (λ d, 0 ≤ d) dims →
  Z.of_nat (length (expanded_row mask dims row))
    = Z.of_nat (length mask) - Z.of_nat (categorical_count mask)
      + foldr Z.add 0 (take (categorical_count mask) dims).
Proof.
  revert dims row. induction mask as [|b mask IH]; intros dims row Hlen Hcount Hdims.
  - destruct row; [|discriminate]. reflexivity.
  - destruct row as [|w row]; [discriminate|]. injection Hlen as Hlen.
    simpl in Hcount. destruct b; simpl.
    + rewrite Nat2Z.inj_succ, (IH dims row Hlen); [lia | lia | exact Hdims].
    + destruct dims as [|d dims]; [simpl in Hcount; lia|].
      inversion Hdims as [|? ? Hd Hdims']; subst.
      rewrite length_app, length_replicate, Nat2Z.inj_add.
      rewrite (IH dims row Hlen); [| simpl in Hcount; lia | exact Hdims'].
      simpl. lia.
Qed.

Lemma put_false_length (idxs : list Z) (mask : list bool) :
  length (put_false mask idxs) = length mask.
Proof.
  revert mask. induction idxs as [|i idxs IH]; intros mask; [reflexivity|].
  simpl. unfold put_false in IH. rewrite IH, length_insert. reflexivity.
Qed.

Lemma index_put_false_in_range (idxs : list Z) (mask : list bool) :
  Forall (λ i, 0 ≤ i < Z.of_nat (length mask)) idxs →
  index_put_false mask idxs = Ok (put_false mask idxs).
Proof.
  unfold index_put_false, put_false.
  generalize (length mask) at 1 2 as len. intros len.
  revert mask. induction idxs as [|i idxs IH]; intros mask Hidx; [reflexivity|].
  inversion Hidx as [|? ? Hi Hrest]; subst. simpl.
  rewrite (norm_index_in_range len i Hi). cbn. apply IH. exact Hrest.
Qed.

Lemma categorical_count_insert (mask : list bool) (k : nat) :
  mask !! k = Some true →
  categorical_count (<[k := false]> mask) = Datatypes.S (categorical_count mask).
Proof.
  revert k. induction mask as [|b mask IH]; intros k Hk; [discriminate|].
  destruct k as [|k]; simpl in *.
  - injection Hk as ->. reflexivity.
  - rewrite (IH k Hk). lia.
Qed.

Lemma put_false_count (idxs : list Z) (mask : list bool) :
  NoDup idxs →
  Forall (λ i, 0 ≤ i ∧ mask !! Z.to_nat i = Some true) idxs →
  categorical_count (put_false mask idxs)
    = (categorical_count mask + length idxs)%nat.
Proof.
  revert mask. induction idxs as [|i idxs IH]; intros mask Hnodup Hidx.
  - simpl. lia.
  - inversion Hnodup as [|? ? Hnotin Hnodup']; subst.
    inversion Hidx as [|? ? [Hi Htrue] Hrest]; subst.
    change (put_false mask (i :: idxs))
      with (put_false (<[Z.to_nat i := false]> mask) idxs).
    rewrite IH; [| exact Hnodup' |].
    + rewrite (categorical_count_insert _ _ Htrue). simpl. lia.
    + apply Forall_forall. intros j Hj.
      rewrite Forall_forall in Hrest. destruct (Hrest j Hj) as [Hj0 Hjtrue].
      split; [exact Hj0|]. rewrite list_lookup_insert_ne; [exact Hjtrue|].
      intros Heq. apply Hnotin. assert (i = j) by lia. subst. exact Hj.
Qed.

Lemma slice_bound_in_range (len : nat) (k : nat) :
  (k ≤ len)%nat → slice_bound len (Z.of_nat k) = k.
Proof.
  intros Hk. unfold slice_bound.
  destruct (Z.ltb_spec (Z.of_nat k) 0); [lia|]. lia.
Qed.

Lemma fill_slice_spec (row : list Q) (a d : nat) (v : Q) :
  (a + d ≤ length row)%nat →
  fill_slice (length row) (Z.of_nat a) (Z.of_nat a + Z.of_nat d) v row
    = take a row ++ replicate d v ++ drop (a + d) row.
Proof.
  intros Hfit. unfold fill_slice.
  rewrite slice_bound_in_range by lia.
  replace (Z.of_nat a + Z.of_nat d) with (Z.of_nat (a + d)) by lia.
  rewrite slice_bound_in_range by lia.
  apply list_eq. intros k. rewrite list_lookup_imap.
  destruct (decide (k < a)%nat) as [Hlt|Hge].
  - rewrite lookup_app_l by (rewrite length_take; lia).
    rewrite lookup_take_lt by lia.
    destruct (row !! k) as [old|]; [|reflexivity]. cbn.
    rewrite bool_decide_eq_false_2 by lia. reflexivity.
  - rewrite lookup_app_r by (rewrite length_take; lia).
    rewrite length_take, Nat.min_l by lia.
    destruct (decide (k < a + d)%nat) as [Hin|Hout].
    + rewrite lookup_app_l by (rewrite length_replicate; lia).
      rewrite lookup_replicate_2 by lia.
      destruct (lookup_lt_is_Some_2 row k) as [old ->]; [lia|]. cbn.
      rewrite bool_decide_eq_true_2 by lia. reflexivity.
    + rewrite lookup_app_r by (rewrite length_replicate; lia).
      rewrite length_replicate, lookup_drop.
      replace (a + d + (k - a - d))%nat with k by lia.
      destruct (row !! k) as [old|]; [|reflexivity]. cbn.
      rewrite bool_decide_eq_false_2 by lia. reflexivity.
Qed.

Lemma categorical_count_take (mask : list bool) (i : nat) :
  (categorical_count (take i mask) ≤ categorical_count mask)%nat.
Proof.
  rewrite <- (take_drop i mask) at 2. rewrite categorical_count_app. lia.
Qed.

Section GroupRow.
Variables (gm : tensor2) (mask : list bool) (dims : list Z).
Variables (g : nat) (grow : list Q) (P n : nat).
Hypothesis Hrow : data gm !! g = Some grow.
Hypothesis Hshape : shape1 gm = n.
Hypothesis Hgrow : length grow = n.
Hypothesis Hmask : length mask = n.
Hypothesis Hcount : (categorical_count mask ≤ length dims)%nat.
Hypothesis Hdims : Forall (λ d, 0 ≤ d) dims.
Hypothesis HP : length (expanded_row mask dims grow) = P.

Lemma prefix_row_fits (i : nat) :
  (i ≤ n)%nat → (length (prefix_row mask dims grow i) ≤ P)%nat.
Proof using All.
  intros Hi. rewrite <- HP.
  pose proof (expanded_row_app (take i mask) (drop i mask) dims
                (take i grow) (drop i grow)) as Happ.
  rewrite !take_drop in Happ. rewrite Happ.
  - rewrite length_app. unfold prefix_row. lia.
  - rewrite !length_take. lia.
  - pose proof (categorical_count_take mask i). lia.
Qed.

Lemma prefix_row_step (i : nat) (b : bool) (w : Q) :
  mask !! i = Some b → grow !! i = Some w →
  prefix_row mask dims grow (Datatypes.S i)
    = prefix_row mask dims grow i ++ piece dims b w (categorical_count (take i mask)).
Proof using All.
  intros Hb Hw. unfold prefix_row.
  rewrite (take_S_r _ _ _ Hb), (take_S_r _ _ _ Hw).
  pose proof (lookup_lt_Some _ _ _ Hb) as Hi.
  rewrite expanded_row_app.
  - f_equal. unfold piece. simpl. destruct b; [reflexivity|].
    replace (dims !! categorical_count (take i mask))
      with (drop (categorical_count (take i mask)) dims !! 0%nat)
      by (rewrite lookup_drop; f_equal; lia).
    destruct (drop _ dims) as [|d ds]; [reflexivity|].
    simpl. apply app_nil_r.
  - rewrite !length_take. lia.
  - pose proof (categorical_count_take mask i). lia.
Qed.

Lemma tensor_get_row (i : nat) (w : Q) :
  grow !! i = Some w →
  tensor_get gm (Z.of_nat g) (Z.of_nat i) = Ok w.
Proof using All.
  intros Hw. unfold tensor_get.
  pose proof (lookup_lt_Some _ _ _ Hrow) as Hg.
  pose proof (lookup_lt_Some _ _ _ Hw) as Hi.
  rewrite norm_index_in_range by lia. cbn.
  rewrite norm_index_in_range by lia. cbn.
  rewrite !Nat2Z.id, Hrow. cbn. rewrite Hw. reflexivity.
Qed.

Lemma feature_step_invariant (m0 : tensor2) (i : nat) (st : loop_state) :
  (i < n)%nat → row_invariant gm mask dims g grow P m0 i st →
  ∃ st', feature_step gm mask dims (Z.of_nat g) (Z.of_nat i) st = Ok st'
         ∧ row_invariant gm mask dims g grow P m0 (Datatypes.S i) st'.
Proof using All.
  intros Hi (Hpost & Hcounter & Hshape1 & Hrows & Hother & row & Hg & Hlen & Hprefix).
  destruct (lookup_lt_is_Some_2 mask i) as [b Hb]; [lia|].
  destruct (lookup_lt_is_Some_2 grow i) as [w Hw]; [lia|].
  pose proof (prefix_row_step i b w Hb Hw) as Hstep.
  pose proof (prefix_row_fits (Datatypes.S i)) as Hfit. specialize (Hfit ltac:(lia)).
  pose proof (lookup_lt_Some _ _ _ Hg) as Hgrange.
  unfold feature_step. rewrite (py_getitem_lookup _ _ _ Hb). cbn.
  destruct b.
  - (* a continuous column *)
    rewrite (tensor_get_row i w Hw). cbn.
    rewrite Hstep, length_app in Hfit. simpl in Hfit.
    unfold tensor_set. rewrite norm_index_in_range by lia. cbn.
    rewrite Hpost, Hshape1. rewrite norm_index_in_range by lia. cbn.
    eexists. split; [reflexivity|].
    unfold row_invariant. cbn. rewrite Hstep, length_app. simpl.
    rewrite !Nat2Z.id.
    split; [lia|]. split.
    { rewrite (take_S_r _ _ _ Hb), categorical_count_app. simpl.
      rewrite Hcounter. f_equal. lia. }
    split; [first [reflexivity | exact Hshape1]|]. split; [rewrite length_alter; exact Hrows|].
    split.
    { intros r Hr. rewrite list_lookup_alter_ne by congruence. apply Hother, Hr. }
    exists (<[length (prefix_row mask dims grow i) := w]> row).
    split; [rewrite list_lookup_alter_eq, Hg; reflexivity|].
    split; [rewrite length_insert; exact Hlen|].
    rewrite insert_take_drop by lia.
    rewrite take_app_ge by (rewrite length_take; lia).
    rewrite length_take, Nat.min_l by lia.
    replace (length (prefix_row mask dims grow i) + 1 - length (prefix_row mask dims grow i))%nat with 1%nat by lia.
    rewrite Hprefix. reflexivity.
  - (* a categorical column *)
    assert (Hc : (categorical_count (take i mask) < length dims)%nat).
    { pose proof (categorical_count_take mask (Datatypes.S i)) as Hle.
      rewrite (take_S_r _ _ _ Hb), categorical_count_app in Hle. simpl in Hle. lia. }
    destruct (lookup_lt_is_Some_2 dims _ Hc) as [d Hd].
    assert (Hd0 : 0 ≤ d).
    { rewrite Forall_forall in Hdims. apply Hdims.
      apply list_elem_of_lookup. eauto. }
    rewrite Hcounter, (py_getitem_lookup _ _ _ Hd). cbn.
    rewrite (tensor_get_row i w Hw). cbn.
    unfold piece in Hstep. rewrite Hd in Hstep.
    rewrite Hstep, length_app, length_replicate in Hfit.
    unfold tensor_set_slice. rewrite norm_index_in_range by lia. cbn.
    eexists. split; [reflexivity|].
    unfold row_invariant. cbn. rewrite Hstep, length_app, length_replicate.
    rewrite !Nat2Z.id.
    split; [lia|]. split.
    { rewrite (take_S_r _ _ _ Hb), categorical_count_app. simpl. lia. }
    split; [first [reflexivity | exact Hshape1]|]. split; [rewrite length_alter; exact Hrows|].
    split.
    { intros r Hr. rewrite list_lookup_alter_ne by congruence. apply Hother, Hr. }
    eexists. split; [rewrite list_lookup_alter_eq, Hg; reflexivity|].
    rewrite Hshape1, <- Hlen, Hpost.
    assert (Hfill :
      fill_slice (length row) (Z.of_nat (length (prefix_row mask dims grow i)))
        (Z.of_nat (length (prefix_row mask dims grow i)) + d) (w / inject_Z d)%Q row
      = take (length (prefix_row mask dims grow i)) row
          ++ replicate (Z.to_nat d) (w / inject_Z d)%Q
          ++ drop (length (prefix_row mask dims grow i) + Z.to_nat d) row).
    { rewrite <- (Z2Nat.id d) at 1 by lia. apply fill_slice_spec. lia. }
    rewrite Hfill.
    split.
    { rewrite !length_app, length_take, length_replicate, length_drop. lia. }
    rewrite app_assoc.
    rewrite take_app_le by (rewrite length_app, length_take, length_replicate; lia).
    rewrite take_ge by (rewrite length_app, length_take, length_replicate; lia).
    rewrite Hprefix. reflexivity.
Qed.

Lemma feature_loop_invariant (m0 : tensor2) (k i : nat) (st : loop_state) :
  (i + k = n)%nat → row_invariant gm mask dims g grow P m0 i st →
  ∃ st', for_range (feature_step gm mask dims (Z.of_nat g)) (Z.of_nat i) k st
           = Ok st'
         ∧ row_invariant gm mask dims g grow P m0 n st'.
Proof using All.
  revert i st. induction k as [|k IH]; intros i st Hik Hinv.
  - exists st. split; [reflexivity|]. replace n with i by lia. exact Hinv.
  - destruct (feature_step_invariant m0 i st) as (st1 & Hstep & Hinv1);
      [lia | exact Hinv |].
    simpl. rewrite Hstep. cbn.
    replace (Z.of_nat i + 1) with (Z.of_nat (Datatypes.S i)) by lia.
    apply IH; [lia | exact Hinv1].
Qed.
End GroupRow.

Lemma put_false_lookup (idxs : list Z) (mask : list bool) (k : nat) :
  Forall (λ i, 0 ≤ i) idxs →
  put_false mask idxs !! k
    = if decide (Z.of_nat k ∈ idxs) then (λ _, false) <$> mask !! k
      else mask !! k.
Proof.
  revert mask. induction idxs as [|i idxs IH]; intros mask Hidx.
  - simpl. destruct (decide (Z.of_nat k ∈ [])) as [Hin|_]; [|reflexivity].
    inversion Hin.
  - inversion Hidx as [|? ? Hi Hrest]; subst.
    change (put_false mask (i :: idxs))
      with (put_false (<[Z.to_nat i := false]> mask) idxs).
    rewrite (IH _ Hrest), list_lookup_insert.
    destruct (decide (Z.of_nat k ∈ idxs)) as [Hin|Hnotin];
      destruct (decide (Z.of_nat k ∈ i :: idxs)) as [Hin'|Hnotin'];
      destruct (decide (Z.to_nat i = k ∧ (Z.to_nat i < length mask)%nat))
        as [[Hik Hk]|Hne];
      try reflexivity;
      try (exfalso; apply Hnotin'; apply elem_of_cons; right; exact Hin);
      try (exfalso; apply Hnotin'; apply elem_of_cons; left; lia).
    + rewrite Hik in Hk.
      destruct (lookup_lt_is_Some_2 mask k Hk) as [b ->]. reflexivity.
    + rewrite Hik in Hk.
      destruct (lookup_lt_is_Some_2 mask k Hk) as [b ->]. reflexivity.
    + apply elem_of_cons in Hin' as [Heq|Hin']; [|contradiction].
      destruct (mask !! k) as [b|] eqn:Hb; [|reflexivity].
      exfalso. apply Hne. pose proof (lookup_lt_Some _ _ _ Hb). lia.
Qed.

Lemma row_total_app (r1 r2 : list Q) :
  (row_total (r1 ++ r2) == row_total r1 + row_total r2)%Q.
Proof.
  induction r1 as [|w r1 IH]; simpl.
  - rewrite Qplus_0_l. reflexivity.
  - unfold row_total in *. simpl. rewrite IH. apply Qplus_assoc.
Qed.

Lemma row_total_replicate (k : nat) (v : Q) :
  (row_total (replicate k v) == inject_Z (Z.of_nat k) * v)%Q.
Proof.
  induction k as [|k IH].
  - simpl. unfold row_total. simpl. rewrite Qmult_0_l. reflexivity.
  - rewrite Nat2Z.inj_succ. unfold Z.succ. rewrite inject_Z_plus.
    unfold row_total in *. simpl. rewrite IH.
    rewrite Qmult_plus_distr_l, Qmult_1_l. apply Qplus_comm.
Qed.

Lemma expanded_row_total (mask : list bool) (dims : list Z) (row : list Q) :
  length mask = length row →
  (categorical_count mask ≤ length dims)%nat →
  Forall (λ d, 0 < d) dims →
  (row_total (expanded_row mask dims row) == row_total row)%Q.
Proof.
  revert dims row. induction mask as [|b mask IH]; intros dims row Hlen Hcount Hdims.
  - destruct row; [|discriminate]. reflexivity.
  - destruct row as [|w row]; [discriminate|]. injection Hlen as Hlen.
    simpl in Hcount. destruct b; simpl.
    + unfold row_total in *. simpl.
      rewrite (IH dims row Hlen); [reflexivity | lia | exact Hdims].
    + destruct dims as [|d dims]; [simpl in Hcount; lia|].
      inversion Hdims as [|? ? Hd Hdims']; subst.
      rewrite row_total_app, row_total_replicate.
      rewrite (IH dims row Hlen); [| simpl in Hcount; lia | exact Hdims'].
      rewrite Z2Nat.id by lia.
      rewrite Qmult_div_r.
      * unfold row_total. simpl. reflexivity.
      * intros Hzero. unfold Qeq in Hzero. simpl in Hzero. lia.
Qed.

Lemma categorical_count_le_length (mask : list bool) :
  (categorical_count mask ≤ length mask)%nat.
Proof. induction mask as [|[] mask IH]; simpl; lia. Qed.

Lemma foldr_add_nonneg (dims : list Z) :
  Forall (λ d, 0 ≤ d) dims → 0 ≤ foldr Z.add 0 dims.
Proof. induction 1; simpl; lia. Qed.

Section Rebuild.
Variables (gm : tensor2) (mask : list bool) (dims : list Z) (P n : nat).
Hypothesis Hshape : shape1 gm = n.
Hypothesis Hrows : Forall (λ row, length row = n) (data gm).
Hypothesis Hmask : length mask = n.
Hypothesis Hcount : categorical_count mask = length dims.
Hypothesis Hdims : Forall (λ d, 0 ≤ d) dims.
Hypothesis HP :
  Z.of_nat P = Z.of_nat n + foldr Z.add 0 dims - Z.of_nat (length dims).

Lemma expanded_row_width (grow : list Q) :
  length grow = n → length (expanded_row mask dims grow) = P.
Proof using All.
  intros Hgrow. apply Nat2Z.inj.
  rewrite expanded_row_length; [| lia | lia | exact Hdims].
  rewrite Hcount, take_ge by lia. lia.
Qed.

Lemma group_step_invariant (g : nat) (m : tensor2) :
  (g < length (data gm))%nat → group_invariant gm mask dims P g m →
  ∃ m', group_step gm mask dims (Z.of_nat n) (Z.of_nat g) m = Ok m'
        ∧ group_invariant gm mask dims P (Datatypes.S g) m'.
Proof using All.
  intros Hg (Hshape1 & Hlen & Hwidth & Hdone).
  destruct (lookup_lt_is_Some_2 (data gm) g Hg) as [grow Hgrow].
  destruct (lookup_lt_is_Some_2 (data m) g) as [row Hrow]; [lia|].
  assert (Hgrow_len : length grow = n).
  { rewrite Forall_forall in Hrows. apply Hrows.
    apply list_elem_of_lookup. eauto. }
  assert (Hrow_len : length row = P).
  { rewrite Forall_forall in Hwidth. apply Hwidth.
    apply list_elem_of_lookup. eauto. }
  pose proof (expanded_row_width grow Hgrow_len) as Hexp.
  destruct (feature_loop_invariant gm mask dims g grow P n Hgrow Hshape
              Hgrow_len Hmask ltac:(lia) Hdims Hexp m n 0
              {| matrix := m; post_emb_idx := 0; cat_feat_counter := 0 |})
    as (st & Hloop & Hpost & Hcounter & Hshape' & Hlen' & Hother & row' & Hrow' & Hrow'_len & Hprefix).
  { lia. }
  { unfold row_invariant, prefix_row. cbn.
    split; [reflexivity|]. split; [reflexivity|]. split; [exact Hshape1|].
    split; [exact Hlen|]. split; [reflexivity|].
    exists row. split; [exact Hrow|]. split; [exact Hrow_len|]. reflexivity. }
  unfold group_step. rewrite Nat2Z.id.
  change (Z.of_nat 0) with 0 in Hloop. rewrite Hloop. cbn.
  eexists. split; [reflexivity|].
  assert (Hfull : prefix_row mask dims grow n = expanded_row mask dims grow).
  { unfold prefix_row. rewrite !take_ge by lia. reflexivity. }
  rewrite Hfull, Hexp, take_ge in Hprefix by lia.
  split; [exact Hshape'|]. split; [rewrite Hlen'; reflexivity|]. split.
  - apply Forall_lookup. intros r row0 Hr0.
    destruct (decide (r = g)) as [->|Hne].
    + rewrite Hrow' in Hr0. injection Hr0 as <-. exact Hrow'_len.
    + rewrite (Hother r Hne) in Hr0.
      rewrite Forall_forall in Hwidth. apply Hwidth.
      apply list_elem_of_lookup. eauto.
  - intros r Hr. destruct (decide (r = g)) as [->|Hne].
    + rewrite Hrow', Hgrow, Hprefix. reflexivity.
    + rewrite (Hother r Hne). apply Hdone. lia.
Qed.

Lemma group_loop_invariant (k g : nat) (m : tensor2) :
  (g + k = length (data gm))%nat → group_invariant gm mask dims P g m →
  ∃ m', for_range (group_step gm mask dims (Z.of_nat n)) (Z.of_nat g) k m = Ok m'
        ∧ group_invariant gm mask dims P (length (data gm)) m'.
Proof using All.
  revert g m. induction k as [|k IH]; intros g m Hgk Hinv.
  - exists m. split; [reflexivity|]. replace (length (data gm)) with g by lia.
    exact Hinv.
  - destruct (group_step_invariant g m) as (m1 & Hstep & Hinv1);
      [lia | exact Hinv |].
    simpl. rewrite Hstep. cbn.
    replace (Z.of_nat g + 1) with (Z.of_nat (Datatypes.S g)) by lia.
    apply IH; [lia | exact Hinv1].
Qed.

Lemma group_invariant_final (m : tensor2) :
  group_invariant gm mask dims P (length (data gm)) m →
  m = {| shape1 := P; data := expanded_row mask dims <$> data gm |}.
Proof using All.
  intros (Hshape1 & Hlen & _ & Hdone).
  destruct m as [s d]. cbn in *. f_equal; [exact Hshape1|].
  apply list_eq. intros r. rewrite list_lookup_fmap.
  destruct (decide (r < length (data gm))%nat) as [Hr|Hr].
  - apply Hdone, Hr.
  - rewrite !lookup_ge_None_2; [reflexivity | lia | lia].
Qed.
End Rebuild.

(** What the constructor computes in a module where [np] is bound to
    numpy, for categorical indices that are distinct and in range, one
    positive embedding width per categorical column and a grouping matrix
    over [input_dim] columns: the post-embedding dimension is
    [input_dim + sum(cat_emb_dims) - len(cat_idxs)]; each row of the
    rebuilt matrix keeps the weight of a continuous column in one output
    column and puts [w / d] in each of the [d] output columns of a
    categorical column of width [d]; and the total weight of every row is
    preserved. *)
Theorem init_with_numpy_rebuilds_group_matrix
    (uninitialised : nat → nat → Q) (embedding_init : nat → Z → Z → nat → list Q)
    (input_dim : Z) (cat_dims cat_idxs cat_emb_dims : list Z) (gm : tensor2) :
  ¬ (cat_dims = [] ∧ cat_idxs = []) →
  0 ≤ input_dim →
  Forall (λ i, 0 ≤ i < input_dim) cat_idxs →
  NoDup cat_idxs →
  length cat_emb_dims = length cat_idxs →
  Forall (λ d, 0 < d) cat_emb_dims →
  shape1 gm = Z.to_nat input_dim →
  Forall (λ row, length row = Z.to_nat input_dim) (data gm) →
  ∃ self,
    init uninitialised embedding_init (Some numpy_module) input_dim
      cat_dims cat_idxs cat_emb_dims gm = Ok self
    ∧ skip_embedding self = false
    ∧ post_embed_dim self
        = input_dim + foldr Z.add 0 cat_emb_dims - Z.of_nat (length cat_idxs)
    ∧ length (continuous_idx self) = Z.to_nat input_dim
    ∧ (∀ k, (k < Z.to_nat input_dim)%nat →
         continuous_idx self !! k = Some (bool_decide (Z.of_nat k ∉ cat_idxs)))
    ∧ embedding_group_matrix self
        = {| shape1 := Z.to_nat (post_embed_dim self);
             data := expanded_row (continuous_idx self) cat_emb_dims <$> data gm |}
    ∧ Forall2 (λ row row', (row_total row' == row_total row)%Q)
        (data gm) (data (embedding_group_matrix self)).
Proof.
  intros Hcat Hdim Hidx Hnodup Hlen Hpos Hshape Hrows.
  set (n := Z.to_nat input_dim) in *.
  set (mask := put_false (replicate n true) cat_idxs).
  set (post := input_dim + foldr Z.add 0 cat_emb_dims - Z.of_nat (length cat_emb_dims)).
  assert (Hnonneg : Forall (λ d, 0 ≤ d) cat_emb_dims).
  { eapply Forall_impl; [exact Hpos|]. intros d Hd. simpl in Hd. lia. }
  assert (Hmask_len : length mask = n).
  { unfold mask. rewrite put_false_length, length_replicate. reflexivity. }
  assert (Hmask_count : categorical_count mask = length cat_emb_dims).
  { unfold mask. rewrite put_false_count; [| exact Hnodup |].
    - assert (Hall : categorical_count (replicate n true) = 0%nat).
      { clear. induction n as [|k IH]; [reflexivity | exact IH]. }
      rewrite Hall. lia.
    - eapply Forall_impl; [exact Hidx|]. intros i Hi. simpl in Hi.
      split; [lia|]. apply lookup_replicate_2. lia. }
  assert (Hpost : 0 ≤ post).
  { pose proof (categorical_count_le_length mask) as Hle.
    pose proof (foldr_add_nonneg _ Hnonneg). unfold post. lia. }
  assert (HP : Z.of_nat (Z.to_nat post)
               = Z.of_nat n + foldr Z.add 0 cat_emb_dims
                 - Z.of_nat (length cat_emb_dims)).
  { unfold post in *. lia. }
  assert (Hput : index_put_false (replicate n true) cat_idxs = Ok mask).
  { apply index_put_false_in_range.
    eapply Forall_impl; [exact Hidx|]. intros i Hi. simpl in Hi.
    rewrite length_replicate. lia. }
  destruct (group_loop_invariant gm mask cat_emb_dims (Z.to_nat post) n
              Hshape Hrows Hmask_len Hmask_count Hnonneg HP
              (length (data gm)) 0
              {| shape1 := Z.to_nat post;
                 data := (λ i, uninitialised i <$> seq 0 (Z.to_nat post))
                           <$> seq 0 (length (data gm)) |})
    as (m & Hloop & Hfinal).
  { lia. }
  { unfold group_invariant. cbn.
    split; [reflexivity|]. split; [rewrite length_fmap, length_seq; reflexivity|].
    split; [|intros r Hr; lia].
    apply Forall_fmap, Forall_forall. intros i _. cbn.
    rewrite length_fmap, length_seq. reflexivity. }
  apply (group_invariant_final gm mask cat_emb_dims (Z.to_nat post) n
           Hshape Hrows Hmask_len Hmask_count Hnonneg HP) in Hfinal.
  eexists. split.
  - unfold init. rewrite bool_decide_eq_false_2 by exact Hcat. cbn.
    unfold torch_ones. destruct (Z.ltb_spec input_dim 0); [lia|]. cbn.
    fold n. rewrite Hput. cbn.
    unfold torch_empty. fold post. destruct (Z.ltb_spec post 0); [lia|]. cbn.
    change (Z.of_nat 0) with 0 in Hloop.
    replace input_dim with (Z.of_nat n) at 1 by (unfold n; lia).
    rewrite Hloop. cbn. reflexivity.
  - cbn. split; [reflexivity|]. split; [unfold post; lia|].
    split; [exact Hmask_len|]. split; [|split].
    + intros k Hk. unfold mask. rewrite put_false_lookup.
      * rewrite lookup_replicate_2 by exact Hk.
        destruct (decide (Z.of_nat k ∈ cat_idxs)) as [Hin|Hnotin]; cbn.
        -- rewrite bool_decide_eq_false_2; [reflexivity|]. intros Hc. exact (Hc Hin).
        -- rewrite bool_decide_eq_true_2; [reflexivity | exact Hnotin].
      * eapply Forall_impl; [exact Hidx|]. intros i Hi. simpl in Hi. lia.
    + exact Hfinal.
    + rewrite Hfinal. cbn. apply Forall2_fmap_r, Forall_Forall2_diag.
      rewrite Forall_forall in Hrows. apply Forall_forall. intros row Hrow.
      apply expanded_row_total; [| lia | exact Hpos].
      rewrite Hmask_len. symmetry. apply Hrows, Hrow.
Qed.
End RebuildFacts.

(** The example of the specification, run with [np] bound: the weight 2
    of the categorical column becomes 2/3 in three output columns. *)
Example init_with_numpy_example :
  Tabular.init TabularExamples.zero_memory TabularExamples.ones_init
    (Some Tabular.numpy_module) 3 [5] [1] [3] TabularExamples.group_matrix
  = Ok TabularExamples.categorical_generator.
Proof. reflexivity. Qed.

Lemma init_with_numpy_rebuilds_group_matrix_witness :
  ∃ self,
    Tabular.init TabularExamples.zero_memory TabularExamples.ones_init
      (Some Tabular.numpy_module) 3 [5] [1] [3] TabularExamples.group_matrix
      = Ok self
    ∧ Tabular.post_embed_dim self = 5.
Proof.
  destruct (init_with_numpy_rebuilds_group_matrix
              TabularExamples.zero_memory TabularExamples.ones_init
              3 [5] [1] [3] TabularExamples.group_matrix)
    as (self & Hinit & _ & Hpost & _).
  - intros [Hdims _]. discriminate Hdims.
  - lia.
  - repeat constructor; lia.
  - repeat constructor. intros Hin. inversion Hin.
  - reflexivity.
  - repeat constructor.
  - reflexivity.
  - repeat constructor.
  - exists self. split; [exact Hinit | exact Hpost].
Defined.

(** C7. Built with empty categorical metadata, whatever the grouping
    matrix, the input dimension, the embedding widths and the binding of the
    global [np], the generator is a pass-through: its forward pass returns
    every input unchanged and its embedding group matrix is the supplied
    matrix. *)
Theorem init_without_categories_is_identity
    (uninitialised : nat → nat → Q) (embedding_init : nat → Z → Z → nat → list Q)
    (np : option Tabular.numpy) (input_dim : Z) (cat_emb_dims : list Z)
    (group_matrix : Tabular.tensor2) :
  ∃ self,
    Tabular.init uninitialised embedding_init np input_dim [] [] cat_emb_dims
      group_matrix = Ok self
    ∧ Tabular.skip_embedding self = true
    ∧ Tabular.post_embed_dim self = input_dim
    ∧ Tabular.embedding_group_matrix self = group_matrix
    ∧ ∀ x, Tabular.forward self x = Ok x.
Proof.
  eexists. split; [reflexivity|]. repeat split.
Qed.

(** C3, at the input of the specification's own example: one categorical
    column of cardinality 5 and embedding width 3 among three raw columns.
    The construction evaluates [np.sum] in a module that binds no [np], and
    raises [NameError] before any dimension or matrix is computed. *)
Theorem init_with_a_category_raises_NameError
    (uninitialised : nat → nat → Q) (embedding_init : nat → Z → Z → nat → list Q) :
  Tabular.init uninitialised embedding_init Tabular.blocks_np 3 [5] [1] [3]
    TabularExamples.group_matrix
  = Raise (NameError "np").
Proof. reflexivity. Qed.

(** C8, as stated, fails: a generator built for three raw columns without
    categorical columns returns an input of two columns unchanged. *)
Lemma forward_accepts_wrong_column_count :
  ∃ self,
    Tabular.init TabularExamples.zero_memory TabularExamples.ones_init
      Tabular.blocks_np 3 [] [] [] TabularExamples.group_matrix = Ok self
    ∧ Z.of_nat (Tabular.shape1 TabularExamples.input2) ≠ 3
    ∧ Tabular.forward self TabularExamples.input2 = Ok TabularExamples.input2
    ∧ ¬ is_Raise (Tabular.forward self TabularExamples.input2).
Proof.
  eexists. split; [reflexivity|]. split; [simpl; lia|]. split; [reflexivity|].
  intros [e He]. discriminate He.
Qed.

(** In embedding mode too, an input with more columns than the generator
    was built for is accepted: the fourth column is ignored. *)
Example forward_ignores_a_fourth_column :
  Tabular.forward TabularExamples.categorical_generator TabularExamples.input4
    = Ok (Tabular.mkTensor2 5 [[7; 1; 1; 1; 9]]%Q)
  ∧ Tabular.forward TabularExamples.categorical_generator TabularExamples.input3
    = Ok (Tabular.mkTensor2 5 [[7; 1; 1; 1; 9]]%Q).
Proof. split; reflexivity. Qed.

(** C8, amended. The forward pass makes no check of the column count. A
    pass-through generator returns every input unchanged. A generator in
    embedding mode over [n] raw columns raises on every input with fewer
    than [n] columns, and on an input with [n] columns or more it reads the
    first [n] columns only: it does what it does on the input cut to its
    first [n] columns. *)
Theorem forward_column_count (self : Tabular.TabularDataEmbeddingGenerator)
    (x : Tabular.tensor2) :
  let n := length (Tabular.continuous_idx self) in
  (Tabular.skip_embedding self = true → Tabular.forward self x = Ok x)
  ∧ (Tabular.skip_embedding self = false → (Tabular.shape1 x < n)%nat →
       is_Raise (Tabular.forward self x))
  ∧ (Tabular.skip_embedding self = false → (n ≤ Tabular.shape1 x)%nat →
       Tabular.forward self x
         = Tabular.forward self (Tabular.first_columns n x)).
Proof.
  intros n. unfold Tabular.forward. split; [|split].
  - intros ->. reflexivity.
  - intros -> Hfew.
    destruct (for_enumerate_too_few_columns self x
                (Tabular.continuous_idx self) 0 ([], 0)) as [e ->];
      [lia | fold n; lia |].
    eexists. reflexivity.
  - intros -> Hmany.
    rewrite (for_enumerate_first_columns self x n); [reflexivity | lia | | exact Hmany].
    fold n. lia.
Qed.

Lemma forward_column_count_witness :
  is_Raise (Tabular.forward TabularExamples.categorical_generator
              TabularExamples.input2)
  ∧ Tabular.forward TabularExamples.categorical_generator TabularExamples.input4
    = Tabular.forward TabularExamples.categorical_generator
        (Tabular.first_columns 3 TabularExamples.input4).
Proof.
  split.
  - apply (proj1 (proj2 (forward_column_count
                           TabularExamples.categorical_generator
                           TabularExamples.input2)));
      [reflexivity | simpl; lia].
  - apply (proj2 (proj2 (forward_column_count
                           TabularExamples.categorical_generator
                           TabularExamples.input4)));
      [reflexivity | simpl; lia].
Defined.

(** ** Further properties *)

(** *** Templates *)

Section TemplateMore.
Context {V : Type}.

Lemma dict_display2_empty_l (d : gmap string V) :
  Template.dict_display2 ∅ d = d.
Proof.
  apply map_eq. intros k. rewrite dict_display2_lookup, lookup_empty.
  destruct (d !! k); reflexivity.
Qed.

Lemma dict_display2_empty_r (d : gmap string V) :
  Template.dict_display2 d ∅ = d.
Proof.
  apply map_eq. intros k. rewrite dict_display2_lookup, lookup_empty.
  reflexivity.
Qed.
End TemplateMore.

(** X1. Templates nest: a template of the instantiator of a template
    captures on top of what that one captured. With both in override mode
    the wrapped callable gets the positional arguments in the order of
    capture, [a], [b], then the final [c], and of the three keyword sets the
    latest wins; with both in non-override mode it gets [c], [b], [a], and
    the earliest keyword set wins. *)
Theorem T_nested_capture {V R : Type}
    (f : list V → gmap string V → R) (a b c : list V)
    (ka kb kc : gmap string V) :
  (∃ kw : gmap string V,
      Template.inner_call
        (Template.T_call
           (Template.mkT
              (Template.inner_call (Template.T_call (Template.mkT f true) a ka))
              true) b kb) c kc
        = f (a ++ b ++ c) kw
      ∧ ∀ k, kw !! k = match kc !! k with
                       | Some v => Some v
                       | None => match kb !! k with
                                 | Some v => Some v
                                 | None => ka !! k
                                 end
                       end)
  ∧
  (∃ kw : gmap string V,
      Template.inner_call
        (Template.T_call
           (Template.mkT
              (Template.inner_call (Template.T_call (Template.mkT f false) a ka))
              false) b kb) c kc
        = f (c ++ b ++ a) kw
      ∧ ∀ k, kw !! k = match ka !! k with
                       | Some v => Some v
                       | None => match kb !! k with
                                 | Some v => Some v
                                 | None => kc !! k
                                 end
                       end).
Proof.
  split.
  - eexists. split; [reflexivity|]. intros k.
    rewrite !dict_display2_lookup.
    destruct (kc !! k), (kb !! k); reflexivity.
  - eexists. split.
    + cbn. rewrite <- app_assoc. reflexivity.
    + intros k. rewrite !dict_display2_lookup.
      destruct (ka !! k), (kb !! k); reflexivity.
Qed.

(** X2. A template that captured nothing is transparent, and so is an
    instantiation that adds nothing, in both modes: the wrapped callable
    gets exactly the arguments and keywords of the other call. *)
Theorem T_empty_capture {V R : Type}
    (f : list V → gmap string V → R) (override : bool)
    (a : list V) (ka : gmap string V) :
  Template.inner_call (Template.T_call (Template.mkT f override) [] ∅) a ka
    = f a ka
  ∧ Template.inner_call (Template.T_call (Template.mkT f override) a ka) [] ∅
    = f a ka.
Proof.
  destruct override; cbn;
    rewrite ?app_nil_r, ?dict_display2_empty_l, ?dict_display2_empty_r;
    split; reflexivity.
Qed.

(** X3. The instance dictionary of an instantiator: every captured keyword
    is an attribute, and [args] is the tuple of captured positional
    arguments unless a keyword named [args] was captured, which then
    replaces it. *)
Theorem T_call_attributes {V R : Type}
    (self : Template.T V R) (a : list V) (ka : gmap string V) (k : string) :
  Template.inner_dict (Template.T_call self a ka) !! k
    = match ka !! k with
      | Some v => Some (inr v)
      | None => if decide (k = "args"%string) then Some (inl a) else None
      end.
Proof.
  cbn. rewrite lookup_union, lookup_fmap.
  destruct (ka !! k) as [v|]; cbn.
  - match goal with |- Some _ ∪ ?o = _ => destruct o end; reflexivity.
  - destruct (decide (k = "args"%string)) as [->|Hne].
    + rewrite lookup_singleton_eq. reflexivity.
    + rewrite lookup_singleton_ne by congruence. reflexivity.
Qed.

(** *** Factories of chains *)

Section FactoryFacts.
Import Repetition.
Context {P : Type}.
Implicit Types (h : gmap loc (obj P)) (tp : template P).

(** Instantiating constructing templates yields new, pairwise distinct
    modules and leaves the existing objects as they were. *)
Lemma instantiate_all_constructs (types : list (template P)) :
  Forall constructs types →
  ∀ h ls h', instantiate_all types h = Ok (ls, h') →
    length ls = length types ∧ NoDup ls
    ∧ (∀ l, l ∈ ls → h !! l = None ∧ is_Some (h' !! l))
    ∧ (∀ l', is_Some (h !! l') → h' !! l' = h !! l').
Proof.
  induction 1 as [|tp types Htp _ IH]; intros h ls h' Hrun.
  - simpl in Hrun. injection Hrun as <- <-.
    split; [reflexivity|]. split; [constructor|].
    split; [intros l Hl; inversion Hl | reflexivity].
  - simpl in Hrun. unfold mbind, M_mbind, M_bind in Hrun.
    destruct (tp h) as [[l h1]|e] eqn:Hfirst; [|discriminate].
    destruct (instantiate_all types h1) as [[ls' h2]|e] eqn:Hrest;
      [|discriminate].
    unfold mret, M_mret, M_ret in Hrun. injection Hrun as <- <-.
    destruct (Htp _ _ _ Hfirst) as (Hnew & Hthere & Hkeep1).
    destruct (IH _ _ _ Hrest) as (Hlen & Hnodup & Hfresh & Hkeep2).
    split; [simpl; congruence|]. split; [|split].
    + constructor; [|exact Hnodup].
      intros Hin. destruct (Hfresh _ Hin) as [Hnone _].
      rewrite Hnone in Hthere. destruct Hthere as [? ?]. discriminate.
    + intros l0 Hin. apply elem_of_cons in Hin as [-> | Hin].
      * split; [exact Hnew|]. rewrite (Hkeep2 _ Hthere). exact Hthere.
      * destruct (Hfresh _ Hin) as [Hnone Hsome]. split; [|exact Hsome].
        destruct (h !! l0) as [o|] eqn:Hl0; [|reflexivity].
        assert (Hold : is_Some (h !! l0)) by (rewrite Hl0; eauto).
        rewrite (Hkeep1 l0 Hold), Hl0 in Hnone. discriminate.
    + intros l' Hl'. rewrite Hkeep2, Hkeep1; [reflexivity | exact Hl' |].
      rewrite Hkeep1; exact Hl'.
Qed.

(** What a call of the factory [Ts(Sequential)] does to the heap. *)
Lemma Ts_Sequential_run (types : list (template P)) h chain h' :
  Forall constructs types →
  Ts Sequential types h = Ok (chain, h') →
  ∃ ls h1,
    instantiate_all types h = Ok (ls, h1)
    ∧ h' = <[chain := SequentialModule ls]> h1
    ∧ h1 !! chain = None
    ∧ h !! chain = None
    ∧ (∀ l, l ∈ ls → h !! l = None ∧ is_Some (h1 !! l))
    ∧ (∀ l', is_Some (h !! l') → h' !! l' = h !! l').
Proof.
  intros Htypes Hrun. unfold Ts, mbind, M_mbind, M_bind in Hrun.
  destruct (instantiate_all types h) as [[ls h1]|e] eqn:Hall; [|discriminate].
  destruct (instantiate_all_constructs types Htypes _ _ _ Hall)
    as (_ & _ & Hfresh & Hkeep).
  unfold Sequential, alloc in Hrun. injection Hrun as <- <-.
  assert (Hchain : h1 !! fresh (dom h1) = None).
  { apply not_elem_of_dom. apply is_fresh. }
  assert (Hchain0 : h !! fresh (dom h1) = None).
  { destruct (h !! fresh (dom h1)) as [o|] eqn:Hold; [|reflexivity].
    assert (Hsome : is_Some (h !! fresh (dom h1))) by (rewrite Hold; eauto).
    rewrite <- (Hkeep _ Hsome), Hchain in Hold. discriminate. }
  exists ls, h1. split; [reflexivity|]. split; [reflexivity|].
  split; [exact Hchain|]. split; [exact Hchain0|]. split; [exact Hfresh|].
  intros l' Hl'. rewrite lookup_insert_ne; [apply Hkeep, Hl'|].
  intros Heq. rewrite <- Heq, Hchain0 in Hl'. destruct Hl' as [? ?]. discriminate.
Qed.
End FactoryFacts.

(** X4. The factory that [Ts(Sequential)] returns for constructing
    templates is itself a constructing template, so it can be repeated or
    nested in turn: each call returns a new chain and leaves the existing
    objects as they were; and two chains built by two calls share no
    block. *)
Theorem Ts_Sequential_constructs {P : Type}
    (types : list (Repetition.template P)) :
  Forall Repetition.constructs types →
  Repetition.constructs (Repetition.Ts Repetition.Sequential types)
  ∧ ∀ (h : gmap Repetition.loc (Repetition.obj P)) chain1 h1 chain2 h2 ls1 ls2,
      Repetition.Ts Repetition.Sequential types h = Ok (chain1, h1) →
      Repetition.Ts Repetition.Sequential types h1 = Ok (chain2, h2) →
      Repetition.chain_blocks h2 chain1 = Some ls1 →
      Repetition.chain_blocks h2 chain2 = Some ls2 →
      chain1 ≠ chain2 ∧ ∀ l, l ∈ ls1 → l ∉ ls2.
Proof.
  intros Htypes. split.
  - intros h chain h' Hrun.
    destruct (Ts_Sequential_run types h chain h' Htypes Hrun)
      as (ls & h1 & _ & -> & _ & Hnew & _ & Hkeep).
    split; [exact Hnew|]. split; [rewrite lookup_insert_eq; eauto | exact Hkeep].
  - intros h chain1 h1 chain2 h2 ls1 ls2 Hrun1 Hrun2 Hls1 Hls2.
    destruct (Ts_Sequential_run types h chain1 h1 Htypes Hrun1)
      as (ms1 & g1 & _ & Hh1 & Hc1 & _ & Hfresh1 & _).
    destruct (Ts_Sequential_run types h1 chain2 h2 Htypes Hrun2)
      as (ms2 & g2 & _ & Hh2 & Hc2 & Hc2' & Hfresh2 & Hkeep2).
    assert (Hchain1 : h1 !! chain1 = Some (Repetition.SequentialModule ms1)).
    { rewrite Hh1. apply lookup_insert_eq. }
    assert (Hne : chain1 ≠ chain2).
    { intros ->. rewrite Hc2' in Hchain1. discriminate. }
    split; [exact Hne|].
    unfold Repetition.chain_blocks in Hls1, Hls2.
    rewrite (Hkeep2 chain1), Hchain1 in Hls1 by (rewrite Hchain1; eauto).
    injection Hls1 as <-.
    rewrite Hh2, lookup_insert_eq in Hls2. injection Hls2 as <-.
    intros l Hl1 Hl2.
    destruct (Hfresh1 l Hl1) as [_ Hin1].
    destruct (Hfresh2 l Hl2) as [Hnone _].
    assert (Hl : is_Some (h1 !! l)).
    { rewrite Hh1. destruct (decide (chain1 = l)) as [->|Hcl].
      - rewrite lookup_insert_eq. eauto.
      - rewrite lookup_insert_ne by exact Hcl. exact Hin1. }
    rewrite Hnone in Hl. destruct Hl as [? ?]. discriminate.
Qed.

Lemma Ts_Sequential_constructs_witness :
  Repetition.constructs
    (Repetition.Ts Repetition.Sequential
       [Repetition.leaf_class 1; Repetition.leaf_class 2]).
Proof.
  apply (proj1 (Ts_Sequential_constructs (P := Z)
                  [Repetition.leaf_class 1; Repetition.leaf_class 2]
                  (Forall_cons_2 _ _ _ (leaf_class_constructs 1)
                     (Forall_cons_2 _ _ _ (leaf_class_constructs 2)
                        (Forall_nil_2 _))))).
Defined.

(** X5. [Repeat] with a count that is not positive builds a chain without
    blocks: from a built instance, a new empty chain; from a template, a
    factory that returns a new empty chain and never calls the template. *)
Theorem Repeat_nonpositive {P : Type}
    (times : Z) (h : gmap Repetition.loc (Repetition.obj P)) :
  times ≤ 0 →
  (∀ m : Repetition.loc,
     ∃ chain,
       Repetition.Repeat (Repetition.Instance m) times h
         = Ok (Repetition.Instance chain,
               <[chain := Repetition.SequentialModule []]> h)
       ∧ h !! chain = None)
  ∧ (∀ tp : Repetition.template P,
       ∃ factory,
         Repetition.Repeat (Repetition.Template tp) times h
           = Ok (Repetition.Template factory, h)
         ∧ ∀ h0, ∃ chain,
             factory h0
               = Ok (chain, <[chain := Repetition.SequentialModule []]> h0)
             ∧ h0 !! chain = None).
Proof.
  intros Htimes.
  assert (Hzero : Z.to_nat times = 0%nat) by lia.
  split.
  - intros m. exists (fresh (dom h)). split.
    + unfold Repetition.Repeat, Repetition.tuple_mul. rewrite Hzero. reflexivity.
    + apply not_elem_of_dom. apply is_fresh.
  - intros tp. eexists. split; [reflexivity|].
    intros h0. exists (fresh (dom h0)). split.
    + unfold Repetition.tuple_mul. rewrite Hzero. reflexivity.
    + apply not_elem_of_dom. apply is_fresh.
Qed.

Lemma Repeat_nonpositive_witness :
  ∃ chain,
    Repetition.Repeat (P := Z) (Repetition.Instance 5%positive) (-2) ∅
      = Ok (Repetition.Instance chain,
            <[chain := Repetition.SequentialModule []]> ∅).
Proof.
  destruct (proj1 (Repeat_nonpositive (P := Z) (-2) ∅ ltac:(lia)) 5%positive)
    as (chain & Hrun & _).
  exists chain. exact Hrun.
Defined.

(** *** Chains of chains, and exceptions *)

Section ChainFacts.
Import Combinators.
Context {S X A : Type}.
Implicit Types (children : list (block S X A)) (x : X) (aux : list A).

Lemma forward_loop_app children1 children2 x aux :
  forward_loop (children1 ++ children2) x aux
    ≃ (forward_loop children1 x aux ≫= λ y, forward_loop children2 y aux).
Proof.
  revert x. induction children1 as [|c rest IH]; intros x s.
  - simpl. unfold mbind, M_mbind, M_bind, mret, M_mret, M_ret. reflexivity.
  - simpl. unfold mbind, M_mbind, M_bind.
    destruct (c x aux s) as [[x' s']|e]; [|reflexivity].
    apply IH.
Qed.
End ChainFacts.

(** X6. A [Sequential] used as a child of another behaves as its blocks
    spliced in at that place: nesting chains does not change what is
    computed, and the auxiliary arguments reach the inner blocks
    unchanged. *)
Theorem Sequential_nested_is_spliced {S X A : Type}
    (before after : list (Combinators.block S X A))
    (inner : Combinators.Sequential S X A) (x : X) (aux : list A) :
  Combinators.Sequential_forward
    (Combinators.mkSequential (before ++ Nesting.as_block inner :: after)) x aux
  ≃ Combinators.Sequential_forward
      (Combinators.mkSequential (before ++ Combinators.blocks inner ++ after))
      x aux.
Proof.
  unfold Combinators.Sequential_forward. cbn [Combinators.blocks].
  eapply M_equiv_trans; [apply forward_loop_app|].
  intros s. symmetry.
  rewrite (forward_loop_app before (Combinators.blocks inner ++ after) x aux s).
  unfold mbind, M_mbind, M_bind.
  destruct (Combinators.forward_loop before x aux s) as [[y s1]|e];
    [|reflexivity].
  rewrite (forward_loop_app (Combinators.blocks inner) after y aux s1).
  cbn. unfold mbind, M_mbind, M_bind, Nesting.as_block,
    Combinators.Sequential_forward.
  reflexivity.
Qed.

(** X7. The first exception ends the forward pass: when the chain up to
    some child raises, every longer chain raises the same exception,
    whatever the later children are, and a [Skip] around it raises it too,
    whatever its merge function is. *)
Theorem Sequential_forward_raises {S X A : Type}
    (before after : list (Combinators.block S X A))
    (merge_fn : X → X → M S X) (x : X) (aux : list A) (s : S) (e : PyError) :
  Combinators.Sequential_forward (Combinators.mkSequential before) x aux s
    = Raise e →
  Combinators.Sequential_forward
    (Combinators.mkSequential (before ++ after)) x aux s = Raise e
  ∧ Combinators.Skip_forward merge_fn
      (Combinators.mkSequential (before ++ after)) x aux s = Raise e.
Proof.
  unfold Combinators.Skip_forward, Combinators.Sequential_forward.
  cbn [Combinators.blocks]. intros Hraise.
  assert (Hchain :
    Combinators.forward_loop (before ++ after) x aux s = Raise e).
  { rewrite (forward_loop_app before after x aux s).
    unfold mbind, M_mbind, M_bind. rewrite Hraise. reflexivity. }
  split; [exact Hchain|].
  unfold mbind, M_mbind, M_bind. rewrite Hchain. reflexivity.
Qed.

Lemma Sequential_forward_raises_witness :
  Combinators.Sequential_forward (S := unit) (A := unit)
    (Combinators.mkSequential
       ([λ (x : Z) _, lift (Raise IndexError)] ++ [λ x _, mret (x + 1)]))
    0 [] tt
  = Raise IndexError.
Proof.
  apply (proj1 (Sequential_forward_raises (S := unit) (A := unit) (X := Z)
                  [λ x _, lift (Raise IndexError)] [λ x _, mret (x + 1)]
                  (λ a b, mret (a + b)) 0 [] tt IndexError eq_refl)).
Defined.

(** *** Select *)

(** X8. Building a [Select] class builds the wrapped block once, and its
    forward pass calls the block on the selected positional arguments with
    the keywords untouched; an exception of the selection function is
    raised before the block is called. Selections nest: the outer function
    is applied first, the inner one to its result. *)
Theorem Select_composes {S V Kw R C : Type}
    (outer inner : list V → result (list V))
    (block_t : Selection.block_class S V Kw R C) (c : C) (s : S) :
  match block_t c s with
  | Ok (block, s') =>
      (∃ selected,
         Selection.Select inner block_t c s = Ok (selected, s')
         ∧ ∀ args kwargs,
             selected args kwargs
               ≃ (a ← lift (inner args); block a kwargs))
      ∧ (∃ selected,
           Selection.Select outer (Selection.Select inner block_t) c s
             = Ok (selected, s')
           ∧ ∀ args kwargs,
               selected args kwargs
                 ≃ (a1 ← lift (outer args); a2 ← lift (inner a1);
                    block a2 kwargs))
  | Raise e =>
      Selection.Select inner block_t c s = Raise e
      ∧ Selection.Select outer (Selection.Select inner block_t) c s = Raise e
  end.
Proof.
  unfold Selection.Select, mbind, M_mbind, M_bind.
  destruct (block_t c s) as [[block s']|e]; [|split; reflexivity].
  split.
  - eexists. split; [reflexivity|]. intros args kwargs s0. reflexivity.
  - eexists. split; [reflexivity|]. intros args kwargs s0.
    unfold lift. destruct (outer args) as [a1|e]; reflexivity.
Qed.

(** *** Convolutions: ranks, alignment, interpolation *)

(** Indexing a list outside [-len, len) raises. *)
Lemma py_getitem_out_of_range {A} (l : list A) (i : Z) :
  i < - Z.of_nat (length l) ∨ Z.of_nat (length l) ≤ i →
  py_getitem l i = Raise IndexError.
Proof.
  intros Hi. unfold py_getitem.
  destruct (Z.ltb_spec i 0).
  - destruct (Z.leb_spec 0 (i + Z.of_nat (length l))); [lia | reflexivity].
  - destruct (Z.leb_spec 0 i); [|reflexivity].
    destruct (Z.ltb_spec i (Z.of_nat (length l))); [lia | reflexivity].
Qed.

(** X9. [Conv] and [ConvTranspose] index a list of three classes with
    [dim - 1]: they raise [IndexError] exactly when [dim] is below -2 or
    above 3, and the ranks 0, -1 and -2 do not raise but select, from the
    end of the list, the classes of rank 3, 2 and 1. *)
Theorem Conv_rank_selection {K : Type}
    (dim kernel_size stride padding : Z) (kwargs : K) :
  let built cls := Ok (Convolution.mkConv K cls kernel_size stride padding kwargs) in
  let selected :=
    if dim =? 1 then Some 1
    else if dim =? 2 then Some 2
    else if dim =? 3 then Some 3
    else if dim =? 0 then Some 3
    else if dim =? -1 then Some 2
    else if dim =? -2 then Some 1
    else None in
  Convolution.Conv dim kernel_size stride padding kwargs
    = match selected with
      | Some rank => built (Convolution.spec_class false rank)
      | None => Raise IndexError
      end
  ∧ Convolution.ConvTranspose dim kernel_size stride padding kwargs
    = match selected with
      | Some rank => built (Convolution.spec_class true rank)
      | None => Raise IndexError
      end
  ∧ (selected = None ↔ dim < -2 ∨ 3 < dim).
Proof.
  intros built selected. subst built selected.
  assert (Hcases : dim < -2 ∨ dim = -2 ∨ dim = -1 ∨ dim = 0 ∨ dim = 1
                   ∨ dim = 2 ∨ dim = 3 ∨ 3 < dim) by lia.
  destruct Hcases as [Hlow | [-> | [-> | [-> | [-> | [-> | [-> | Hhigh]]]]]]].
  - replace (dim =? 1) with false by lia. replace (dim =? 2) with false by lia.
    replace (dim =? 3) with false by lia. replace (dim =? 0) with false by lia.
    replace (dim =? -1) with false by lia. replace (dim =? -2) with false by lia.
    unfold Convolution.Conv, Convolution.ConvTranspose.
    rewrite !py_getitem_out_of_range by (simpl; lia).
    split; [reflexivity|]. split; [reflexivity|]. split; [lia | reflexivity].
  - split; [reflexivity|]. split; [reflexivity|]. split; [discriminate | lia].
  - split; [reflexivity|]. split; [reflexivity|]. split; [discriminate | lia].
  - split; [reflexivity|]. split; [reflexivity|]. split; [discriminate | lia].
  - split; [reflexivity|]. split; [reflexivity|]. split; [discriminate | lia].
  - split; [reflexivity|]. split; [reflexivity|]. split; [discriminate | lia].
  - split; [reflexivity|]. split; [reflexivity|]. split; [discriminate | lia].
  - replace (dim =? 1) with false by lia. replace (dim =? 2) with false by lia.
    replace (dim =? 3) with false by lia. replace (dim =? 0) with false by lia.
    replace (dim =? -1) with false by lia. replace (dim =? -2) with false by lia.
    unfold Convolution.Conv, Convolution.ConvTranspose.
    rewrite !py_getitem_out_of_range by (simpl; lia).
    split; [reflexivity|]. split; [reflexivity|]. split; [lia | reflexivity].
Qed.

(** X10. What [Downsample] and [Upsample] hand to their constructor, for
    any constructor: the stride is the factor; for a factor of at most 1
    the width is ignored, the kernel is the factor and the padding 0; for a
    positive factor and width, with [w] the width in use (1 when the factor
    is 1), the padding is not negative and [kernel_size - 2 * padding] is
    the stride when [factor * (w - 1)] is even and the stride plus 1 when it
    is odd. *)
Theorem Downsample_Upsample_alignment {K : Type}
    (dim factor width : Z) (conv_t conv_tranpose_t : Convolution.conv_ctor)
    (kwargs : K) :
  ∃ kernel_size padding,
    Convolution.Downsample dim factor width conv_t kwargs
      = conv_t dim kernel_size factor padding kwargs
    ∧ Convolution.Upsample dim factor width conv_t conv_tranpose_t kwargs
      = conv_tranpose_t dim kernel_size factor padding kwargs
    ∧ (factor ≤ 1 → kernel_size = factor ∧ padding = 0)
    ∧ (0 < factor → 0 < width →
         let w := Convolution.spec_width factor width in
         kernel_size = factor * w
         ∧ 0 ≤ padding
         ∧ kernel_size - 2 * padding = factor + (factor * (w - 1)) `mod` 2).
Proof.
  unfold Convolution.Downsample, Convolution.Upsample.
  eexists _, _. split; [reflexivity|]. split; [reflexivity|]. split.
  - intros Hf. destruct (Z.ltb_spec 1 factor); [lia|].
    rewrite Z.mul_1_r, Z.sub_diag. split; reflexivity.
  - intros Hf Hw. set (w := Convolution.spec_width factor width).
    assert (Hwidth : (if 1 <? factor then width else 1) = w).
    { unfold w, Convolution.spec_width.
      destruct (Z.ltb_spec 1 factor), (Z.eqb_spec factor 1); lia. }
    assert (Hw1 : 0 < w).
    { unfold w, Convolution.spec_width. destruct (factor =? 1); lia. }
    rewrite Hwidth. split; [reflexivity|].
    replace (factor * w - factor) with (factor * (w - 1)) by lia.
    replace (factor * w) with (factor * (w - 1) + factor) by lia.
    assert (Hn : 0 ≤ factor * (w - 1)) by nia.
    remember (factor * (w - 1)) as n eqn:Heqn. clear Heqn.
    pose proof (Z.div_mod n 2 ltac:(lia)) as Hdiv.
    pose proof (Z.mod_pos_bound n 2 ltac:(lia)) as Hmod.
    assert (0 ≤ n / 2) by (apply Z.div_pos; lia).
    split; lia.
Qed.

Lemma Downsample_Upsample_alignment_witness :
  Convolution.Upsample 1 3 2 Convolution.Conv Convolution.ConvTranspose tt
    = Ok (Convolution.mkConv unit Convolution.ConvTranspose1d 6 3 1 tt).
Proof.
  destruct (Downsample_Upsample_alignment 1 3 2 Convolution.Conv
              Convolution.ConvTranspose tt)
    as (kernel_size & padding & _ & Hup & _ & Hpos).
  destruct (Hpos ltac:(lia) ltac:(lia)) as (Hk & Hp & Hodd).
  change (Convolution.spec_width 3 2) with 2 in Hk, Hodd.
  change ((3 * (2 - 1)) `mod` 2) with 1 in Hodd.
  rewrite Hup.
  assert (padding = 1) by lia. assert (kernel_size = 6) by lia.
  subst. reflexivity.
Defined.

(** X11. [UpsampleInterpolate] raises [AssertionError] on every kernel
    size that is not odd, before the convolution is built; on an odd kernel
    size it builds the convolution once, with a padding [p] such that
    [kernel_size = 2 * p + 1], and fails only if that construction
    fails. *)
Theorem UpsampleInterpolate_odd_kernel {K R : Type}
    (dim factor kernel_size : Z) (mode : string)
    (conv_t : Z → Z → Z → K → result R) (kwargs : K) :
  (kernel_size `mod` 2 ≠ 1 →
     Interpolation.UpsampleInterpolate dim factor kernel_size mode conv_t kwargs
       = Raise (AssertionError "upsample kernel size must be odd"))
  ∧ (kernel_size `mod` 2 = 1 →
       ∃ p, kernel_size = 2 * p + 1
         ∧ Interpolation.UpsampleInterpolate dim factor kernel_size mode
             conv_t kwargs
           = match conv_t dim kernel_size p kwargs with
             | Ok conv => Ok (Interpolation.mkInterpolate factor mode conv)
             | Raise e => Raise e
             end).
Proof.
  unfold Interpolation.UpsampleInterpolate. split.
  - intros Heven. destruct (Z.eqb_spec (kernel_size `mod` 2) 1); [lia|].
    reflexivity.
  - intros Hodd. exists ((kernel_size - 1) / 2). split.
    + pose proof (Z.div_mod kernel_size 2 ltac:(lia)) as Hdiv.
      rewrite Hodd in Hdiv.
      replace (kernel_size - 1) with (kernel_size `div` 2 * 2) by lia.
      rewrite Z.div_mul by lia. lia.
    + destruct (Z.eqb_spec (kernel_size `mod` 2) 1); [|lia]. cbn.
      destruct (conv_t dim kernel_size ((kernel_size - 1) / 2) kwargs);
        reflexivity.
Qed.

Lemma UpsampleInterpolate_odd_kernel_witness :
  Interpolation.UpsampleInterpolate 2 2 4 "nearest"
    (λ dim k p (_ : unit), Ok (dim, k, p)) tt
  = Raise (AssertionError "upsample kernel size must be odd").
Proof.
  apply (proj1 (UpsampleInterpolate_odd_kernel 2 2 4 "nearest"
                  (λ dim k p (_ : unit), Ok (dim, k, p)) tt)).
  vm_compute. discriminate.
Defined.

(** *** Shapes fixed by constructors *)

(** X12. When a [GRN] for [dim] spatial axes is built, it takes its norm
    over the axes [2, ..., dim + 1], each once and in order: never over the
    batch axis 0 or the channel axis 1; and its two parameters have shape
    [(1, channels, 1, ..., 1)] with one trailing 1 per norm axis. It is
    built exactly when [channels] is not negative. *)
Theorem GRN_init_axes (dim channels : Z) :
  let n := Z.to_nat dim in
  (∀ self, Shapes.GRN_init dim channels = Ok self →
     length (Shapes.norm_dims self) = n
     ∧ (∀ i : nat, (i < n)%nat →
          Shapes.norm_dims self !! i = Some (Z.of_nat i + 2))
     ∧ Forall (λ d, 2 ≤ d ≤ Z.of_nat n + 1) (Shapes.norm_dims self)
     ∧ Shapes.gamma_shape self = 1 :: channels :: replicate n 1
     ∧ Shapes.beta_shape self = Shapes.gamma_shape self
     ∧ length (Shapes.gamma_shape self)
       = (2 + length (Shapes.norm_dims self))%nat)
  ∧ (0 ≤ channels ↔ is_Ok (Shapes.GRN_init dim channels)).
Proof.
  intros n.
  assert (Hzeros : Shapes.torch_zeros_shape (1 :: channels :: replicate n 1)
                   = if 0 <=? channels
                     then Ok (1 :: channels :: replicate n 1)
                     else Raise RuntimeError).
  { unfold Shapes.torch_zeros_shape. cbn.
    assert (Hones : forallb (λ k, 0 <=? k) (replicate n 1) = true).
    { induction n as [|k IH]; [reflexivity | exact IH]. }
    rewrite Hones, andb_true_r. reflexivity. }
  unfold Shapes.GRN_init. fold n. rewrite Hzeros. split.
  - intros self Hinit.
    destruct (Z.leb_spec 0 channels); [|discriminate Hinit].
    cbn in Hinit. injection Hinit as <-. cbn. unfold Shapes.py_range. fold n.
    assert (Hlookup : ∀ i : nat, (i < n)%nat →
      ((λ d, d + 2) <$> (Z.of_nat <$> seq 0 n)) !! i = Some (Z.of_nat i + 2)).
    { intros i Hi. rewrite !list_lookup_fmap, lookup_seq_lt by exact Hi.
      reflexivity. }
    split; [rewrite !length_fmap, length_seq; reflexivity|].
    split; [exact Hlookup|]. split.
    + apply Forall_lookup. intros i d Hd.
      assert (Hi : (i < n)%nat).
      { apply lookup_lt_Some in Hd. rewrite !length_fmap, length_seq in Hd.
        exact Hd. }
      rewrite (Hlookup i Hi) in Hd. injection Hd as <-. lia.
    + split; [reflexivity|]. split; [reflexivity|].
      rewrite !length_fmap, length_seq, length_replicate. reflexivity.
  - destruct (Z.leb_spec 0 channels) as [Hpos|Hneg]; cbn.
    + split; [intros _; eexists; reflexivity | intros _; exact Hpos].
    + split; [lia | intros [self Hself]; discriminate Hself].
Qed.

Lemma GRN_init_axes_witness :
  ∃ self, Shapes.GRN_init 2 8 = Ok self
          ∧ Shapes.norm_dims self = [2; 3]
          ∧ Shapes.gamma_shape self = [1; 8; 1; 1].
Proof.
  eexists. split; [reflexivity|].
  destruct (proj1 (GRN_init_axes 2 8) _ eq_refl) as (_ & Hdims & _ & Hgamma & _).
  split; [|exact Hgamma]. reflexivity.
Defined.

(** *** The number embedder *)

(** X13. [NumberEmbedder.__init__] raises [AssertionError] exactly on an
    odd [dim]; when it returns, there are [dim / 2] frequencies and the
    vector that [to_embedding] builds (the number, the sines and the
    cosines) has exactly the [dim + 1] entries that [to_out] takes, so
    embedding [b] numbers gives the shape [(b, features)] and never a shape
    error. It returns for every even [dim] and [features] that are not
    negative. *)
Theorem NumberEmbedder_init_widths (features dim : Z) :
  (dim `mod` 2 ≠ 0 →
     Shapes.NumberEmbedder_init features dim
       = Raise (AssertionError (Shapes.dim_message dim)))
  ∧ (∀ self, Shapes.NumberEmbedder_init features dim = Ok self →
       dim `mod` 2 = 0 ∧ 0 ≤ dim ∧ 0 ≤ features
       ∧ 2 * Shapes.weights_len self = dim
       ∧ 1 + 2 * Shapes.weights_len self = Shapes.to_out_in_features self
       ∧ ∀ b, Shapes.to_embedding_shape self b = Ok (b, features))
  ∧ (dim `mod` 2 = 0 → 0 ≤ dim → 0 ≤ features →
       is_Ok (Shapes.NumberEmbedder_init features dim)).
Proof.
  unfold Shapes.NumberEmbedder_init.
  pose proof (Z.div_mod dim 2 ltac:(lia)) as Hdiv.
  split; [|split].
  - intros Hodd. destruct (Z.eqb_spec (dim `mod` 2) 0); [lia | reflexivity].
  - intros self Hinit.
    destruct (Z.eqb_spec (dim `mod` 2) 0) as [Heven|]; [|discriminate Hinit].
    cbn in Hinit.
    destruct (Z.ltb_spec (dim / 2) 0) as [|Hpos]; [discriminate Hinit|].
    cbn in Hinit.
    destruct (Z.ltb_spec (dim + 1) 0) as [|Hpos1]; [discriminate Hinit|].
    destruct (Z.ltb_spec features 0) as [|Hfeat]; [discriminate Hinit|].
    cbn in Hinit. injection Hinit as <-. cbn.
    split; [exact Heven|]. split; [lia|]. split; [lia|]. split; [lia|].
    split; [lia|].
    intros b. unfold Shapes.to_embedding_shape. cbn.
    destruct (Z.eqb_spec (1 + (dim / 2 + dim / 2)) (dim + 1)); [reflexivity | lia].
  - intros Heven Hpos Hfeat.
    destruct (Z.eqb_spec (dim `mod` 2) 0); [|lia]. cbn.
    destruct (Z.ltb_spec (dim / 2) 0); [lia|]. cbn.
    destruct (Z.ltb_spec (dim + 1) 0); [lia|].
    destruct (Z.ltb_spec features 0); [lia|]. eexists. reflexivity.
Qed.

Lemma NumberEmbedder_init_widths_witness :
  Shapes.NumberEmbedder_init 8 255
    = Raise (AssertionError "dim must be divisible by 2, found 255")
  ∧ is_Ok (Shapes.NumberEmbedder_init 8 256).
Proof.
  split.
  - apply (proj1 (NumberEmbedder_init_widths 8 255)). vm_compute. discriminate.
  - apply (proj2 (proj2 (NumberEmbedder_init_widths 8 256)));
      [reflexivity | lia | lia].
Defined.

(** *** The fixed embedding *)

(** X14. [FixedEmbedding] raises [AssertionError] exactly when the input
    is longer than [max_length]; otherwise it returns a tensor with the
    batch size and the length of the input, all of whose items are the
    first rows of the table: the output depends on the shape of the input
    only, not on its content. *)
Theorem FixedEmbedding_forward_shape_only {Vec : Type}
    (self : Guidance.FixedEmbedding Vec) (x : Guidance.tensor3 Vec) :
  (Guidance.fe_max_length self < Z.of_nat (Guidance.shape1 x) →
     Guidance.FixedEmbedding_forward self x
       = Raise (AssertionError "Input sequence length must be <= max_length"))
  ∧ (Z.of_nat (Guidance.shape1 x) ≤ Guidance.fe_max_length self →
       ∃ out,
         Guidance.FixedEmbedding_forward self x = Ok out
         ∧ Guidance.shape1 out = Guidance.shape1 x
         ∧ length (Guidance.items out) = length (Guidance.items x)
         ∧ Forall (λ item, item = Guidance.fe_weight self
                                   <$> seq 0 (Guidance.shape1 x))
             (Guidance.items out)
         ∧ ∀ y, Guidance.shape1 y = Guidance.shape1 x →
                length (Guidance.items y) = length (Guidance.items x) →
                Guidance.FixedEmbedding_forward self y = Ok out).
Proof.
  split.
  - intros Hlong. unfold Guidance.FixedEmbedding_forward.
    destruct (Z.leb_spec (Z.of_nat (Guidance.shape1 x))
                (Guidance.fe_max_length self)); [lia | reflexivity].
  - intros Hlen. eexists.
    split; [apply FixedEmbedding_forward_returns, Hlen|]. cbn.
    split; [reflexivity|]. split; [apply length_replicate|]. split.
    + apply Forall_replicate. reflexivity.
    + intros y Hshape Hbatch.
      rewrite FixedEmbedding_forward_returns by (rewrite Hshape; exact Hlen).
      rewrite Hshape, Hbatch. reflexivity.
Qed.

Lemma FixedEmbedding_forward_shape_only_witness :
  Guidance.FixedEmbedding_forward
    (Guidance.mkFixedEmbedding (Vec := Z) 2 (λ i, Z.of_nat i))
    (Guidance.mkTensor3 3 [[7; 8; 9]])
  = Raise (AssertionError "Input sequence length must be <= max_length").
Proof.
  apply (proj1 (FixedEmbedding_forward_shape_only
                  (Guidance.mkFixedEmbedding (Vec := Z) 2 (λ i, Z.of_nat i))
                  (Guidance.mkTensor3 3 [[7; 8; 9]]))).
  simpl. lia.
Defined.

(** *** Attention blocks as built by the constructor *)

(** X15. [Attention.__init__] checks [max_length] before it builds
    anything: given a positional embedding class and no [max_length] it
    raises [AssertionError], whatever the class and the layer constructors
    are. It returns exactly when that check passes and each of the
    constructors it calls returns. A block it returns has [use_context] set
    exactly when [context_features] was given, holds a positional embedding
    exactly when [use_positional_embedding] is set, so the forward pass
    never reads a missing attribute, and its normalisation and projection
    of the context are built for [context_features], or for [features] when
    none was given. *)
Theorem Attention_init_attributes {Tensor : Type}
    (LayerNorm : Z → result (AttentionBlock.layer Tensor))
    (Linear : Z → Z → result (AttentionBlock.layer Tensor))
    (features head_features num_heads : Z)
    (context_features max_length : option Z)
    (attention_base_t :
       Z → Z → Z → result (Tensor → Tensor → Tensor → result Tensor))
    (positional_embedding_t :
       option (Z → Z → result (AttentionBlock.layer Tensor))) :
  let built := AttentionBlock.Attention_init LayerNorm Linear features
                 head_features num_heads context_features max_length
                 attention_base_t positional_embedding_t in
  (is_Some positional_embedding_t → max_length = None →
     built = Raise (AssertionError ""))
  ∧ (is_Ok built ↔
       (∀ pe_t, positional_embedding_t = Some pe_t →
          ∃ n, max_length = Some n ∧ is_Ok (pe_t n features))
       ∧ is_Ok (LayerNorm features)
       ∧ is_Ok (LayerNorm (default_ context_features features))
       ∧ is_Ok (Linear features (head_features * num_heads))
       ∧ is_Ok (Linear (default_ context_features features)
                  (head_features * num_heads * 2))
       ∧ is_Ok (attention_base_t features head_features num_heads))
  ∧ ∀ self, built = Ok self →
      AttentionBlock.context_features self = context_features
      ∧ AttentionBlock.use_context self = exists_ context_features
      ∧ AttentionBlock.use_positional_embedding self
          = exists_ positional_embedding_t
      ∧ (AttentionBlock.use_positional_embedding self = true
         ↔ is_Some (AttentionBlock.positional_embedding self))
      ∧ LayerNorm (default_ context_features features)
          = Ok (AttentionBlock.norm_context self)
      ∧ Linear (default_ context_features features)
          (head_features * num_heads * 2)
          = Ok (AttentionBlock.to_kv self)
      ∧ (∀ pe_t, positional_embedding_t = Some pe_t →
           ∃ n pe, max_length = Some n ∧ pe_t n features = Ok pe
             ∧ ∀ x, AttentionBlock.call_positional_embedding self x = pe x).
Proof.
  intros built. subst built. split; [|split].
  - intros [pe_t ->] ->. reflexivity.
  - split.
    + intros [self Hself].
      destruct (Attention_init_Ok _ _ _ _ _ _ _ _ _ _ Hself)
        as (_ & _ & _ & _ & Hpe & Hn1 & Hn2 & Hl1 & Hl2 & Hatt).
      split.
      { intros pe_t ->. destruct Hpe as (n & pe & Hn & Hpe & _).
        exists n. split; [exact Hn|]. rewrite Hpe. eexists. reflexivity. }
      rewrite Hn1, Hn2, Hl1, Hl2, Hatt.
      repeat split; eexists; reflexivity.
    + intros (Hpe & [n1 Hn1] & [n2 Hn2] & [l1 Hl1] & [l2 Hl2] & [att Hatt]).
      unfold AttentionBlock.Attention_init.
      rewrite Hn1, Hn2, Hl1, Hl2, Hatt.
      destruct positional_embedding_t as [pe_t|].
      * destruct (Hpe pe_t eq_refl) as (n & -> & [pe Hpe_t]).
        rewrite Hpe_t. eexists. reflexivity.
      * eexists. reflexivity.
  - intros self Hself.
    destruct (Attention_init_Ok _ _ _ _ _ _ _ _ _ _ Hself)
      as (Hcf & Huc & Hup & _ & Hpe & _ & Hn2 & _ & Hl2 & _).
    split; [exact Hcf|]. split; [exact Huc|]. split; [exact Hup|].
    split; [|split; [exact Hn2 | split; [exact Hl2|]]].
    + rewrite Hup. destruct positional_embedding_t as [pe_t|]; cbn.
      * destruct Hpe as (n & pe & _ & _ & ->). split; eauto.
      * rewrite Hpe. split; [discriminate | intros [pe Hnone]; discriminate].
    + intros pe_t ->. destruct Hpe as (n & pe & Hn & Hpe_t & Hattr).
      exists n, pe. split; [exact Hn|]. split; [exact Hpe_t|].
      intros x. unfold AttentionBlock.call_positional_embedding.
      rewrite Hattr. reflexivity.
Qed.

Lemma Attention_init_attributes_witness :
  AttentionBlock.Attention_init (Tensor := Z) (λ _, Ok (λ t, Ok t))
    (λ _ _, Ok (λ t, Ok t)) 8 4 2 None None (λ _ _ _, Ok (λ q k v, Ok (q + k + v)))
    (Some (λ _ _, Ok (λ t, Ok t)))
  = Raise (AssertionError "")
  ∧ is_Ok
      (AttentionBlock.Attention_init (Tensor := Z) (λ _, Ok (λ t, Ok t))
         (λ _ _, Ok (λ t, Ok t)) 8 4 2 None (Some 16)
         (λ _ _ _, Ok (λ q k v, Ok (q + k + v)))
         (Some (λ _ _, Ok (λ t, Ok t)))).
Proof.
  split.
  - apply (proj1 (Attention_init_attributes (Tensor := Z) (λ _, Ok (λ t, Ok t))
                    (λ _ _, Ok (λ t, Ok t)) 8 4 2 None None
                    (λ _ _ _, Ok (λ q k v, Ok (q + k + v)))
                    (Some (λ _ _, Ok (λ t, Ok t)))));
      [eexists; reflexivity | reflexivity].
  - apply (proj1 (proj2 (Attention_init_attributes (Tensor := Z)
                           (λ _, Ok (λ t, Ok t)) (λ _ _, Ok (λ t, Ok t))
                           8 4 2 None (Some 16)
                           (λ _ _ _, Ok (λ q k v, Ok (q + k + v)))
                           (Some (λ _ _, Ok (λ t, Ok t)))))).
    split.
    { intros pe_t Hpe_t. injection Hpe_t as <-. exists 16.
      split; [reflexivity | eexists; reflexivity]. }
    repeat split; eexists; reflexivity.
Defined.

(** X16. An [Attention] block built without [context_features] is a
    self-attention block: a context passed to its forward pass is ignored,
    the result is that of the call without context. *)
Theorem Attention_without_context_features_ignores_context {Tensor : Type}
    (tensor_add : Tensor → Tensor → result Tensor)
    (torch_chunk : Tensor → Z → result (list Tensor))
    (LayerNorm : Z → result (AttentionBlock.layer Tensor))
    (Linear : Z → Z → result (AttentionBlock.layer Tensor))
    (features head_features num_heads : Z) (max_length : option Z)
    (attention_base_t :
       Z → Z → Z → result (Tensor → Tensor → Tensor → result Tensor))
    (positional_embedding_t :
       option (Z → Z → result (AttentionBlock.layer Tensor)))
    (self : AttentionBlock.Attention Tensor) (x context : Tensor) :
  AttentionBlock.Attention_init LayerNorm Linear features head_features
    num_heads None max_length attention_base_t positional_embedding_t
    = Ok self →
  AttentionBlock.Attention_forward tensor_add torch_chunk self x (Some context)
    = AttentionBlock.Attention_forward tensor_add torch_chunk self x None.
Proof.
  intros Hinit.
  destruct (Attention_init_Ok _ _ _ _ _ _ _ _ _ _ Hinit) as (Hcf & Huc & _).
  unfold AttentionBlock.Attention_forward. rewrite Hcf, Huc. reflexivity.
Qed.

Lemma Attention_without_context_features_ignores_context_witness :
  let self :=
    AttentionBlock.mkAttention (Tensor := Z) None false false None None
      (λ t, Ok t) (λ t, Ok t) (λ t, Ok t) (λ t, Ok t)
      (λ q k v, Ok (q + k + v)) in
  AttentionBlock.Attention_forward (λ a b, Ok (a + b)) (λ t _, Ok [t; t]) self 5
    (Some 100)
    = AttentionBlock.Attention_forward (λ a b, Ok (a + b)) (λ t _, Ok [t; t])
        self 5 None.
Proof.
  intros self.
  apply (Attention_without_context_features_ignores_context
           (λ a b, Ok (a + b)) (λ t _, Ok [t; t]) (λ _, Ok (λ t, Ok t))
           (λ _ _, Ok (λ t, Ok t)) 8 4 2 None
           (λ _ _ _, Ok (λ q k v, Ok (q + k + v))) None self 5 100).
  reflexivity.
Defined.

(** X17. A block built by [CrossAttention] with a non-zero
    [context_features] requires a context: its forward pass without one
    raises [AssertionError], before the positional embedding or any layer
    is evaluated. With [context_features] equal to 0 the assertion lets the
    call through: in a block without positional embedding the call without
    context is then the call with [x] itself as the context, with the same
    result or the same exception. *)
Theorem CrossAttention_requires_context {Tensor : Type}
    (tensor_add : Tensor → Tensor → result Tensor)
    (torch_chunk : Tensor → Z → result (list Tensor))
    (LayerNorm : Z → result (AttentionBlock.layer Tensor))
    (Linear : Z → Z → result (AttentionBlock.layer Tensor))
    (context_features features head_features num_heads : Z)
    (max_length : option Z)
    (attention_base_t :
       Z → Z → Z → result (Tensor → Tensor → Tensor → result Tensor))
    (positional_embedding_t :
       option (Z → Z → result (AttentionBlock.layer Tensor)))
    (self : AttentionBlock.Attention Tensor) (x : Tensor) :
  CrossAttentionBlock.CrossAttention LayerNorm Linear context_features
    features head_features num_heads max_length attention_base_t
    positional_embedding_t = Ok self →
  (context_features ≠ 0 →
     AttentionBlock.Attention_forward tensor_add torch_chunk self x None
       = Raise (AssertionError
                  "You must provide a context when using context_features"))
  ∧ (context_features = 0 → positional_embedding_t = None →
       AttentionBlock.Attention_forward tensor_add torch_chunk self x None
         = AttentionBlock.Attention_forward tensor_add torch_chunk self x
             (Some x)).
Proof.
  unfold CrossAttentionBlock.CrossAttention. intros Hinit.
  destruct (Attention_init_Ok _ _ _ _ _ _ _ _ _ _ Hinit)
    as (Hcf & Huc & Hup & _).
  unfold AttentionBlock.Attention_forward. rewrite Hcf, Huc, Hup. split.
  - intros Hne. cbn. destruct (Z.eqb_spec context_features 0); [contradiction|].
    reflexivity.
  - intros -> ->. reflexivity.
Qed.

Lemma CrossAttention_requires_context_witness :
  (∃ self,
     CrossAttentionBlock.CrossAttention (Tensor := Z) (λ _, Ok (λ t, Ok t))
       (λ _ _, Ok (λ t, Ok t)) 3 8 4 2 None
       (λ _ _ _, Ok (λ q k v, Ok (q + k + v))) None = Ok self
     ∧ AttentionBlock.Attention_forward (λ a b, Ok (a + b)) (λ t _, Ok [t; t])
         self 5 None
       = Raise (AssertionError
                  "You must provide a context when using context_features"))
  ∧ (∃ self,
       CrossAttentionBlock.CrossAttention (Tensor := Z) (λ _, Ok (λ t, Ok t))
         (λ _ _, Ok (λ t, Ok t)) 0 8 4 2 None
         (λ _ _ _, Ok (λ q k v, Ok (q + k + v))) None = Ok self
       ∧ AttentionBlock.Attention_forward (λ a b, Ok (a + b))
           (λ t _, Ok [t; t]) self 5 None
         = AttentionBlock.Attention_forward (λ a b, Ok (a + b))
             (λ t _, Ok [t; t]) self 5 (Some 5)).
Proof.
  split.
  - eexists. split; [reflexivity|].
    apply (proj1 (CrossAttention_requires_context (Tensor := Z)
                    (λ a b, Ok (a + b)) (λ t _, Ok [t; t]) (λ _, Ok (λ t, Ok t))
                    (λ _ _, Ok (λ t, Ok t)) 3 8 4 2 None
                    (λ _ _ _, Ok (λ q k v, Ok (q + k + v))) None _ 5 eq_refl)).
    lia.
  - eexists. split; [reflexivity|].
    apply (proj2 (CrossAttention_requires_context (Tensor := Z)
                    (λ a b, Ok (a + b)) (λ t _, Ok [t; t]) (λ _, Ok (λ t, Ok t))
                    (λ _ _, Ok (λ t, Ok t)) 0 8 4 2 None
                    (λ _ _ _, Ok (λ q k v, Ok (q + k + v))) None _ 5 eq_refl));
      reflexivity.
Defined.

(** *** Guidance: what is checked before the base network runs *)

(** X18. The guidance module raises [AssertionError] when no embedding is
    given, and when the embedding is longer than [embedding_max_length],
    from every state and whatever the scale, the mask probability and the
    base network are: the base network is not evaluated and no mask is
    sampled. *)
Theorem cfg_forward_assertions {S X Out Kw CKw Vec : Type}
    (nn_Embedding : Z → Z → nat → Vec)
    (bernoulli : Guidance.pyfloat → nat → M S (list bool))
    (tensor_add tensor_sub : Out → Out → Out)
    (tensor_mul_float : Out → Guidance.pyfloat → Out)
    (net_t : Z → CKw → Guidance.network S X Out Kw Vec)
    (embedding_max_length embedding_features : Z) (ckw : CKw)
    (x : X) (scale proba : Guidance.pyfloat) (kw : Kw) (s : S) :
  let self := Guidance.ClassifierFreeGuidancePlugin nn_Embedding net_t
                embedding_max_length embedding_features ckw in
  let fwd := Guidance.forward bernoulli tensor_add tensor_sub tensor_mul_float
               self x in
  fwd None scale proba kw s
    = Raise (AssertionError "ClassiferFreeGuidancePlugin requires embedding")
  ∧ ∀ e, embedding_max_length < Z.of_nat (Guidance.shape1 e) →
      fwd (Some e) scale proba kw s
        = Raise (AssertionError "Input sequence length must be <= max_length").
Proof.
  intros self fwd. split; [reflexivity|].
  intros e Hlong. unfold fwd, Guidance.forward.
  unfold mbind at 1, M_mbind at 1, M_bind at 1.
  unfold Guidance.FixedEmbedding_forward. cbn.
  destruct (Z.leb_spec (Z.of_nat (Guidance.shape1 e)) embedding_max_length);
    [lia | reflexivity].
Qed.

Lemma cfg_forward_assertions_witness :
  Guidance.forward (S := unit) (X := Z) (Out := Z) (Kw := unit) (Vec := Z)
    (λ _ n, mret (replicate n false)) Z.add Z.sub (λ o _, o)
    (Guidance.ClassifierFreeGuidancePlugin (CKw := unit) (λ _ _ n, Z.of_nat n)
       (λ _ _ x _ _, mret x) 1 1 tt)
    5 (Some (Guidance.mkTensor3 2 [[10; 11]]))
    Guidance.float_one Guidance.float_zero tt tt
  = Raise (AssertionError "Input sequence length must be <= max_length").
Proof.
  apply (proj2 (cfg_forward_assertions (S := unit) (X := Z) (Out := Z)
                  (Kw := unit) (CKw := unit) (Vec := Z)
                  (λ _ _ n, Z.of_nat n) (λ _ n, mret (replicate n false))
                  Z.add Z.sub (λ o _, o) (λ _ _ x _ _, mret x) 1 1 tt 5
                  Guidance.float_one Guidance.float_zero tt tt)).
  simpl. lia.
Defined.

(** X19. [TabularDataClassifierFreeGuidancePlugin] is
    [ClassifierFreeGuidancePlugin] again: for the same base network and
    sizes the two build the same module, and the two forward passes agree
    on every input and from every state. *)
Theorem TabularDataClassifierFreeGuidancePlugin_same {S X Out Kw CKw Vec : Type}
    (nn_Embedding : Z → Z → nat → Vec)
    (bernoulli : Guidance.pyfloat → nat → M S (list bool))
    (tensor_add tensor_sub : Out → Out → Out)
    (tensor_mul_float : Out → Guidance.pyfloat → Out)
    (net_t : Z → CKw → Guidance.network S X Out Kw Vec)
    (embedding_max_length embedding_features : Z) (ckw : CKw) :
  TabularGuidance.TabularDataClassifierFreeGuidancePlugin nn_Embedding net_t
    embedding_max_length embedding_features ckw
  = Guidance.ClassifierFreeGuidancePlugin nn_Embedding net_t
      embedding_max_length embedding_features ckw
  ∧ ∀ (self : Guidance.cfg_module S X Out Kw Vec) x embedding scale proba kw,
      TabularGuidance.forward bernoulli tensor_add tensor_sub tensor_mul_float
        self x embedding scale proba kw
      ≃ Guidance.forward bernoulli tensor_add tensor_sub tensor_mul_float
          self x embedding scale proba kw.
Proof.
  split; [reflexivity|].
  intros self x [e|] scale proba kw s; reflexivity.
Qed.

(** *** The forward pass of the tabular generator *)

Section TabularForwardFacts.
Import Tabular TabularShape.
Implicit Types (self : TabularDataEmbeddingGenerator) (x : tensor2).

Lemma mapM_result_cons {A B} (f : A → result B) (a : A) (l : list A) :
  mapM f (a :: l)
  = match f a with
    | Ok b => match mapM f l with Ok k => Ok (b :: k) | Raise e => Raise e end
    | Raise e => Raise e
    end.
Proof. cbn. destruct (f a); [|reflexivity]. cbn. destruct (mapM f l); reflexivity. Qed.

Lemma mapM_result_raises {A B} (f : A → result B) (l : list A) (r : nat) (a : A) :
  l !! r = Some a → is_Raise (f a) → is_Raise (mapM f l).
Proof.
  revert r. induction l as [|a0 l IH]; intros r Hr Hraise; [discriminate|].
  rewrite mapM_result_cons.
  destruct (f a0) as [b0|e] eqn:Hhead; [|eexists; reflexivity].
  destruct r as [|r].
  - cbn in Hr. injection Hr as ->. rewrite Hhead in Hraise.
    destruct Hraise as [e He]. discriminate.
  - cbn in Hr. destruct (IH r Hr Hraise) as [e He]. rewrite He.
    eexists. reflexivity.
Qed.

Lemma mapM_result_length {A B} (f : A → result B) (l : list A) (k : list B) :
  mapM f l = Ok k → length k = length l.
Proof.
  revert k. induction l as [|a l IH]; intros k Hk.
  - cbn in Hk. injection Hk as <-. reflexivity.
  - rewrite mapM_result_cons in Hk.
    destruct (f a) as [b|e]; [|discriminate Hk].
    destruct (mapM f l) as [k'|e]; [|discriminate Hk].
    injection Hk as <-. cbn. f_equal. apply IH. reflexivity.
Qed.

Lemma py_getitem_Ok {A} (l : list A) (i : Z) (a : A) :
  0 ≤ i → py_getitem l i = Ok a → l !! Z.to_nat i = Some a.
Proof.
  intros Hi. unfold py_getitem.
  destruct (Z.ltb_spec i 0); [lia|].
  destruct ((0 <=? i) && (i <? Z.of_nat (length l))); [|discriminate].
  destruct (l !! Z.to_nat i); [|discriminate].
  intros Heq. injection Heq as <-. reflexivity.
Qed.

Lemma column_Ok x (j : nat) (c : list Q) :
  column x (Z.of_nat j) = Ok c →
  c = (λ row, default 0%Q (row !! j)) <$> data x.
Proof.
  unfold column, norm_index.
  destruct (Z.ltb_spec (Z.of_nat j) 0); [lia|].
  destruct ((0 <=? Z.of_nat j) && (Z.of_nat j <? Z.of_nat (shape1 x)));
    [|discriminate].
  cbn. rewrite Nat2Z.id. intros Heq. injection Heq as <-. reflexivity.
Qed.

(** A categorical column with a code that no table holds makes the step of
    the loop raise. *)
Lemma forward_step_bad_code self x (j r : nat) (row : list Q) (v : Q)
    (st : list tensor2 * Z) :
  0 ≤ st.2 →
  data x !! r = Some row → row !! j = Some v →
  long v < 0 ∨ Forall (λ emb, num_embeddings emb ≤ long v) (embeddings self) →
  is_Raise (forward_step self x (Z.of_nat j) false st).
Proof.
  destruct st as [cols counter]. cbn. intros Hcounter Hrow Hv Hbad.
  destruct (py_getitem (embeddings self) counter) as [emb|e] eqn:Hemb;
    [|eexists; reflexivity].
  cbn. destruct (column x (Z.of_nat j)) as [c|e] eqn:Hc;
    [|eexists; reflexivity].
  cbn. apply column_Ok in Hc. unfold Embedding_forward.
  destruct (mapM_result_raises
              (λ i, if (0 <=? i) && (i <? num_embeddings emb)
                    then Ok (weight emb (Z.to_nat i)) else Raise IndexError)
              (long <$> c) r (long v)) as [e He].
  - rewrite Hc, !list_lookup_fmap, Hrow. cbn. rewrite Hv. reflexivity.
  - destruct Hbad as [Hneg|Hlarge].
    + destruct (Z.leb_spec 0 (long v)); [lia|]. eexists. reflexivity.
    + apply py_getitem_Ok in Hemb; [|exact Hcounter].
      rewrite Forall_forall in Hlarge.
      specialize (Hlarge emb ltac:(apply list_elem_of_lookup; eauto)).
      destruct (Z.ltb_spec (long v) (num_embeddings emb)); [lia|].
      rewrite andb_false_r. eexists. reflexivity.
  - rewrite He. eexists. reflexivity.
Qed.

Lemma forward_step_counter self x (i : Z) (b : bool)
    (st st' : list tensor2 * Z) :
  0 ≤ st.2 → forward_step self x i b st = Ok st' → 0 ≤ st'.2.
Proof.
  destruct st as [cols counter]. cbn. intros Hcounter.
  destruct b.
  - destruct (column x i); [|discriminate]. cbn.
    intros Heq. injection Heq as <-. exact Hcounter.
  - destruct (py_getitem _ _); [|discriminate]. cbn.
    destruct (column x i); [|discriminate]. cbn.
    destruct (Embedding_forward _ _); [|discriminate]. cbn.
    intros Heq. injection Heq as <-. cbn. lia.
Qed.

Lemma for_enumerate_bad_code self x (j r : nat) (row : list Q) (v : Q)
    (mask : list bool) (k : nat) (start : Z) (st : list tensor2 * Z) :
  0 ≤ st.2 →
  Z.of_nat j = start + Z.of_nat k →
  mask !! k = Some false →
  data x !! r = Some row → row !! j = Some v →
  long v < 0 ∨ Forall (λ emb, num_embeddings emb ≤ long v) (embeddings self) →
  is_Raise (for_enumerate (forward_step self x) start mask st).
Proof.
  intros Hcounter Hj Hk Hrow Hv Hbad.
  revert k start st Hcounter Hj Hk.
  induction mask as [|b mask IH]; intros k start st Hcounter Hj Hk;
    [discriminate|].
  destruct k as [|k]; cbn in Hk |- *.
  - injection Hk as ->. replace start with (Z.of_nat j) by lia.
    destruct (forward_step_bad_code self x j r row v st Hcounter Hrow Hv Hbad)
      as [e ->].
    eexists. reflexivity.
  - destruct (forward_step self x start b st) as [st'|e] eqn:Hstep;
      [|eexists; reflexivity].
    cbn. apply (IH k); [|lia|exact Hk].
    eapply forward_step_counter; eauto.
Qed.

(** The columns collected by the loop all have one row per row of the
    input, and their widths add up as [output_width] says. *)
Lemma for_enumerate_columns self x (mask : list bool) (start : Z)
    (cols cols' : list tensor2) (counter counter' : Z) :
  0 ≤ counter →
  for_enumerate (forward_step self x) start mask (cols, counter)
    = Ok (cols', counter') →
  Forall (λ c, length (data c) = length (data x)) cols →
  Forall (λ c, length (data c) = length (data x)) cols'
  ∧ total_width cols'
    = (total_width cols
       + output_width mask (drop (Z.to_nat counter) (embeddings self)))%nat
  ∧ (length cols' = length cols + length mask)%nat.
Proof.
  revert start cols counter.
  induction mask as [|b mask IH]; intros start cols counter Hcounter Hrun Hrows.
  - cbn in Hrun. injection Hrun as <- <-. cbn.
    split; [exact Hrows|]. split; lia.
  - change (for_enumerate (forward_step self x) start (b :: mask) (cols, counter))
      with (st' ← forward_step self x start b (cols, counter);
            for_enumerate (forward_step self x) (start + 1) mask st') in Hrun.
    destruct (forward_step self x start b (cols, counter)) as [[cols1 counter1]|e]
      eqn:Hstep; [|discriminate Hrun].
    change (for_enumerate (forward_step self x) (start + 1) mask (cols1, counter1)
            = Ok (cols', counter')) in Hrun.
    cbn in Hstep.
    assert (Hsum : ∀ c, total_width (cols ++ [c])
                        = (total_width cols + shape1 c)%nat).
    { intros c. unfold total_width. clear. induction cols as [|c0 cols IH];
        cbn; [lia | rewrite IH; lia]. }
    destruct b.
    + destruct (column x start) as [c|e] eqn:Hc; [|discriminate Hstep].
      cbn in Hstep. injection Hstep as <- <-.
      destruct (IH _ _ _ Hcounter Hrun) as (Hrows' & Hwidth & Hlen).
      { apply Forall_app. split; [exact Hrows|].
        apply Forall_singleton. cbn. unfold column in Hc.
        destruct (norm_index _ _); [|discriminate Hc]. cbn in Hc.
        injection Hc as <-. rewrite !length_fmap. reflexivity. }
      split; [exact Hrows'|]. rewrite Hwidth, Hlen, Hsum, length_app. cbn.
      split; lia.
    + destruct (py_getitem (embeddings self) counter) as [emb|e] eqn:Hemb;
        [|discriminate Hstep].
      cbn in Hstep.
      destruct (column x start) as [c|e] eqn:Hc; [|discriminate Hstep].
      cbn in Hstep.
      destruct (Embedding_forward emb (long <$> c)) as [out|e] eqn:Hout;
        [|discriminate Hstep].
      cbn in Hstep. injection Hstep as <- <-.
      apply py_getitem_Ok in Hemb; [|exact Hcounter].
      unfold Embedding_forward in Hout.
      destruct (mapM _ (long <$> c)) as [rows|e] eqn:Hrows_out;
        [|discriminate Hout].
      cbn in Hout. injection Hout as <-.
      apply mapM_result_length in Hrows_out.
      assert (Hnext : 0 ≤ counter + 1) by lia.
      destruct (IH _ _ _ Hnext Hrun) as (Hrows' & Hwidth & Hlen).
      { apply Forall_app. split; [exact Hrows|].
        apply Forall_singleton. cbn. rewrite Hrows_out, length_fmap.
        unfold column in Hc.
        destruct (norm_index _ _); [|discriminate Hc]. cbn in Hc.
        injection Hc as <-. rewrite length_fmap. reflexivity. }
      split; [exact Hrows'|]. rewrite Hwidth, Hlen, Hsum, length_app. cbn.
      rewrite (drop_S _ _ _ Hemb).
      replace (Z.to_nat (counter + 1)) with (Datatypes.S (Z.to_nat counter))
        by lia.
      split; lia.
Qed.

Lemma torch_cat1_rows (cols : list tensor2) (b : nat) (y : tensor2) :
  Forall (λ c, length (data c) = b) cols →
  torch_cat1 cols = Ok y →
  length (data y) = b ∧ shape1 y = total_width cols.
Proof.
  intros Hrows Hcat. destruct cols as [|c0 cols]; [discriminate Hcat|].
  cbn in Hcat. injection Hcat as <-. cbn. split; [|reflexivity].
  apply Forall_cons in Hrows as [Hc0 Hrest].
  subst b. rewrite length_zip_with.
  assert (Hfold : length (foldr (λ c acc, zip_with app (data c) acc)
                            (replicate (length (data c0)) []) cols)
                  = length (data c0)).
  { induction Hrest as [|c cols Hc _ IH]; cbn.
    - apply length_replicate.
    - rewrite length_zip_with, IH, Hc. lia. }
  rewrite Hfold. lia.
Qed.
End TabularForwardFacts.

(** X20. In embedding mode, a category code that no table can hold makes
    the forward pass raise: a categorical column with a negative code in
    some row, or with a code that is at least the cardinality of every
    table, is never embedded. *)
Theorem forward_rejects_bad_category_code
    (self : Tabular.TabularDataEmbeddingGenerator) (x : Tabular.tensor2)
    (j r : nat) (row : list Q) (v : Q) :
  Tabular.skip_embedding self = false →
  Tabular.continuous_idx self !! j = Some false →
  Tabular.data x !! r = Some row → row !! j = Some v →
  Tabular.long v < 0
  ∨ Forall (λ emb, Tabular.num_embeddings emb ≤ Tabular.long v)
      (Tabular.embeddings self) →
  is_Raise (Tabular.forward self x).
Proof.
  intros Hskip Hj Hrow Hv Hbad. unfold Tabular.forward. rewrite Hskip.
  destruct (for_enumerate_bad_code self x j r row v
              (Tabular.continuous_idx self) j 0 ([], 0))
    as [e ->]; [cbn; lia | lia | exact Hj | exact Hrow | exact Hv | exact Hbad |].
  eexists. reflexivity.
Qed.

Lemma forward_rejects_bad_category_code_witness :
  is_Raise
    (Tabular.forward TabularExamples.categorical_generator
       (Tabular.mkTensor2 3 [[7; 5; 9]]%Q)).
Proof.
  apply (forward_rejects_bad_category_code
           TabularExamples.categorical_generator
           (Tabular.mkTensor2 3 [[7; 5; 9]]%Q) 1 0 [7; 5; 9]%Q 5%Q);
    [reflexivity | reflexivity | reflexivity | reflexivity |].
  right. repeat constructor. vm_compute. discriminate.
Defined.

(** X21. In embedding mode, whatever the forward pass returns has one row
    per row of the input, and as many columns as the mask and the tables
    say: one per continuous column and the embedding width of its table per
    categorical column, the tables taken in column order. *)
Theorem forward_output_shape
    (self : Tabular.TabularDataEmbeddingGenerator) (x y : Tabular.tensor2) :
  Tabular.skip_embedding self = false →
  Tabular.forward self x = Ok y →
  length (Tabular.data y) = length (Tabular.data x)
  ∧ Tabular.shape1 y
    = TabularShape.output_width (Tabular.continuous_idx self)
        (Tabular.embeddings self).
Proof.
  intros Hskip Hrun. unfold Tabular.forward in Hrun. rewrite Hskip in Hrun.
  destruct (Tabular.for_enumerate _ _ _ _) as [[cols counter]|e] eqn:Hloop;
    [|discriminate Hrun].
  cbn in Hrun.
  destruct (for_enumerate_columns self x _ _ _ _ _ _ (Z.le_refl 0) Hloop
              (Forall_nil_2 _)) as (Hrows & Hwidth & _).
  destruct (torch_cat1_rows cols _ y Hrows Hrun) as [Hb Hshape].
  split; [exact Hb|]. rewrite Hshape, Hwidth. reflexivity.
Qed.

Lemma forward_output_shape_witness :
  ∃ y,
    Tabular.forward TabularExamples.categorical_generator TabularExamples.input3
      = Ok y
    ∧ length (Tabular.data y) = 1%nat ∧ Tabular.shape1 y = 5%nat.
Proof.
  eexists. split; [reflexivity|].
  apply (forward_output_shape TabularExamples.categorical_generator
           TabularExamples.input3 _ eq_refl eq_refl).
Defined.

(** *** The time conditioning plugin *)

Section TimeFacts.
Import Repetition TimeConditioning.
Context {P CKw : Type}.
Variable Linear_params : Z → Z → P.
Variable GELU_params : P.

(** The heap that [Net] hands to [net_t], and what it returns. *)
Lemma Net_run (net_t : Z → CKw → template P) (num_layers mf : Z)
    (kwargs : CKw) (h h' : gmap loc (obj P)) (m : time_module P) :
  Net Linear_params GELU_params net_t num_layers (Some mf) kwargs h = Ok (m, h') →
  let linear := fresh (dom h) in
  let h1 := <[linear := LeafModule (Linear_params mf mf)]> h in
  let gelu := fresh (dom h1) in
  let h2 := <[gelu := LeafModule GELU_params]> h1 in
  let layer := fresh (dom h2) in
  let h3 := <[layer := SequentialModule [linear; gelu]]> h2 in
  let s := fresh (dom h3) in
  let h4 := <[s := SequentialModule (tuple_mul layer num_layers)]> h3 in
  0 ≤ mf
  ∧ Shapes.NumberEmbedder_init mf 256 = Ok (embedder m)
  ∧ mlp m = Instance s
  ∧ net_t mf kwargs h4 = Ok (net m, h').
Proof.
  intros Hrun. cbn zeta. unfold Net in Hrun.
  unfold mbind, M_mbind, M_bind in Hrun.
  destruct (Shapes.NumberEmbedder_init mf 256) as [ne|e] eqn:Hne;
    [|discriminate Hrun].
  cbn [lift] in Hrun.
  assert (Hmf : 0 ≤ mf).
  { unfold Shapes.NumberEmbedder_init in Hne. cbn in Hne.
    destruct (Z.ltb_spec mf 0); [discriminate Hne | assumption]. }
  unfold nn_Linear in Hrun.
  destruct (Z.ltb_spec mf 0); [lia|]. cbn [orb] in Hrun.
  unfold leaf_class, nn_Sequential, Repeat, Sequential, alloc in Hrun.
  unfold mbind, M_mbind, M_bind, mret, M_mret, M_ret in Hrun.
  destruct (net_t mf kwargs _) as [[l h5]|e] eqn:Hnet; [|discriminate Hrun].
  injection Hrun as <- <-. cbn. repeat split; assumption.
Qed.

Lemma Net_returns (net_t : Z → CKw → template P) (num_layers mf : Z)
    (kwargs : CKw) (h : gmap loc (obj P)) :
  0 ≤ mf → (∀ h0, is_Ok (net_t mf kwargs h0)) →
  is_Ok (Net Linear_params GELU_params net_t num_layers (Some mf) kwargs h).
Proof.
  intros Hmf Hnet. unfold Net.
  unfold mbind, M_mbind, M_bind.
  assert (Hne : is_Ok (Shapes.NumberEmbedder_init mf 256)).
  { unfold Shapes.NumberEmbedder_init. cbn.
    destruct (Z.ltb_spec mf 0); [lia|]. eexists. reflexivity. }
  destruct Hne as [ne ->]. cbn [lift].
  unfold nn_Linear. destruct (Z.ltb_spec mf 0); [lia|]. cbn [orb].
  unfold leaf_class, nn_Sequential, Repeat, Sequential, alloc.
  unfold mbind, M_mbind, M_bind, mret, M_mret, M_ret.
  match goal with |- is_Ok (match net_t mf kwargs ?h4 with _ => _ end) =>
    destruct (Hnet h4) as [[l h5] ->] end.
  eexists. reflexivity.
Qed.
End TimeFacts.

(** X22. [Net] of [TimeConditioningPlugin] raises [AssertionError] when
    [modulation_features] is not given and [RuntimeError] when it is
    negative, in both cases whatever [net_t] is; for every other value it
    returns as soon as [net_t] does. *)
Theorem TimeConditioning_Net_outcome {P CKw : Type}
    (Linear_params : Z → Z → P) (GELU_params : P)
    (net_t : Z → CKw → Repetition.template P) (num_layers : Z) (kwargs : CKw)
    (h : gmap Repetition.loc (Repetition.obj P)) :
  TimeConditioning.Net Linear_params GELU_params net_t num_layers None kwargs h
    = Raise (AssertionError "TimeConditioningPlugin requires modulation_features")
  ∧ (∀ mf, mf < 0 →
       TimeConditioning.Net Linear_params GELU_params net_t num_layers
         (Some mf) kwargs h = Raise RuntimeError)
  ∧ (∀ mf, 0 ≤ mf → (∀ h0, is_Ok (net_t mf kwargs h0)) →
       is_Ok (TimeConditioning.Net Linear_params GELU_params net_t num_layers
                (Some mf) kwargs h)).
Proof.
  split; [reflexivity|]. split.
  - intros mf Hmf. unfold TimeConditioning.Net, mbind, M_mbind, M_bind.
    unfold Shapes.NumberEmbedder_init. cbn.
    destruct (Z.ltb_spec mf 0); [reflexivity | lia].
  - intros mf Hmf Hnet. apply Net_returns; assumption.
Qed.

Lemma TimeConditioning_Net_outcome_witness :
  TimeConditioning.Net (λ _ _, 0) 0 (λ _ (_ : unit), Repetition.leaf_class 0) 2
    (Some (-4)) tt ∅ = Raise RuntimeError
  ∧ is_Ok (TimeConditioning.Net (λ _ _, 0) 0
             (λ _ (_ : unit), Repetition.leaf_class 0) 2 (Some 4) tt ∅).
Proof.
  pose proof (TimeConditioning_Net_outcome (λ _ _, 0) 0
                (λ _ (_ : unit), Repetition.leaf_class 0) 2 tt ∅)
    as (_ & Hneg & Hpos).
  split.
  - apply Hneg. lia.
  - apply Hpos; [lia|]. intros h0. eexists. reflexivity.
Defined.

(** X23. The [num_layers] layers of the time MLP that [Net] builds are one
    object: the chain holds [num_layers] references to a single
    [nn.Sequential] of one [nn.Linear] and one [nn.GELU], so all layers
    share one set of weights, and a write to the weights of that linear
    layer is seen through every position of the chain. [net_t] is assumed
    to leave the modules that exist when it is called as they are. *)
Theorem TimeConditioning_mlp_layers_shared {P CKw : Type}
    (Linear_params : Z → Z → P) (GELU_params : P)
    (net_t : Z → CKw → Repetition.template P) (num_layers mf : Z)
    (kwargs : CKw) (h h' : gmap Repetition.loc (Repetition.obj P))
    (m : TimeConditioning.time_module P) :
  (∀ h0 l h1, net_t mf kwargs h0 = Ok (l, h1) →
     ∀ l', is_Some (h0 !! l') → h1 !! l' = h0 !! l') →
  TimeConditioning.Net Linear_params GELU_params net_t num_layers (Some mf)
    kwargs h = Ok (m, h') →
  ∃ chain layer linear gelu,
    TimeConditioning.mlp m = Repetition.Instance chain
    ∧ Repetition.chain_blocks h' chain
      = Some (replicate (Z.to_nat num_layers) layer)
    ∧ Repetition.chain_blocks h' layer = Some [linear; gelu]
    ∧ h' !! linear = Some (Repetition.LeafModule (Linear_params mf mf))
    ∧ h' !! gelu = Some (Repetition.LeafModule GELU_params)
    ∧ linear ≠ gelu
    ∧ ∀ p,
        let h'' := Repetition.set_params linear p h' in
        Repetition.chain_blocks h'' chain
          = Some (replicate (Z.to_nat num_layers) layer)
        ∧ Repetition.chain_blocks h'' layer = Some [linear; gelu]
        ∧ h'' !! linear = Some (Repetition.LeafModule p).
Proof.
  intros Hkeep Hrun.
  destruct (Net_run _ _ _ _ _ _ _ _ _ Hrun) as (_ & _ & Hmlp & Hnet).
  set (linear := fresh (dom h)) in *.
  set (h1 := <[linear := Repetition.LeafModule (Linear_params mf mf)]> h) in *.
  set (gelu := fresh (dom h1)) in *.
  set (h2 := <[gelu := Repetition.LeafModule GELU_params]> h1) in *.
  set (layer := fresh (dom h2)) in *.
  set (h3 := <[layer := Repetition.SequentialModule [linear; gelu]]> h2) in *.
  set (chain := fresh (dom h3)) in *.
  set (h4 := <[chain := Repetition.SequentialModule
                          (Repetition.tuple_mul layer num_layers)]> h3) in *.
  assert (Hgelu1 : h1 !! gelu = None) by (apply not_elem_of_dom, is_fresh).
  assert (Hlayer2 : h2 !! layer = None) by (apply not_elem_of_dom, is_fresh).
  assert (Hchain3 : h3 !! chain = None) by (apply not_elem_of_dom, is_fresh).
  assert (Hlinear1 : h1 !! linear
                     = Some (Repetition.LeafModule (Linear_params mf mf))).
  { apply lookup_insert_eq. }
  assert (Hne1 : linear ≠ gelu).
  { intros Heq. rewrite <- Heq, Hlinear1 in Hgelu1. discriminate. }
  assert (Hgelu2 : h2 !! gelu = Some (Repetition.LeafModule GELU_params)).
  { apply lookup_insert_eq. }
  assert (Hlinear2 : h2 !! linear
                     = Some (Repetition.LeafModule (Linear_params mf mf))).
  { unfold h2. rewrite lookup_insert_ne by congruence. exact Hlinear1. }
  assert (Hne2 : layer ≠ linear) by (intros Heq; rewrite Heq in Hlayer2; congruence).
  assert (Hne3 : layer ≠ gelu) by (intros Heq; rewrite Heq in Hlayer2; congruence).
  assert (Hlayer3 : h3 !! layer
                    = Some (Repetition.SequentialModule [linear; gelu])).
  { apply lookup_insert_eq. }
  assert (Hlinear3 : h3 !! linear
                     = Some (Repetition.LeafModule (Linear_params mf mf))).
  { unfold h3. rewrite lookup_insert_ne by exact Hne2. exact Hlinear2. }
  assert (Hgelu3 : h3 !! gelu = Some (Repetition.LeafModule GELU_params)).
  { unfold h3. rewrite lookup_insert_ne by exact Hne3. exact Hgelu2. }
  assert (Hne4 : chain ≠ linear) by (intros Heq; rewrite Heq in Hchain3; congruence).
  assert (Hne5 : chain ≠ gelu) by (intros Heq; rewrite Heq in Hchain3; congruence).
  assert (Hne6 : chain ≠ layer) by (intros Heq; rewrite Heq in Hchain3; congruence).
  assert (Hchain4 : h4 !! chain
                    = Some (Repetition.SequentialModule
                              (replicate (Z.to_nat num_layers) layer))).
  { apply lookup_insert_eq. }
  assert (Hlayer4 : h4 !! layer
                    = Some (Repetition.SequentialModule [linear; gelu])).
  { unfold h4. rewrite lookup_insert_ne by exact Hne6. exact Hlayer3. }
  assert (Hlinear4 : h4 !! linear
                     = Some (Repetition.LeafModule (Linear_params mf mf))).
  { unfold h4. rewrite lookup_insert_ne by exact Hne4. exact Hlinear3. }
  assert (Hgelu4 : h4 !! gelu = Some (Repetition.LeafModule GELU_params)).
  { unfold h4. rewrite lookup_insert_ne by exact Hne5. exact Hgelu3. }
  pose proof (Hkeep _ _ _ Hnet) as Hsame.
  assert (Hchain' : h' !! chain = h4 !! chain) by (apply Hsame; rewrite Hchain4; eauto).
  assert (Hlayer' : h' !! layer = h4 !! layer) by (apply Hsame; rewrite Hlayer4; eauto).
  assert (Hlinear' : h' !! linear = h4 !! linear) by (apply Hsame; rewrite Hlinear4; eauto).
  assert (Hgelu' : h' !! gelu = h4 !! gelu) by (apply Hsame; rewrite Hgelu4; eauto).
  rewrite Hchain4 in Hchain'. rewrite Hlayer4 in Hlayer'.
  rewrite Hlinear4 in Hlinear'. rewrite Hgelu4 in Hgelu'.
  exists chain, layer, linear, gelu.
  split; [exact Hmlp|]. unfold Repetition.chain_blocks.
  split; [rewrite Hchain'; reflexivity|].
  split; [rewrite Hlayer'; reflexivity|].
  split; [exact Hlinear'|]. split; [exact Hgelu'|]. split; [exact Hne1|].
  intros p. cbn zeta.
  rewrite !set_params_other by congruence.
  split; [rewrite Hchain'; reflexivity|].
  split; [rewrite Hlayer'; reflexivity|].
  unfold Repetition.set_params. rewrite Hlinear'. apply lookup_insert_eq.
Qed.

Lemma TimeConditioning_mlp_layers_shared_witness :
  ∃ m h',
    TimeConditioning.Net (λ _ _, 0) 1 (λ _ (_ : unit), Repetition.leaf_class 2)
      3 (Some 4) tt ∅ = Ok (m, h')
    ∧ ∃ chain layer,
        TimeConditioning.mlp m = Repetition.Instance chain
        ∧ Repetition.chain_blocks h' chain = Some [layer; layer; layer].
Proof.
  destruct (Net_returns (λ _ _, 0) 1 (λ _ (_ : unit), Repetition.leaf_class 2)
              3 4 tt ∅ ltac:(lia) ltac:(intros h0; eexists; reflexivity))
    as [[m h'] Hrun].
  exists m, h'. split; [exact Hrun|].
  destruct (TimeConditioning_mlp_layers_shared (λ _ _, 0) 1
              (λ _ (_ : unit), Repetition.leaf_class 2) 3 4 tt ∅ h' m)
    as (chain & layer & linear & gelu & Hmlp & Hchain & _).
  - intros h0 l h1 Hnet. apply (leaf_class_constructs 2 h0 l h1 Hnet).
  - exact Hrun.
  - exists chain, layer. split; [exact Hmlp | exact Hchain].
Defined.

(** *** The tabular conditioning plugin *)

Lemma zip_with_app_nil_r {A} (rows : list (list A)) :
  zip_with app rows (replicate (length rows) []) = rows.
Proof.
  induction rows as [|row rows IH]; [reflexivity|].
  cbn. rewrite app_nil_r, IH. reflexivity.
Qed.

(** Concatenating two tensors with equally many rows appends the rows
    pairwise. *)
Lemma torch_cat_pair_rows (a b : Tabular.tensor2) :
  length (Tabular.data a) = length (Tabular.data b) →
  TabularConditioning.torch_cat_pair a b
  = Ok (Tabular.mkTensor2 (Tabular.shape1 a + Tabular.shape1 b)
          (zip_with app (Tabular.data a) (Tabular.data b))).
Proof.
  intros Hrows. unfold TabularConditioning.torch_cat_pair.
  rewrite bool_decide_eq_true_2 by exact Hrows. cbn.
  rewrite Hrows, zip_with_app_nil_r, Nat.add_0_r. reflexivity.
Qed.

(** X24. In [blocks.py], [TabularDataConditioningPlugin] cannot be called
    with categorical columns: with a category cardinality or a categorical
    index given, building the embedder raises [NameError] for [np], before
    [Net] is defined and whatever the other arguments are. *)
Theorem TabularDataConditioningPlugin_with_categories_raises
    (uninitialised : nat → nat → Q) (embedding_init : nat → Z → Z → nat → list Q)
    (cc_embedding_features : Z) (cat_dims cat_idxs cat_emb_dims : list Z)
    (group_matrix : Tabular.tensor2) :
  ¬ (cat_dims = [] ∧ cat_idxs = []) →
  TabularConditioning.TabularDataConditioningPlugin uninitialised embedding_init
    Tabular.blocks_np cc_embedding_features cat_dims cat_idxs cat_emb_dims
    group_matrix
  = Raise (NameError "np").
Proof.
  intros Hcat. unfold TabularConditioning.TabularDataConditioningPlugin.
  rewrite init_with_categories_raises_NameError by exact Hcat. reflexivity.
Qed.

Lemma TabularDataConditioningPlugin_with_categories_raises_witness :
  TabularConditioning.TabularDataConditioningPlugin TabularExamples.zero_memory
    TabularExamples.ones_init Tabular.blocks_np 3 [] [1] []
    TabularExamples.group_matrix
  = Raise (NameError "np").
Proof.
  apply (TabularDataConditioningPlugin_with_categories_raises
           TabularExamples.zero_memory TabularExamples.ones_init 3 [] [1] []
           TabularExamples.group_matrix).
  intros [_ Hidxs]. discriminate Hidxs.
Defined.

(** X25. Without categorical columns the plugin is built, and its [Net]
    accepts only the width [cc_embedding_features] (the default) for the
    embedding: any other width raises [AssertionError] before [net_t] is
    called. The module that [Net] returns hands [ccData] itself to the base
    network as the embedding; when an [embedding] with as many rows is
    given, each row of it is appended to the row of [ccData], and with a
    different number of rows the call raises. *)
Theorem TabularDataConditioningPlugin_passes_data_through {S X Out Kw CKw : Type}
    (uninitialised : nat → nat → Q) (embedding_init : nat → Z → Z → nat → list Q)
    (np : option Tabular.numpy) (cc_embedding_features : Z)
    (cat_emb_dims : list Z) (group_matrix : Tabular.tensor2)
    (net_t : Z → CKw → M S (TabularConditioning.network S X Out Kw))
    (kwargs : CKw) :
  ∃ self,
    TabularConditioning.TabularDataConditioningPlugin uninitialised
      embedding_init np cc_embedding_features [] [] cat_emb_dims group_matrix
    = Ok self
    ∧ (∀ w s, w ≠ cc_embedding_features →
         TabularConditioning.Net self net_t (Some w) kwargs s
         = Raise (AssertionError
                    (TabularConditioning.features_message cc_embedding_features)))
    ∧ TabularConditioning.Net self net_t None kwargs
      ≃ TabularConditioning.Net self net_t (Some cc_embedding_features) kwargs
    ∧ ∀ w s m s',
        TabularConditioning.Net self net_t w kwargs s = Ok (m, s') →
        ∀ x ccData kw,
          TabularConditioning.forward m x ccData None kw
          ≃ TabularConditioning.cm_net m x ccData kw
          ∧ ∀ embedding,
              (length (Tabular.data ccData) = length (Tabular.data embedding) →
               TabularConditioning.forward m x ccData (Some embedding) kw
               ≃ TabularConditioning.cm_net m x
                   (Tabular.mkTensor2
                      (Tabular.shape1 ccData + Tabular.shape1 embedding)
                      (zip_with app (Tabular.data ccData)
                         (Tabular.data embedding))) kw)
              ∧ (length (Tabular.data ccData) ≠ length (Tabular.data embedding) →
                 ∀ s0, TabularConditioning.forward m x ccData (Some embedding)
                         kw s0 = Raise RuntimeError).
Proof.
  eexists. split; [reflexivity|]. split; [|split].
  - intros w s Hw. unfold TabularConditioning.Net. cbn.
    unfold mbind, M_mbind, M_bind.
    destruct (Z.eqb_spec w cc_embedding_features); [contradiction | reflexivity].
  - intros s. reflexivity.
  - intros w s m s' Hnet.
    assert (Hembedder : Tabular.skip_embedding
                          (TabularConditioning.cm_embedder m) = true).
    { unfold TabularConditioning.Net in Hnet. cbn in Hnet.
      unfold mbind, M_mbind, M_bind in Hnet.
      destruct (lift _ s) as [[[] s1]|e]; [|discriminate Hnet].
      destruct (net_t _ kwargs s1) as [[net s2]|e]; [|discriminate Hnet].
      injection Hnet as <- <-. reflexivity. }
    intros x ccData kw.
    assert (Hforward : Tabular.forward (TabularConditioning.cm_embedder m) ccData
                       = Ok ccData).
    { unfold Tabular.forward. rewrite Hembedder. reflexivity. }
    split; [|intros embedding; split].
    + intros s0. unfold TabularConditioning.forward.
      rewrite Hforward. reflexivity.
    + intros Hrows s0. unfold TabularConditioning.forward.
      unfold mbind, M_mbind, M_bind. rewrite Hforward. cbn [lift].
      rewrite (torch_cat_pair_rows _ _ Hrows). reflexivity.
    + intros Hrows s0. unfold TabularConditioning.forward.
      unfold mbind, M_mbind, M_bind. rewrite Hforward. cbn [lift].
      unfold TabularConditioning.torch_cat_pair.
      rewrite bool_decide_eq_false_2 by exact Hrows. reflexivity.
Qed.

Lemma TabularDataConditioningPlugin_passes_data_through_witness :
  ∃ self,
    TabularConditioning.TabularDataConditioningPlugin TabularExamples.zero_memory
      TabularExamples.ones_init Tabular.blocks_np 3 [] [] []
      TabularExamples.group_matrix = Ok self
    ∧ TabularConditioning.Net (S := unit) (X := unit) (Kw := unit) self
        (λ _ (_ : unit), mret (λ _ embedding _, mret embedding)) (Some 2) tt tt
      = Raise (AssertionError
                 "TextConditioningPlugin requires embedding_features=3").
Proof.
  destruct (TabularDataConditioningPlugin_passes_data_through
              (S := unit) (X := unit) (Kw := unit)
              TabularExamples.zero_memory TabularExamples.ones_init
              Tabular.blocks_np 3 [] TabularExamples.group_matrix
              (λ _ (_ : unit), mret (λ _ embedding _, mret embedding)) tt)
    as (self & Hself & Hwidth & _).
  exists self. split; [exact Hself|].
  apply (Hwidth 2 tt). lia.
Defined.
